(** * Anomaly detection engine of the health monitor backend

    A shallow embedding of [src/services/anomalyDetector.js] (class
    [AnomalyDetector]) and of the [POST /api/anomalies/retrospective]
    handler of [src/routes/anomalies.js], with the properties of the
    detection pipeline stated and proved over it; of the data generator
    ([src/services/healthDataGenerator.js]) the deterministic parts that
    the detector reads back are embedded: the fall-risk score, the clamped
    motion level and the blood-pressure string.

    Modelling conventions.
    - JavaScript numbers are IEEE 754 doubles.  A number held in a record
      is given by its rational value ([Q]): every finite double is a
      rational, and a rational that is not a double, such as the literal
      [72.1], stands for the double nearest to it.  Comparisons with
      constants that are doubles ([38.5], [35], [80], [-5], [0.5], the
      thresholds of a profile) are taken on the rationals, where they are
      exact.  The heart-rate statistics, the average of the recent motion
      and the comparisons with [0.1], [0.15] and [0.6] are carried out in
      binary64 ([JS.number], on the Standard Library's specification of
      floating-point arithmetic), rounding as the program does.
    - Strings are given by their UTF-8 bytes.
    - A stored document has the paths of its Mongoose schema: the schemas
      are strict, so a field of the saved object that the schema does not
      declare is not stored.
    - JavaScript objects used as dictionaries ([dataWindow],
      [anomalyHistory], [patientMap]) are finite maps keyed by strings;
      patient ids are taken not to be names of [Object.prototype]
      properties, which a lookup on a plain object would find.
    - The wall clock ([new Date().getHours()]) and the outcome of the
      persistence calls are explicit inputs.
    - Template literals are kept as lists of fragments, so that "the message
      mentions the patient id" is a statement about the fragments.
    - Inputs have the types of the Mongoose schemas (numbers are numbers,
      [bloodPressure] is a string), so the [TypeError]s that the outer
      [try]/[catch] of the retrospective run would catch do not arise. *)

From Stdlib Require Import ZArith QArith Qabs Lia List String Ascii Bool DecimalString.
From Stdlib Require SpecFloat.
From stdpp Require Import gmap strings.
From Stdlib Require Import Sorted DecimalPos.
From Stdlib Require Lqa.
Import ListNotations.

Local Open Scope string_scope.

(** ** JavaScript primitives used by the detector *)

Module JS.

(** [a < b] and [a > b] on numbers. *)
Definition ltb (a b : Q) : bool :=
  match (a ?= b)%Q with Lt => true | _ => false end.
Definition gtb (a b : Q) : bool := ltb b a.

(** A comparison one side of which may be [undefined] or [NaN] is false. *)
Definition ltb_opt (a b : option Q) : bool :=
  match a, b with Some x, Some y => ltb x y | _, _ => false end.
Definition gtb_opt (a b : option Q) : bool := ltb_opt b a.

(** [arr.slice(-n)]: the last [n] elements, all of them when fewer. *)
Definition slice_last {A} (n : nat) (l : list A) : list A :=
  skipn (length l - n) l.

(** *** Arithmetic in IEEE 754 binary64

    The operations are those of the Standard Library's specification of
    floating-point arithmetic, at precision 53 and maximal exponent 1024,
    rounding to nearest, ties to even. *)

Definition number : Type := SpecFloat.spec_float.

Definition prec : Z := 53.
Definition emax : Z := 1024.

Definition NaN : number := SpecFloat.S754_nan.
Definition zero : number := SpecFloat.S754_zero false.

(** The double nearest to a rational: the rational itself when it is a
    double, and what reading the decimal literal gives otherwise. *)
Definition of_Q (q : Q) : number :=
  let nearest (sign : bool) (n : positive) :=
    let '(m, e, l) :=
      SpecFloat.SFdiv_core_binary prec emax (Z.pos n) 0 (Z.pos (Qden q)) 0 in
    SpecFloat.binary_round_aux prec emax sign m e l in
  match Qnum q with
  | Z0 => zero
  | Z.pos n => nearest false n
  | Z.neg n => nearest true n
  end.

Definition of_nat (n : nat) : number := of_Q (inject_Z (Z.of_nat n)).

(** The rational value of a finite double. *)
Definition to_Q (x : number) : option Q :=
  match x with
  | SpecFloat.S754_zero _ => Some 0%Q
  | SpecFloat.S754_finite s m e =>
      let v :=
        match e with
        | Z0 => inject_Z (Z.pos m)
        | Z.pos p => inject_Z (Z.pos m * 2 ^ Z.pos p)
        | Z.neg p => (Z.pos m # 2 ^ p)%Q
        end in
      Some (if s then (- v)%Q else v)
  | _ => None
  end.

(** [a + b], [a - b], [a * b], [a / b] *)
Definition add : number -> number -> number := SpecFloat.SFadd prec emax.
Definition sub : number -> number -> number := SpecFloat.SFsub prec emax.
Definition mul : number -> number -> number := SpecFloat.SFmul prec emax.
Definition div : number -> number -> number := SpecFloat.SFdiv prec emax.

(** [a < b] and [a > b]; false when a side is [NaN]. *)
Definition lt (a b : number) : bool := SpecFloat.SFltb a b.
Definition gt (a b : number) : bool := lt b a.

(** [Math.sqrt(x)], [Math.abs(x)], [Math.max(a, b)] *)
Definition Math_sqrt : number -> number := SpecFloat.SFsqrt prec emax.
Definition Math_abs : number -> number := SpecFloat.SFabs.
Definition Math_max (a b : number) : number :=
  match SpecFloat.SFcompare a b with
  | None => NaN
  | Some Lt => b
  | Some _ => a
  end.

(** [Math.pow(x, 2)]: the square, correctly rounded (the exponent 2 is the
    case [return x * x] of the engine's [pow]). *)
Definition Math_pow2 (x : number) : number := mul x x.

(** [x || y] on numbers: [y] when [x] is [0], [-0] or [NaN]. *)
Definition or_else (x y : number) : number :=
  match x with
  | SpecFloat.S754_zero _ | SpecFloat.S754_nan => y
  | _ => x
  end.

(** The same double (as [Object.is] has it). *)
Definition same (a b : number) : bool :=
  match a, b with
  | SpecFloat.S754_zero s, SpecFloat.S754_zero s' => Bool.eqb s s'
  | SpecFloat.S754_infinity s, SpecFloat.S754_infinity s' => Bool.eqb s s'
  | SpecFloat.S754_nan, SpecFloat.S754_nan => true
  | SpecFloat.S754_finite s m e, SpecFloat.S754_finite s' m' e' =>
      Bool.eqb s s' && Pos.eqb m m' && Z.eqb e e'
  | _, _ => false
  end.

(** [arr.reduce((a, b) => a + b)] on a non-empty array, [0] kept for the
    empty one (the source never reduces an empty array). *)
Definition sum (l : list number) : number :=
  match l with
  | [] => zero
  | x :: r => fold_left add r x
  end.

(** [str.split(sep)] for a one-character separator. *)
Fixpoint split_aux (sep : ascii) (cur : string) (s : string) : list string :=
  match s with
  | EmptyString => [cur]
  | String c r =>
      if Ascii.eqb c sep then cur :: split_aux sep EmptyString r
      else split_aux sep (cur ++ String c EmptyString) r
  end.
Definition split (sep : ascii) (s : string) : list string :=
  split_aux sep EmptyString s.

(** White space and line terminators, as [parseInt] skips them (the
    WhiteSpace and LineTerminator productions of ECMAScript), on the UTF-8
    bytes of the string: the one-byte ones (U+0009 to U+000D, U+0020), the
    two-byte U+00A0, and the three-byte U+1680, U+2000 to U+200A, U+2028,
    U+2029, U+202F, U+205F, U+3000 and U+FEFF. *)
Definition is_space1 (a : ascii) : bool :=
  let a := nat_of_ascii a in
  ((9 <=? a) && (a <=? 13) || (a =? 32))%nat.

Definition is_space2 (a b : ascii) : bool :=
  ((nat_of_ascii a =? 194) && (nat_of_ascii b =? 160))%nat.

Definition is_space3 (a b c : ascii) : bool :=
  let a := nat_of_ascii a in
  let b := nat_of_ascii b in
  let c := nat_of_ascii c in
  ((a =? 225) && (b =? 154) && (c =? 128)
   || (a =? 226) && (b =? 128)
      && ((128 <=? c) && (c <=? 138) || (c =? 168) || (c =? 169) || (c =? 175))
   || (a =? 226) && (b =? 129) && (c =? 159)
   || (a =? 227) && (b =? 128) && (c =? 128)
   || (a =? 239) && (b =? 187) && (c =? 191))%nat.

(** The first byte of a white space of two or three bytes. *)
Definition space_lead (a : ascii) : bool :=
  let a := nat_of_ascii a in
  ((a =? 194) || (a =? 225) || (a =? 226) || (a =? 227) || (a =? 239))%nat.

Fixpoint trim_start (s : string) : string :=
  match s with
  | String a r =>
      if is_space1 a then trim_start r
      else if negb (space_lead a) then s
      else
        match r with
        | String b r2 =>
            if is_space2 a b then trim_start r2
            else
              match r2 with
              | String c r3 => if is_space3 a b c then trim_start r3 else s
              | EmptyString => s
              end
        | EmptyString => s
        end
  | EmptyString => s
  end.

Definition digit_val (radix : Z) (c : ascii) : option Z :=
  let n := Z.of_nat (nat_of_ascii c) in
  let v :=
    if ((48 <=? n) && (n <=? 57))%Z then Some (n - 48)%Z
    else if ((97 <=? n) && (n <=? 122))%Z then Some (n - 87)%Z
    else if ((65 <=? n) && (n <=? 90))%Z then Some (n - 55)%Z
    else None in
  match v with
  | Some d => if (d <? radix)%Z then Some d else None
  | None => None
  end.

(** The longest prefix of digits, read in the given radix; [None] when
    there is no digit at all. *)
Fixpoint digits (radix : Z) (acc : option Z) (s : string) : option Z :=
  match s with
  | EmptyString => acc
  | String c r =>
      match digit_val radix c with
      | Some d =>
          digits radix (Some (match acc with Some a => a * radix + d | None => d end)%Z) r
      | None => acc
      end
  end.

(** [parseInt(s)] with no radix argument; [None] is [NaN]. *)
Definition parseInt (s : string) : option Z :=
  let s := trim_start s in
  let '(sign, s) :=
    match s with
    | String "-" r => ((-1)%Z, r)
    | String "+" r => (1%Z, r)
    | _ => (1%Z, s)
    end in
  let '(radix, s) :=
    match s with
    | String "0" (String "x" r) => (16%Z, r)
    | String "0" (String "X" r) => (16%Z, r)
    | _ => (10%Z, s)
    end in
  option_map (Z.mul sign) (digits radix None s).

(** [`${n}`] for an integer [n]. *)
Definition string_of_Z (z : Z) : string :=
  NilZero.string_of_int (Z.to_int z).

(** [new Date(t).setSeconds(0, 0)]: the time value with seconds and
    milliseconds cleared (time-zone offsets are whole minutes). *)
Definition setSeconds00 (t : Z) : Z := (t - t mod 60000)%Z.

End JS.

(** ** Data model *)

(** The [value] field of an alert: a number given by its rational value,
    or a double as the statistics computed it (which may be infinite or
    [NaN]). *)
Inductive jsnum :=
| Num (q : Q)
| Double (x : JS.number).

(** Fragments of a template literal. *)
Inductive fragment :=
| Lit (s : string)                      (* literal text *)
| Str (s : string)                      (* [${s}] for a string *)
| Val (v : jsnum)                       (* [${v}] for a number *)
| Fixed (digits : nat) (v : jsnum)      (* [${v.toFixed(digits)}] *)
| DateF (t : Z).                        (* [${d}] for a Date *)

Record vitals := {
  heartRate : Q;
  bloodPressure : string;
  spo2 : Q;
  bodyTemperature : Q;
  motionLevel : Q;
  fallRiskScore : Q;
  timestamp : Z;
}.

Record thresholds := {
  hrCritical : list Q;
  bpCritical : list Q;
  spo2Critical : Q;
}.

Record patient := {
  patientId : string;
  name : string;
  alertThresholds : thresholds;
  isActive : bool;
}.

Record alert := {
  type : string;
  category : string;
  message : list fragment;
  value : jsnum;
}.

Record historyEntry := {
  h_timestamp : Z;
  h_alerts : list alert;
  h_severity : string;
}.

Record detection := {
  isAnomaly : bool;
  severity : string;
  alerts : list alert;
  normalizedScore : Z;
}.

(** The mutable fields of an [AnomalyDetector] instance. *)
Record detector := {
  dataWindow : gmap string (list vitals);
  anomalyHistory : gmap string (list historyEntry);
  HealthRecord : bool;                  (* has the model been injected? *)
}.

Definition constructor : detector :=
  {| dataWindow := ∅; anomalyHistory := ∅; HealthRecord := false |}.

Definition setHealthRecordModel (d : detector) : detector :=
  {| dataWindow := dataWindow d; anomalyHistory := anomalyHistory d;
     HealthRecord := true |}.

(** [this.dataWindow[patientId]], an absent entry read as the empty window. *)
Definition window_of (d : detector) (pid : string) : list vitals :=
  default [] (dataWindow d !! pid).

(** ** The rolling window *)

(** [arr.push(v)] followed by [if (arr.length > 288) arr.shift()]. *)
Definition push_bounded {A} (cap : nat) (l : list A) (v : A) : list A :=
  let l' := (l ++ [v])%list in
  if (cap <? length l')%nat then tl l' else l'.

Definition addToWindow (d : detector) (pid : string) (v : vitals) : detector :=
  {| dataWindow := <[pid := push_bounded 288 (window_of d pid) v]> (dataWindow d);
     anomalyHistory := anomalyHistory d;
     HealthRecord := HealthRecord d |}.

Definition resetPatient (d : detector) (pid : string) : detector :=
  {| dataWindow := delete pid (dataWindow d);
     anomalyHistory := delete pid (anomalyHistory d);
     HealthRecord := HealthRecord d |}.

(** ** Scoring *)

Definition count_type (t : string) (l : list alert) : Z :=
  Z.of_nat (length (List.filter (fun a => String.eqb (type a) t) l)).

Definition calculateAnomalyScore (l : list alert) : Z :=
  if (length l =? 0)%nat then 0%Z
  else Z.min 100 (count_type "critical" l * 30 + count_type "warning" l * 10).

Local Open Scope Q_scope.

(** ** 1. Critical vital-sign thresholds *)

(** [${x}] for a number that may be [undefined]. *)
Definition interp (o : option Q) : fragment :=
  match o with
  | Some q => Val (Num q)
  | None => Lit "undefined"
  end.

(** [const [systolic, _diastolic] = bloodPressure.split("/").map((x) => parseInt(x))] *)
Definition systolic_of (bp : string) : option Z :=
  match map JS.parseInt (JS.split "/" bp) with
  | s :: _ => s
  | [] => None
  end.

Definition checkCriticalVitals (v : vitals) (p : patient) : list alert :=
  let th := alertThresholds p in
  let hr := Some (heartRate v) in
  let systolic := option_map inject_Z (systolic_of (bloodPressure v)) in
  (* Heart Rate *)
  (if JS.ltb_opt hr (hrCritical th !! 0%nat) then
     [ {| type := "critical"; category := "bradycardia";
          message := [Lit "⚠️ BRADYCARDIA: HR "; Val (Num (heartRate v));
                      Lit " bpm (< "; interp (hrCritical th !! 0%nat); Lit ")"];
          value := Num (heartRate v) |} ]
   else if JS.gtb_opt hr (hrCritical th !! 1%nat) then
     [ {| type := "critical"; category := "tachycardia";
          message := [Lit "⚠️ TACHYCARDIA: HR "; Val (Num (heartRate v));
                      Lit " bpm (> "; interp (hrCritical th !! 1%nat); Lit ")"];
          value := Num (heartRate v) |} ]
   else [])
  ++
  (* Blood Pressure *)
  (if JS.gtb_opt systolic (bpCritical th !! 0%nat) then
     [ {| type := "critical"; category := "hypertensive_crisis";
          message := [Lit "🔴 HYPERTENSIVE CRISIS: BP "; Str (bloodPressure v);
                      Lit " (Systolic > "; interp (bpCritical th !! 0%nat); Lit ")"];
          value := Num (default 0%Q systolic) |} ]
   else if JS.ltb_opt systolic (bpCritical th !! 1%nat) then
     [ {| type := "critical"; category := "hypotension";
          message := [Lit "🔴 HYPOTENSION: BP "; Str (bloodPressure v);
                      Lit " (Systolic < "; interp (bpCritical th !! 1%nat); Lit ")"];
          value := Num (default 0%Q systolic) |} ]
   else [])
  ++
  (* SpO2 (Oxygen Saturation) *)
  (if JS.ltb (spo2 v) (spo2Critical th) then
     [ {| type := "critical"; category := "hypoxemia";
          message := [Lit "🔴 HYPOXEMIA: SpO₂ "; Val (Num (spo2 v)); Lit "% (< ";
                      Val (Num (spo2Critical th)); Lit "%)"];
          value := Num (spo2 v) |} ]
   else [])
  ++
  (* Temperature (fever/hypothermia) *)
  (if JS.gtb (bodyTemperature v) 38.5 then
     [ {| type := "warning"; category := "fever";
          message := [Lit "🌡️ FEVER: Temperature "; Val (Num (bodyTemperature v));
                      Lit "°C"];
          value := Num (bodyTemperature v) |} ]
   else if JS.ltb (bodyTemperature v) 35.0 then
     [ {| type := "critical"; category := "hypothermia";
          message := [Lit "❄️ HYPOTHERMIA: Temperature ";
                      Val (Num (bodyTemperature v)); Lit "°C"];
          value := Num (bodyTemperature v) |} ]
   else [])%list.

(** ** 2. Statistical anomalies (z-score analysis) *)

(** [window.map((v) => v.heartRate)] *)
Definition hrValues (w : list vitals) : list JS.number :=
  map (fun v => JS.of_Q (heartRate v)) w.

(** [hrValues.reduce((a, b) => a + b) / hrValues.length] *)
Definition hrMean (w : list vitals) : JS.number :=
  JS.div (JS.sum (hrValues w)) (JS.of_nat (length (hrValues w))).

(** The argument of [Math.sqrt]:
    [hrValues.reduce((sum, v) => sum + Math.pow(v - hrMean, 2), 0)
     / hrValues.length] *)
Definition hrVariance (w : list vitals) : JS.number :=
  JS.div
    (fold_left (fun sum v => JS.add sum (JS.Math_pow2 (JS.sub v (hrMean w))))
               (hrValues w) JS.zero)
    (JS.of_nat (length (hrValues w))).

Definition hrStd (w : list vitals) : JS.number := JS.Math_sqrt (hrVariance w).

(** [(currentVitals.heartRate - hrMean) / (hrStd || 1)] *)
Definition hrZScore (w : list vitals) (cur : vitals) : JS.number :=
  JS.div (JS.sub (JS.of_Q (heartRate cur)) (hrMean w))
         (JS.or_else (hrStd w) (JS.of_Q 1)).

(** [Math.abs(hrZScore) > 2.5] *)
Definition hrZExceeds (w : list vitals) (cur : vitals) : bool :=
  JS.gt (JS.Math_abs (hrZScore w cur)) (JS.of_Q 2.5).

Definition spo2Trend (w : list vitals) : Q :=
  let spo2Values := map spo2 (JS.slice_last 12 w) in
  List.last spo2Values 0 - List.hd 0 spo2Values.

Definition checkStatisticalAnomalies (w : list vitals) (cur : vitals) : list alert :=
  if (length w <? 12)%nat then []
  else
    (if hrZExceeds w cur then
       let z := Double (hrZScore w cur) in
       [ {| type := "warning"; category := "hr_anomaly";
            message := [Lit "⚠️ ABNORMAL HR: "; Val (Num (heartRate cur));
                        Lit " bpm (Z-score: "; Fixed 2 z; Lit ")"];
            value := z |} ]
     else [])
    ++
    (if JS.ltb (spo2Trend w) (-5) then
       [ {| type := "warning"; category := "spo2_declining";
            message := [Lit "⚠️ DECLINING SpO₂: Down ";
                        Fixed 1 (Num (Qabs (spo2Trend w))); Lit "% in last hour"];
            value := Num (spo2Trend w) |} ]
     else [])%list.

(** ** 3. Behavioral anomalies *)

Definition isNight (currentHour : Z) : bool :=
  ((22 <=? currentHour) || (currentHour <=? 6))%Z.

(** [recentMotion.reduce((a, b) => a + b) / recentMotion.length] for
    [recentMotion = window.slice(-6).map((v) => v.motionLevel)] *)
Definition avgRecentMotion (w : list vitals) : JS.number :=
  let recentMotion := map (fun v => JS.of_Q (motionLevel v)) (JS.slice_last 6 w) in
  JS.div (JS.sum recentMotion) (JS.of_nat (length recentMotion)).

Definition nightActivityCount (w : list vitals) : nat :=
  length (List.filter (fun v => JS.gtb (motionLevel v) 0.5) (JS.slice_last 12 w)).

(** [currentHour] is [new Date().getHours()], read when the check runs. *)
Definition checkBehavioralChanges (currentHour : Z) (w : list vitals) (v : vitals)
  : list alert :=
  if (length w <? 6)%nat then []
  else
    (if negb (isNight currentHour) && JS.lt (avgRecentMotion w) (JS.of_Q 0.1)
        && (24 <? length w)%nat
        && forallb (fun v => JS.lt (JS.of_Q (motionLevel v)) (JS.of_Q 0.15))
                   (JS.slice_last 12 w)
     then
       [ {| type := "warning"; category := "sustained_inactivity";
            message := [Lit "⚠️ SUSTAINED INACTIVITY: No movement for > 1 hour during active hours"];
            value := Double (avgRecentMotion w) |} ]
     else [])
    ++
    (if isNight currentHour && JS.gt (JS.of_Q (motionLevel v)) (JS.of_Q 0.6)
        && (6 <? nightActivityCount w)%nat
     then
       [ {| type := "warning"; category := "nocturnal_activity";
            message := [Lit "⚠️ NOCTURNAL WANDERING: Unusual activity during night hours"];
            value := Num (inject_Z (Z.of_nat (nightActivityCount w))) |} ]
     else [])%list.

(** ** The aggregator *)

Definition some_critical (l : list alert) : bool :=
  existsb (fun a => String.eqb (type a) "critical") l.

Definition fallAlerts (pid : string) (v : vitals) : list alert :=
  if JS.gtb (fallRiskScore v) 80 then
    [ {| type := "critical"; category := "fall_detected";
         message := [Lit "🚨 FALL DETECTED: Patient "; Str pid; Lit " - Risk Score ";
                     Val (Num (fallRiskScore v)); Lit "%"];
         value := Num (fallRiskScore v) |} ]
  else [].

(** The four stages of [detectAnomalies], each evaluated on the window as
    it is when the call starts. *)
Definition collect (currentHour : Z) (w : list vitals) (pid : string)
    (v : vitals) (p : patient) : list alert * string :=
  let severity := "normal" in
  (* 1. Critical Vitals *)
  let criticalAlerts := checkCriticalVitals v p in
  let alerts := criticalAlerts in
  let severity := if some_critical criticalAlerts then "critical" else severity in
  (* 2. Fall Detection *)
  let alerts := (alerts ++ fallAlerts pid v)%list in
  let severity := if JS.gtb (fallRiskScore v) 80 then "critical" else severity in
  (* 3. Statistical Anomalies *)
  let statAlerts := checkStatisticalAnomalies w v in
  let alerts := (alerts ++ statAlerts)%list in
  let severity :=
    if some_critical statAlerts then "critical"
    else if (0 <? length statAlerts)%nat && negb (String.eqb severity "critical")
         then "warning" else severity in
  (* 4. Behavioral Changes *)
  let behavioralAlerts := checkBehavioralChanges currentHour w v in
  let alerts := (alerts ++ behavioralAlerts)%list in
  let severity := if some_critical behavioralAlerts then "critical" else severity in
  (alerts, severity).

(** [anomalyHistory[pid].push(entry)], keeping the last 100 entries. *)
Definition storeHistory (d : detector) (pid : string) (e : historyEntry) : detector :=
  {| dataWindow := dataWindow d;
     anomalyHistory :=
       <[pid := push_bounded 100 (default [] (anomalyHistory d !! pid)) e]>
         (anomalyHistory d);
     HealthRecord := HealthRecord d |}.

Definition detectAnomalies (currentHour : Z) (d : detector) (pid : string)
    (v : vitals) (p : patient) : detection * detector :=
  let '(alerts, severity) := collect currentHour (window_of d pid) pid v p in
  let d :=
    if (0 <? length alerts)%nat then
      storeHistory d pid
        {| h_timestamp := timestamp v; h_alerts := alerts; h_severity := severity |}
    else d in
  let d := addToWindow d pid v in
  ({| isAnomaly := (0 <? length alerts)%nat;
      severity := severity;
      alerts := alerts;
      normalizedScore := calculateAnomalyScore alerts |}, d).

(** [detect]'s result alone. *)
Definition detect (currentHour : Z) (d : detector) (pid : string)
    (v : vitals) (p : patient) : detection :=
  fst (detectAnomalies currentHour d pid v p).

(** ** Retrospective detection *)

(** *** The collections behind the Mongoose models *)

Record healthRecord := {
  rec_patientId : string;
  rec_heartRate : Q;
  rec_bloodPressure : string;
  rec_spo2 : Q;
  rec_bodyTemperature : Q;
  rec_motionLevel : Q;
  rec_fallRiskScore : Q;
  recordedAt : Z;
}.

(** The object the run passes to [Anomaly.create]. *)
Record anomalyFields := {
  af_patientId : string;
  af_severity : string;
  af_detectedAt : Z;
  af_alerts : list alert;
  af_acknowledged : bool;
  af_retrospective : bool;       (* [metadata.retrospective] *)
  af_detectionDate : Z;          (* [metadata.detectionDate] *)
  af_anomalyScore : Z;           (* [metadata.anomalyScore] *)
}.

(** A stored [Anomaly] document: the paths of the schema that the code
    reads or writes ([recordId], [acknowledgedBy], [acknowledgedAt] and
    Mongoose's own [_id], [createdAt], [updatedAt] are left out).  The
    schema is strict and has no [metadata] path. *)
Record anomaly := {
  an_patientId : string;
  an_severity : string;
  detectedAt : Z;
  an_alerts : list alert;
  acknowledged : bool;
  an_anomalyScore : option Z;
}.

(** What the schema keeps of the object: [metadata] is dropped, and the
    top-level [anomalyScore], which the object does not have, stays
    unset. *)
Definition Anomaly_document (a : anomalyFields) : anomaly :=
  {| an_patientId := af_patientId a; an_severity := af_severity a;
     detectedAt := af_detectedAt a; an_alerts := af_alerts a;
     acknowledged := af_acknowledged a; an_anomalyScore := None |}.

(** An object the run passes to [AlertLog.insertMany]. *)
Record alertLogFields := {
  lf_patientId : string;
  lf_type : string;
  lf_category : string;
  lf_message : list fragment;
  lf_value : jsnum;
  lf_threshold : thresholds;
  lf_timestamp : Z;
  lf_retrospective : bool;       (* [metadata.retrospective] *)
  lf_anomalyId : nat;            (* [metadata.anomalyId] *)
}.

(** A stored [AlertLog] document: the paths of the schema. *)
Record alertLog := {
  al_patientId : string;
  al_alertType : option string;
  al_message : list fragment;
  al_severity : option string;
  al_actionTaken : option string;
  al_timestamp : Z;
}.

(** What the schema keeps of the object: [patientId], [message] and
    [timestamp]; [type], [category], [value], [threshold] and [metadata]
    have no path, and [alertType], [severity] and [actionTaken] are not
    given. *)
Definition AlertLog_document (l : alertLogFields) : alertLog :=
  {| al_patientId := lf_patientId l; al_alertType := None;
     al_message := lf_message l; al_severity := None;
     al_actionTaken := None; al_timestamp := lf_timestamp l |}.

Module Db.
Record t := {
  Patient : list patient;
  HealthRecord : list healthRecord;
  Anomaly : list anomaly;
  AlertLog : list alertLog;
}.
End Db.

(** What the run observes of the outside world, per processed record (the
    index is [results.processed] before its increment): the wall-clock hour
    read by the behavioural check, the time stamped on a saved anomaly, and
    whether the two writes succeed. *)
Inductive outcome :=
| Saved
| CreateFails (msg : string)        (* [Anomaly.create] rejects *)
| InsertManyFails (msg : string).   (* [AlertLog.insertMany] rejects *)

Record env := {
  getHours : nat -> Z;
  now : nat -> Z;
  persist : nat -> outcome;
}.

Record options := {
  o_patientId : option string;
  startDate : option Z;
  endDate : option Z;
  updateDatabase : bool;
}.

Record summary := {
  patientName : string;
  recordsProcessed : nat;
  newAnomalies : nat;
  criticalAnomalies : nat;
  warningAnomalies : nat;
}.

Record results := {
  processed : nat;
  newAnomaliesDetected : nat;
  criticalCount : nat;
  warningCount : nat;
  patientsSummary : gmap string summary;
  errors : list (list fragment);
}.

Definition results0 : results :=
  {| processed := 0; newAnomaliesDetected := 0; criticalCount := 0;
     warningCount := 0; patientsSummary := ∅; errors := [] |}.

(** *** Queries *)

(** [if (patientId)]: [null], [undefined] and the empty string are falsy. *)
Definition truthy (s : option string) : option string :=
  match s with
  | Some "" => None
  | _ => s
  end.

(** [{ $gte: startDate, $lte: endDate }], each bound present when given. *)
Definition in_range (o : options) (t : Z) : bool :=
  match startDate o with Some s => (s <=? t)%Z | None => true end
  && match endDate o with Some e => (t <=? e)%Z | None => true end.

Definition pid_matches (o : options) (pid : string) : bool :=
  match truthy (o_patientId o) with
  | Some p => String.eqb pid p
  | None => true
  end.

(** [query] against the health records, and the same query with
    [recordedAt] renamed to [detectedAt] against the anomalies. *)
Definition record_matches (o : options) (r : healthRecord) : bool :=
  pid_matches o (rec_patientId r) && in_range o (recordedAt r).

Definition anomaly_matches (o : options) (a : anomaly) : bool :=
  pid_matches o (an_patientId a) && in_range o (detectedAt a).

Definition patient_matches (o : options) (p : patient) : bool :=
  match truthy (o_patientId o) with
  | Some q => String.eqb (patientId p) q
  | None => isActive p
  end.

(** [.sort(...)]: a stable insertion sort. *)
Fixpoint insert_by {A} (le : A -> A -> bool) (x : A) (l : list A) : list A :=
  match l with
  | [] => [x]
  | y :: r => if le x y then x :: y :: r else y :: insert_by le x r
  end.

Fixpoint sort_by {A} (le : A -> A -> bool) (l : list A) : list A :=
  match l with
  | [] => []
  | x :: r => insert_by le x (sort_by le r)
  end.

Definition ascending (a b : healthRecord) : bool := (recordedAt a <=? recordedAt b)%Z.
Definition descending (a b : healthRecord) : bool := (recordedAt b <=? recordedAt a)%Z.

(** [HealthRecord.find(query).sort({ recordedAt: 1 })] *)
Definition findRecords (o : options) (d : Db.t) : list healthRecord :=
  sort_by ascending (List.filter (record_matches o) (Db.HealthRecord d)).

(** [HealthRecord.find({ patientId: pid, recordedAt: { $lt: t } })
      .sort({ recordedAt: -1 }).limit(50)], then [.reverse()]. *)
Definition contextRecords (d : Db.t) (pid : string) (t : Z) : list healthRecord :=
  rev (firstn 50
         (sort_by descending
            (List.filter (fun r => String.eqb (rec_patientId r) pid && (recordedAt r <? t)%Z)
                    (Db.HealthRecord d)))).

(** *** Deduplication keys *)

(** [`${pid}-${new Date(t).setSeconds(0, 0)}`] *)
Definition anomalyKey (pid : string) (t : Z) : string :=
  pid ++ "-" ++ JS.string_of_Z (JS.setSeconds00 t).

Definition existingKeys (o : options) (d : Db.t) : gset string :=
  list_to_set
    (map (fun a => anomalyKey (an_patientId a) (detectedAt a))
         (List.filter (anomaly_matches o) (Db.Anomaly d))).

(** *** Grouping by patient *)

(** [recordsByPatient]: the groups in order of first insertion; a group is
    never empty, so it is kept as its first record and the others. *)
Fixpoint group_push (r : healthRecord)
    (g : list (string * (healthRecord * list healthRecord)))
  : list (string * (healthRecord * list healthRecord)) :=
  match g with
  | [] => [(rec_patientId r, (r, []))]
  | (k, (r0, rs)) :: g' =>
      if String.eqb k (rec_patientId r) then (k, (r0, (rs ++ [r])%list)) :: g'
      else (k, (r0, rs)) :: group_push r g'
  end.

Definition recordsByPatient (l : list healthRecord)
  : list (string * (healthRecord * list healthRecord)) :=
  fold_left (fun g r => group_push r g) l [].

(** A property key that is an array index (the canonical decimal form of
    an integer below [2^32 - 1]). *)
Definition array_index (k : string) : option Z :=
  match JS.digits 10 None k with
  | Some z =>
      if String.eqb (JS.string_of_Z z) k && (z <? 4294967295)%Z then Some z else None
  | None => None
  end.

Definition index_le {A} (a b : string * A) : bool :=
  match array_index (fst a), array_index (fst b) with
  | Some x, Some y => (x <=? y)%Z
  | _, _ => true
  end.

(** [Object.entries(obj)] for an object whose own keys were created in the
    order of [l]: array-index keys first, ascending, then the other keys in
    creation order. *)
Definition Object_entries {A} (l : list (string * A)) : list (string * A) :=
  (sort_by index_le (List.filter (fun kv => bool_decide (is_Some (array_index (fst kv)))) l)
   ++ List.filter (fun kv => negb (bool_decide (is_Some (array_index (fst kv))))) l)%list.

(** *** The replay loop *)

Record loopState := {
  st_results : results;
  st_detector : detector;
  st_db : Db.t;
  existingAnomalySet : gset string;
}.

Definition vitals_of (record : healthRecord) : vitals :=
  {| heartRate := rec_heartRate record;
     bloodPressure := rec_bloodPressure record;
     spo2 := rec_spo2 record;
     bodyTemperature := rec_bodyTemperature record;
     motionLevel := rec_motionLevel record;
     fallRiskScore := rec_fallRiskScore record;
     timestamp := recordedAt record |}.

(** [results.processed++] *)
Definition count_processed (r : results) : results :=
  {| processed := S (processed r);
     newAnomaliesDetected := newAnomaliesDetected r;
     criticalCount := criticalCount r; warningCount := warningCount r;
     patientsSummary := patientsSummary r; errors := errors r |}.

Definition summary_new (sev : string) (s : summary) : summary :=
  {| patientName := patientName s;
     recordsProcessed := recordsProcessed s;
     newAnomalies := S (newAnomalies s);
     criticalAnomalies :=
       if String.eqb sev "critical" then S (criticalAnomalies s) else criticalAnomalies s;
     warningAnomalies :=
       if String.eqb sev "critical" then warningAnomalies s
       else if String.eqb sev "warning" then S (warningAnomalies s)
       else warningAnomalies s |}.

(** The counters of a newly found anomaly of severity [sev]. *)
Definition count_new (pid sev : string) (r : results) : results :=
  {| processed := processed r;
     newAnomaliesDetected := S (newAnomaliesDetected r);
     criticalCount :=
       if String.eqb sev "critical" then S (criticalCount r) else criticalCount r;
     warningCount :=
       if String.eqb sev "critical" then warningCount r
       else if String.eqb sev "warning" then S (warningCount r)
       else warningCount r;
     patientsSummary := alter (summary_new sev) pid (patientsSummary r);
     errors := errors r |}.

(** [results.errors.push(msg)] *)
Definition push_error (msg : list fragment) (r : results) : results :=
  {| processed := processed r;
     newAnomaliesDetected := newAnomaliesDetected r;
     criticalCount := criticalCount r; warningCount := warningCount r;
     patientsSummary := patientsSummary r;
     errors := (errors r ++ [msg])%list |}.

Definition set_summary (pid : string) (s : summary) (r : results) : results :=
  {| processed := processed r;
     newAnomaliesDetected := newAnomaliesDetected r;
     criticalCount := criticalCount r; warningCount := warningCount r;
     patientsSummary := <[pid := s]> (patientsSummary r);
     errors := errors r |}.

(** [Anomaly.create({...})]: the document of the object is stored. *)
Definition createAnomaly (a : anomalyFields) (d : Db.t) : Db.t :=
  {| Db.Patient := Db.Patient d; Db.HealthRecord := Db.HealthRecord d;
     Db.Anomaly := (Db.Anomaly d ++ [Anomaly_document a])%list;
     Db.AlertLog := Db.AlertLog d |}.

(** [AlertLog.insertMany(alertLogs)]: the documents of the objects are
    stored, in order. *)
Definition insertMany (l : list alertLogFields) (d : Db.t) : Db.t :=
  {| Db.Patient := Db.Patient d; Db.HealthRecord := Db.HealthRecord d;
     Db.Anomaly := Db.Anomaly d;
     Db.AlertLog := (Db.AlertLog d ++ map AlertLog_document l)%list |}.

Definition saveError (pid : string) (record : healthRecord) (msg : string)
  : list fragment :=
  [Lit "Error saving anomaly for "; Str pid; Lit " at "; DateF (recordedAt record);
   Lit ": "; Str msg].

(** The body of [for (const record of records)]. *)
Definition processRecord (e : env) (o : options) (pid : string) (p : patient)
    (st : loopState) (record : healthRecord) : loopState :=
  let n := processed (st_results st) in
  let res := count_processed (st_results st) in
  let '(detection, det) :=
    detectAnomalies (getHours e n) (st_detector st) pid (vitals_of record) p in
  let key := anomalyKey pid (recordedAt record) in
  if isAnomaly detection && negb (bool_decide (key ∈ existingAnomalySet st)) then
    let res := count_new pid (severity detection) res in
    if updateDatabase o then
      let a :=
        {| af_patientId := pid; af_severity := severity detection;
           af_detectedAt := recordedAt record; af_alerts := alerts detection;
           af_acknowledged := false; af_retrospective := true;
           af_detectionDate := now e n;
           af_anomalyScore := normalizedScore detection |} in
      let alertLogs :=
        map (fun al =>
               {| lf_patientId := pid; lf_type := type al;
                  lf_category := category al; lf_message := message al;
                  lf_value := value al; lf_threshold := alertThresholds p;
                  lf_timestamp := recordedAt record; lf_retrospective := true;
                  lf_anomalyId := length (Db.Anomaly (st_db st)) |})
            (alerts detection) in
      match persist e n with
      | Saved =>
          {| st_results := res; st_detector := det;
             st_db := insertMany alertLogs (createAnomaly a (st_db st));
             existingAnomalySet := {[key]} ∪ existingAnomalySet st |}
      | CreateFails msg =>
          {| st_results := push_error (saveError pid record msg) res;
             st_detector := det; st_db := st_db st;
             existingAnomalySet := existingAnomalySet st |}
      | InsertManyFails msg =>
          {| st_results := push_error (saveError pid record msg) res;
             st_detector := det; st_db := createAnomaly a (st_db st);
             existingAnomalySet := existingAnomalySet st |}
      end
    else
      {| st_results := res; st_detector := det; st_db := st_db st;
         existingAnomalySet := existingAnomalySet st |}
  else
    {| st_results := res; st_detector := det; st_db := st_db st;
       existingAnomalySet := existingAnomalySet st |}.

Definition with_detector (d : detector) (st : loopState) : loopState :=
  {| st_results := st_results st; st_detector := d; st_db := st_db st;
     existingAnomalySet := existingAnomalySet st |}.

(** The body of [for (const [pid, records] of Object.entries(recordsByPatient))]. *)
Definition processPatient (e : env) (o : options) (patientMap : gmap string patient)
    (st : loopState) (g : string * (healthRecord * list healthRecord)) : loopState :=
  let '(pid, (r0, rs)) := g in
  match patientMap !! pid with
  | None =>
      {| st_results :=
           push_error [Lit "Patient "; Str pid; Lit " not found in database"]
                      (st_results st);
         st_detector := st_detector st; st_db := st_db st;
         existingAnomalySet := existingAnomalySet st |}
  | Some p =>
      let res :=
        set_summary pid
          {| patientName := name p; recordsProcessed := length (r0 :: rs);
             newAnomalies := 0; criticalAnomalies := 0; warningAnomalies := 0 |}
          (st_results st) in
      (* Reset detector state for this patient *)
      let det := resetPatient (st_detector st) pid in
      (* Add context to window *)
      let det :=
        fold_left (fun d r => addToWindow d pid (vitals_of r))
                  (contextRecords (st_db st) pid (recordedAt r0)) det in
      let st :=
        fold_left (processRecord e o pid p) (r0 :: rs)
                  {| st_results := res; st_detector := det; st_db := st_db st;
                     existingAnomalySet := existingAnomalySet st |} in
      (* Clean up detector state *)
      with_detector (resetPatient (st_detector st) pid) st
  end.

Inductive completion :=
| Threw (msg : string)
| Returned (r : results) (d : detector) (s : Db.t).

Definition detectRetrospectiveAnomalies (e : env) (o : options) (det : detector)
    (db : Db.t) : completion :=
  if negb (HealthRecord det) then Threw "HealthRecord model not injected"
  else
    let patients := List.filter (patient_matches o) (Db.Patient db) in
    if (length patients =? 0)%nat then Returned results0 det db
    else
      let patientMap :=
        fold_left (fun m p => <[patientId p := p]> m) patients
                  (∅ : gmap string patient) in
      let healthRecords := findRecords o db in
      let st :=
        fold_left (processPatient e o patientMap)
                  (Object_entries (recordsByPatient healthRecords))
                  {| st_results := results0; st_detector := det; st_db := db;
                     existingAnomalySet := existingKeys o db |} in
      Returned (st_results st) (st_detector st) (st_db st).

(** ** The route [POST /api/anomalies/retrospective] *)

Record request := {
  body_patientId : option string;
  body_startDate : option string;
  body_endDate : option string;
  body_updateDatabase : option bool;
}.

Inductive response :=
| Status200 (r : results)
| Status400 (error : string)
| Status500 (error : string).

(** [if (s) { d = new Date(s); if (isNaN(d.getTime())) return 400 }];
    [Date_parse s] is the time value of [new Date(s)], [None] for an
    invalid date. *)
Definition parseOptionalDate (Date_parse : string -> option Z) (field : string)
    (s : option string) : string + option Z :=
  match truthy s with
  | Some txt =>
      match Date_parse txt with
      | Some t => inr (Some t)
      | None => inl ("Invalid " ++ field ++ " format")
      end
  | None => inr None
  end.

Definition post_retrospective (Date_parse : string -> option Z) (e : env)
    (req : request) (det : detector) (db : Db.t) : response * detector * Db.t :=
  match parseOptionalDate Date_parse "startDate" (body_startDate req) with
  | inl err => (Status400 err, det, db)
  | inr sd =>
      match parseOptionalDate Date_parse "endDate" (body_endDate req) with
      | inl err => (Status400 err, det, db)
      | inr ed =>
          if match sd, ed with Some s, Some f => (f <? s)%Z | _, _ => false end
          then (Status400 "startDate cannot be after endDate", det, db)
          else
            let o :=
              {| o_patientId := body_patientId req; startDate := sd; endDate := ed;
                 updateDatabase := default true (body_updateDatabase req) |} in
            match detectRetrospectiveAnomalies e o det db with
            | Returned r det' db' => (Status200 r, det', db')
            | Threw msg => (Status500 msg, det, db)
            end
      end
  end.

(** ** The documented policies, written out for comparison *)

(** The severity of a result as the specification words it: critical if
    any collected alert is critical, else warning if any alert exists, else
    normal. *)
Definition documented_severity (l : list alert) : string :=
  if some_critical l then "critical"
  else if (0 <? length l)%nat then "warning"
  else "normal".

(** The z-score as the specification words it:
    [(currentHR - mean) / max(stddev, 1)]. *)
Definition documented_hrZScore (w : list vitals) (cur : vitals) : JS.number :=
  JS.div (JS.sub (JS.of_Q (heartRate cur)) (hrMean w))
         (JS.Math_max (hrStd w) (JS.of_Q 1)).

(** The request carries a date that [new Date] cannot parse, or two dates
    in the wrong order. *)
Definition invalid_dates (Date_parse : string -> option Z) (req : request) : Prop :=
  (exists s, body_startDate req = Some s /\ Date_parse s = None)
  \/ (exists s, body_endDate req = Some s /\ Date_parse s = None)
  \/ (exists s f ts tf,
        body_startDate req = Some s /\ body_endDate req = Some f
        /\ Date_parse s = Some ts /\ Date_parse f = Some tf /\ (tf < ts)%Z).

(** The same, for dates that the handler does not take as absent. *)
Definition invalid_given_dates (Date_parse : string -> option Z) (req : request) : Prop :=
  (exists s, body_startDate req = Some s /\ s <> "" /\ Date_parse s = None)
  \/ (exists s, body_endDate req = Some s /\ s <> "" /\ Date_parse s = None)
  \/ (exists s f ts tf,
        body_startDate req = Some s /\ body_endDate req = Some f
        /\ s <> "" /\ f <> ""
        /\ Date_parse s = Some ts /\ Date_parse f = Some tf /\ (tf < ts)%Z).

Definition rejected (out : response * detector * Db.t) (det : detector) (db : Db.t) : Prop :=
  (exists msg, out.1.1 = Status400 msg) /\ out.1.2 = det /\ out.2 = db.

(** ** Sample data used in the examples *)

Module Sample.

Definition P001 : patient :=
  {| patientId := "P001"; name := "Margaret Chen";
     alertThresholds :=
       {| hrCritical := [45; 130]; bpCritical := [180; 90]; spo2Critical := 92 |};
     isActive := true |}.

Definition reading (hr temp motion fall : Q) (t : Z) : vitals :=
  {| heartRate := hr; bloodPressure := "140/88"; spo2 := 98;
     bodyTemperature := temp; motionLevel := motion; fallRiskScore := fall;
     timestamp := t |}.

Definition normalVitals : vitals := reading 72 36.8 0.3 10 0.

(** A detector whose window for [P001] holds the given readings. *)
Definition loaded (l : list vitals) : detector :=
  fold_left (fun d v => addToWindow d "P001" v) l constructor.

Definition stored (hr motion : Q) (t : Z) : healthRecord :=
  {| rec_patientId := "P001"; rec_heartRate := hr; rec_bloodPressure := "140/88";
     rec_spo2 := 98; rec_bodyTemperature := 36.8; rec_motionLevel := motion;
     rec_fallRiskScore := 10; recordedAt := t |}.

Definition db_of (l : list healthRecord) : Db.t :=
  {| Db.Patient := [P001]; Db.HealthRecord := l; Db.Anomaly := []; Db.AlertLog := [] |}.

(** The year-only form of the date-time string format: ["YYYY"] is
    midnight UTC on 1 January of that year; nothing else is taken to
    parse here. *)
Definition Date_parse (s : string) : option Z :=
  match s with
  | String a (String b (String c (String d EmptyString))) =>
      match JS.digit_val 10 a, JS.digit_val 10 b, JS.digit_val 10 c, JS.digit_val 10 d with
      | Some a, Some b, Some c, Some d =>
          let y := (a * 1000 + b * 100 + c * 10 + d)%Z in
          let days :=
            (365 * (y - 1970) + (y - 1969) / 4 - (y - 1901) / 100 + (y - 1601) / 400)%Z in
          Some (days * 86400000)%Z
      | _, _, _, _ => None
      end
  | _ => None
  end.

(** A run at a fixed wall-clock hour whose writes all succeed. *)
Definition at_hour (h : Z) : env :=
  {| getHours := fun _ => h; now := fun _ => 0%Z; persist := fun _ => Saved |}.

Definition all_records : options :=
  {| o_patientId := None; startDate := None; endDate := None; updateDatabase := true |}.

End Sample.

(** ** Predicates used in the statements *)

(** An alert typed as the score counts them. *)
Definition typed (a : alert) : Prop := type a = "critical" \/ type a = "warning".

(** The category of an alert is one of [cs]. *)
Definition from_categories (cs : list string) (a : alert) : Prop := In (category a) cs.

(** [a.category === c] *)
Definition is_category (c : string) (a : alert) : bool := String.eqb (category a) c.

(** Every key of [existingAnomalySet] is the key of a stored anomaly that
    the query of the run selects. *)
Definition keys_known (o : options) (st : loopState) : Prop :=
  existingAnomalySet st ⊆ existingKeys o (st_db st).

(** Two runs have processed as many records and see the same stored
    readings. *)
Definition in_step (st1 st2 : loopState) : Prop :=
  processed (st_results st1) = processed (st_results st2)
  /\ Db.HealthRecord (st_db st1) = Db.HealthRecord (st_db st2).

(** The clocks of two runs agree, evaluation by evaluation, on whether it
    is night. *)
Definition same_night (e1 e2 : env) : Prop :=
  forall n, isNight (getHours e1 n) = isNight (getHours e2 n).

(** The records of a group are selected by the query and belong to the
    patient the group is filed under. *)
Definition group_matches (o : options) (g : string * (healthRecord * list healthRecord))
  : Prop :=
  forall r, In r (g.2.1 :: g.2.2) -> record_matches o r = true /\ rec_patientId r = g.1.

(** The collections a run only reads, and the injected model. *)
Definition untouched (patients : list patient) (records : list healthRecord)
    (st : loopState) : Prop :=
  Db.Patient (st_db st) = patients /\ Db.HealthRecord (st_db st) = records
  /\ HealthRecord (st_detector st) = true.

(** The state of the loop when [detectRetrospectiveAnomalies] leaves it. *)
Definition replayed (e : env) (o : options) (det : detector) (db : Db.t) : loopState :=
  fold_left
    (processPatient e o
       (fold_left (fun m p => <[patientId p := p]> m)
                  (List.filter (patient_matches o) (Db.Patient db))
                  (∅ : gmap string patient)))
    (Object_entries (recordsByPatient (findRecords o db)))
    {| st_results := results0; st_detector := det; st_db := db;
       existingAnomalySet := existingKeys o db |}.

(** ** The rest of the detector, and the generator's risk score *)

(** [this.anomalyHistory[patientId] || []] *)
Definition history_of (d : detector) (pid : string) : list historyEntry :=
  default [] (anomalyHistory d !! pid).

(** [arr.slice(start)] for an integer [start]; a negative [start] counts
    from the end, and [-0] is [0]. *)
Definition Array_slice {A} (start : Z) (l : list A) : list A :=
  if (start <? 0)%Z then skipn (length l - Z.to_nat (- start)) l
  else skipn (Z.to_nat start) l.

(** [getAnomalyHistory(patientId, limit = 20)]; [None] is an omitted
    [limit]. *)
Definition getAnomalyHistory (d : detector) (pid : string) (limit : option Z)
  : list historyEntry :=
  Array_slice (- default 20%Z limit) (history_of d pid).

(** [loadHistoricalData(patientId)]: the last 288 stored readings of the
    patient, oldest first, pushed onto the window. *)
Definition loadHistoricalData (d : detector) (db : Db.t) (pid : string) : detector :=
  if negb (HealthRecord d) then d
  else
    let records :=
      firstn 288
        (sort_by descending
           (List.filter (fun r => String.eqb (rec_patientId r) pid)
                        (Db.HealthRecord db))) in
    if (length records =? 0)%nat then d
    else
      {| dataWindow :=
           <[pid := (window_of d pid ++ map vitals_of (rev records))%list]>
             (dataWindow d);
         anomalyHistory := anomalyHistory d;
         HealthRecord := HealthRecord d |}.

(** [Math.min(a, b)] and [Math.max(a, b)] *)
Definition Math_min (a b : Q) : Q := if JS.ltb b a then b else a.
Definition Math_max (a b : Q) : Q := if JS.ltb a b then b else a.

(** [calculateFallRisk(motionLevel, hr, baselineHr)] of the data
    generator. *)
Definition calculateFallRisk (motionLevel hr baselineHr : Q) : Q :=
  let risk := 0 in
  (* Low motion increases risk *)
  let risk := risk + (1 - motionLevel) * 30 in
  (* Heart rate deviation *)
  let risk := risk + Qabs (hr - baselineHr) / 10 in
  (* Normalize to 0-100 *)
  Math_max 0 (Math_min 100 risk).

(** The generated [motionLevel], from the last one and the drawn one:
    [motionLevel = lastVitals.motionLevel * 0.7 + motionLevel * 0.3;
     motionLevel = Math.max(0, Math.min(1, motionLevel))]. *)
Definition generated_motionLevel (last drawn : Q) : Q :=
  let motionLevel := last * 0.7 + drawn * 0.3 in
  Math_max 0 (Math_min 1 motionLevel).

(** The [fallRiskScore] of a generated reading:
    [isFalling ? 95 : this.calculateFallRisk(motionLevel, hr, baseline.hr.normal)]. *)
Definition generated_fallRiskScore (isFalling : bool) (motionLevel hr baselineHr : Q) : Q :=
  if isFalling then 95 else calculateFallRisk motionLevel hr baselineHr.

(** The generated [bloodPressure]: [`${systolic}/${diastolic}`] for two
    integers. *)
Definition generated_bloodPressure (systolic diastolic : Z) : string :=
  JS.string_of_Z systolic ++ "/" ++ JS.string_of_Z diastolic.

(** An alert of category [c] is among the alerts. *)
Definition raised (c : string) (l : list alert) : Prop :=
  List.filter (is_category c) l <> [].

(** How many alerts of category [c] there are. *)
Definition count_category (c : string) (l : list alert) : nat :=
  length (List.filter (is_category c) l).

(** ** More sample data *)

Module Example.


(** A reading with the given blood pressure. *)
Definition pressure (bp : string) : vitals :=
  {| heartRate := 72; bloodPressure := bp; spo2 := 98;
     bodyTemperature := 36.8; motionLevel := 0.3; fallRiskScore := 10;
     timestamp := 0 |}.

(** A second patient. *)
Definition P002 : patient :=
  {| patientId := "P002"; name := "Robert Williams";
     alertThresholds :=
       {| hrCritical := [50; 120]; bpCritical := [160; 100]; spo2Critical := 93 |};
     isActive := true |}.

End Example.

(** ** Predicates on the replay loop *)

(** Two loop states with the same counters, collections and key set; they
    may differ in the detector, the per-patient summaries and the error
    strings. *)
Definition same_core (st st' : loopState) : Prop :=
  processed (st_results st) = processed (st_results st')
  /\ newAnomaliesDetected (st_results st) = newAnomaliesDetected (st_results st')
  /\ criticalCount (st_results st) = criticalCount (st_results st')
  /\ warningCount (st_results st) = warningCount (st_results st')
  /\ st_db st = st_db st'
  /\ existingAnomalySet st = existingAnomalySet st'.

(** An anomaly as the retrospective run writes it. *)
Definition written_by_replay (a : anomaly) : Prop :=
  acknowledged a = false /\ an_alerts a <> [] /\ an_anomalyScore a = None.

(** An alert log as the replay stores it: the patient, the message and the
    time; no alert type, severity or action. *)
Definition logged_by_replay (l : alertLog) : Prop :=
  al_alertType l = None /\ al_severity l = None /\ al_actionTaken l = None.

(** The options with [updateDatabase] set. *)
Definition set_updateDatabase (b : bool) (o : options) : options :=
  {| o_patientId := o_patientId o; startDate := startDate o; endDate := endDate o;
     updateDatabase := b |}.

(** How many alerts the anomalies carry together. *)
Definition total_alerts (l : list anomaly) : nat :=
  fold_right (fun a n => (length (an_alerts a) + n)%nat) 0%nat l.

(** What the loop has written and counted so far, against the collections
    [db] it started from. *)
Definition replay_accounts (e : env) (o : options) (db : Db.t) (st : loopState) : Prop :=
  Db.Patient (st_db st) = Db.Patient db
  /\ Db.HealthRecord (st_db st) = Db.HealthRecord db
  /\ (criticalCount (st_results st) + warningCount (st_results st)
      <= newAnomaliesDetected (st_results st))%nat
  /\ (newAnomaliesDetected (st_results st) <= processed (st_results st))%nat
  /\ exists na nl,
       Db.Anomaly (st_db st) = (Db.Anomaly db ++ na)%list
       /\ Db.AlertLog (st_db st) = (Db.AlertLog db ++ nl)%list
       /\ Forall written_by_replay na
       /\ Forall logged_by_replay nl
       /\ (length na <= newAnomaliesDetected (st_results st))%nat
       /\ (updateDatabase o = false -> na = [] /\ nl = [])
       /\ ((forall n, persist e n = Saved) -> updateDatabase o = true ->
           length na = newAnomaliesDetected (st_results st)
           /\ length nl = total_alerts na).

(** How many records the groups hold together. *)
Definition records_in (gs : list (string * (healthRecord * list healthRecord))) : nat :=
  fold_right (fun g n => (S (length g.2.2) + n)%nat) 0%nat gs.

(** The query of the run selects a stored reading of the patient. *)
Definition has_selected_record (o : options) (db : Db.t) (pid : string) : Prop :=
  exists r, In r (Db.HealthRecord db) /\ record_matches o r = true
            /\ rec_patientId r = pid.

(** The run looks the patient up successfully. *)
Definition has_selected_patient (o : options) (db : Db.t) (pid : string) : Prop :=
  exists p, In p (Db.Patient db) /\ patient_matches o p = true /\ patientId p = pid.

(** Two detectors hold the same window and history for the patient. *)
Definition same_state (pid : string) (d d' : detector) : Prop :=
  window_of d pid = window_of d' pid /\ history_of d pid = history_of d' pid.

(** The detector holds nothing for the patient. *)
Definition no_state (pid : string) (d : detector) : Prop :=
  window_of d pid = [] /\ history_of d pid = [].

(** A loop that does not save, against the loop that saves, after the same
    records: the same detector and record counter, the same stored
    readings, no more known keys and no fewer anomalies counted. *)
Definition dry_ahead (sd sr : loopState) : Prop :=
  st_detector sd = st_detector sr
  /\ processed (st_results sd) = processed (st_results sr)
  /\ Db.HealthRecord (st_db sd) = Db.HealthRecord (st_db sr)
  /\ existingAnomalySet sd ⊆ existingAnomalySet sr
  /\ (newAnomaliesDetected (st_results sr) <= newAnomaliesDetected (st_results sd))%nat.

(** * Properties *)

(** ** Comparisons *)

Lemma ltb_lt (a b : Q) : JS.ltb a b = true <-> a < b.
Proof.
  unfold JS.ltb. rewrite Qlt_alt. destruct (a ?= b); intuition congruence.
Qed.

Lemma ltb_ge (a b : Q) : JS.ltb a b = false <-> b <= a.
Proof.
  rewrite <- not_true_iff_false, ltb_lt. split.
  - apply Qnot_lt_le.
  - apply Qle_not_lt.
Qed.

Lemma gtb_gt (a b : Q) : JS.gtb a b = true <-> b < a.
Proof. apply ltb_lt. Qed.

Lemma gtb_le (a b : Q) : JS.gtb a b = false <-> a <= b.
Proof. apply ltb_ge. Qed.

(** ** Types and categories of the alerts each stage can raise *)

Ltac stage_alerts :=
  rewrite ?Forall_app; repeat split;
  repeat match goal with
         | |- Forall _ (if ?b then _ else _) => destruct b
         end;
  repeat match goal with
         | |- Forall _ [] => constructor
         | |- Forall _ (_ :: _) => constructor
         end;
  unfold typed, from_categories; simpl; auto 20.

Lemma checkCriticalVitals_typed v p : Forall typed (checkCriticalVitals v p).
Proof. unfold checkCriticalVitals. stage_alerts. Qed.

Lemma checkCriticalVitals_categories v p :
  Forall (from_categories ["bradycardia"; "tachycardia"; "hypertensive_crisis";
                           "hypotension"; "hypoxemia"; "fever"; "hypothermia"])
         (checkCriticalVitals v p).
Proof. unfold checkCriticalVitals. stage_alerts. Qed.

Lemma fallAlerts_typed pid v : Forall typed (fallAlerts pid v).
Proof. unfold fallAlerts. stage_alerts. Qed.

Lemma checkStatisticalAnomalies_warning w v :
  Forall (fun a => type a = "warning") (checkStatisticalAnomalies w v).
Proof. unfold checkStatisticalAnomalies. destruct (_ <? _)%nat; stage_alerts. Qed.

Lemma checkStatisticalAnomalies_categories w v :
  Forall (from_categories ["hr_anomaly"; "spo2_declining"])
         (checkStatisticalAnomalies w v).
Proof. unfold checkStatisticalAnomalies. destruct (_ <? _)%nat; stage_alerts. Qed.

Lemma checkBehavioralChanges_warning h w v :
  Forall (fun a => type a = "warning") (checkBehavioralChanges h w v).
Proof. unfold checkBehavioralChanges. destruct (_ <? _)%nat; stage_alerts. Qed.

Lemma checkBehavioralChanges_categories h w v :
  Forall (from_categories ["sustained_inactivity"; "nocturnal_activity"])
         (checkBehavioralChanges h w v).
Proof. unfold checkBehavioralChanges. destruct (_ <? _)%nat; stage_alerts. Qed.

(** The alerts of a call, stage by stage. *)
Lemma collect_alerts h w pid v p :
  fst (collect h w pid v p) =
  (checkCriticalVitals v p ++ fallAlerts pid v
     ++ checkStatisticalAnomalies w v ++ checkBehavioralChanges h w v)%list.
Proof. unfold collect. simpl. now rewrite <- !app_assoc. Qed.

Lemma detect_alerts h d pid v p :
  alerts (detect h d pid v p) = fst (collect h (window_of d pid) pid v p).
Proof.
  unfold detect, detectAnomalies. destruct (collect _ _ _ _ _). reflexivity.
Qed.

Lemma detect_severity h d pid v p :
  severity (detect h d pid v p) = snd (collect h (window_of d pid) pid v p).
Proof.
  unfold detect, detectAnomalies. destruct (collect _ _ _ _ _). reflexivity.
Qed.

Lemma detect_isAnomaly h d pid v p :
  isAnomaly (detect h d pid v p) = (0 <? length (alerts (detect h d pid v p)))%nat.
Proof.
  unfold detect, detectAnomalies. destruct (collect _ _ _ _ _). reflexivity.
Qed.

Lemma detect_score h d pid v p :
  normalizedScore (detect h d pid v p) = calculateAnomalyScore (alerts (detect h d pid v p)).
Proof.
  unfold detect, detectAnomalies. destruct (collect _ _ _ _ _). reflexivity.
Qed.

Lemma Forall_weaken {A} (P Q' : A -> Prop) (l : list A) :
  (forall a, P a -> Q' a) -> Forall P l -> Forall Q' l.
Proof. intros H HP. induction HP; constructor; auto. Qed.

Lemma detect_typed h d pid v p : Forall typed (alerts (detect h d pid v p)).
Proof.
  rewrite detect_alerts, collect_alerts.
  apply Forall_app_2; [| apply Forall_app_2; [| apply Forall_app_2]].
  - apply checkCriticalVitals_typed.
  - apply fallAlerts_typed.
  - eapply Forall_weaken; [| apply checkStatisticalAnomalies_warning].
    intros a Ha. right. exact Ha.
  - eapply Forall_weaken; [| apply checkBehavioralChanges_warning].
    intros a Ha. right. exact Ha.
Qed.

(** ** The anomaly score *)

Lemma count_type_nonneg t l : (0 <= count_type t l)%Z.
Proof. unfold count_type. lia. Qed.

Lemma count_type_cons t a l :
  count_type t (a :: l) =
  ((if String.eqb (type a) t then 1 else 0) + count_type t l)%Z.
Proof.
  unfold count_type. simpl. destruct (String.eqb (type a) t); simpl length; lia.
Qed.

Lemma score_formula l :
  calculateAnomalyScore l =
  Z.min 100 (count_type "critical" l * 30 + count_type "warning" l * 10).
Proof.
  unfold calculateAnomalyScore. destruct l as [| a l]; [reflexivity |].
  reflexivity.
Qed.

Lemma score_typed_lower l :
  Forall typed l -> l <> [] -> (10 <= calculateAnomalyScore l)%Z.
Proof.
  intros Ht Hne. rewrite score_formula.
  destruct Ht as [| a l Ha Hl]; [congruence |].
  rewrite !count_type_cons.
  pose proof (count_type_nonneg "critical" l).
  pose proof (count_type_nonneg "warning" l).
  destruct Ha as [-> | ->]; simpl; lia.
Qed.

(** C8.  The anomaly score of any list of alerts is
    [min(100, criticalCount*30 + warningCount*10)]; the empty list scores
    0, a list with at least as many critical and as many warning alerts
    scores at least as much, and no score exceeds 100. *)
Theorem calculateAnomalyScore_spec (l l' : list alert)
    (Hc : (count_type "critical" l <= count_type "critical" l')%Z)
    (Hw : (count_type "warning" l <= count_type "warning" l')%Z) :
  calculateAnomalyScore l =
    Z.min 100 (count_type "critical" l * 30 + count_type "warning" l * 10)
  /\ calculateAnomalyScore [] = 0%Z
  /\ (calculateAnomalyScore l <= calculateAnomalyScore l')%Z
  /\ (calculateAnomalyScore l' <= 100)%Z.
Proof.
  split; [apply score_formula |].
  split; [reflexivity |].
  rewrite !score_formula. lia.
Qed.

Lemma calculateAnomalyScore_spec_witness :
  let w := {| type := "warning"; category := "fever"; message := []; value := Num 39 |} in
  let c := {| type := "critical"; category := "hypoxemia"; message := []; value := Num 88 |} in
  calculateAnomalyScore [w] = 10%Z
  /\ (calculateAnomalyScore [w] <= calculateAnomalyScore [c; w; c; c; c])%Z
  /\ calculateAnomalyScore [c; w; c; c; c] = 100%Z.
Proof.
  intros w c.
  destruct (calculateAnomalyScore_spec [w] [c; w; c; c; c]) as (_ & _ & Hle & _).
  - vm_compute. discriminate.
  - vm_compute. discriminate.
  - split; [reflexivity |]. split; [exact Hle | reflexivity].
Defined.

(** ** The flag, the alerts and the score of a result *)

(** C10.  The result of [detect] is flagged as an anomaly exactly when it
    carries an alert, and its score is positive exactly when it is flagged:
    every alert raised is typed critical or warning, so a result with an
    alert scores at least 10. *)
Theorem isAnomaly_iff_alerts_iff_score (h : Z) (d : detector) (pid : string)
    (v : vitals) (p : patient) :
  let r := detect h d pid v p in
  (isAnomaly r = true <-> alerts r <> [])
  /\ ((0 < normalizedScore r)%Z <-> isAnomaly r = true)
  /\ Forall typed (alerts r)
  /\ (alerts r <> [] -> (10 <= normalizedScore r)%Z).
Proof.
  intros r. subst r.
  pose proof (detect_typed h d pid v p) as Ht.
  rewrite detect_isAnomaly, detect_score.
  destruct (alerts (detect h d pid v p)) as [| a l] eqn:E.
  - change (calculateAnomalyScore []) with 0%Z.
    change (0 <? length [])%nat with false.
    repeat split; try congruence; try lia; auto.
  - assert (Hs := score_typed_lower (a :: l) Ht ltac:(congruence)).
    simpl length. change (0 <? S (length l))%nat with true.
    repeat split; auto; try congruence; try lia.
Qed.

(** ** The rolling window *)

Lemma window_addToWindow d pid v :
  window_of (addToWindow d pid v) pid = push_bounded 288 (window_of d pid) v.
Proof. unfold window_of, addToWindow. simpl. now rewrite lookup_insert_eq. Qed.

Lemma window_addToWindow_ne d pid pid' v :
  pid <> pid' -> window_of (addToWindow d pid v) pid' = window_of d pid'.
Proof.
  intros Hne. unfold window_of, addToWindow. simpl. now rewrite lookup_insert_ne.
Qed.

Lemma window_fold_addToWindow {A} (f : A -> vitals) (l : list A) d pid :
  window_of (fold_left (fun d s => addToWindow d pid (f s)) l d) pid =
  fold_left (fun w s => push_bounded 288 w (f s)) l (window_of d pid).
Proof.
  revert d. induction l as [| s l IH]; intros d; simpl; [reflexivity |].
  now rewrite IH, window_addToWindow.
Qed.

Lemma push_bounded_length {A} cap (l : list A) v :
  (length l <= cap)%nat -> (length (push_bounded cap l v) <= cap)%nat.
Proof.
  intros H. unfold push_bounded.
  destruct (Nat.ltb_spec cap (length (l ++ [v]))) as [Hlt | Hge]; [| exact Hge].
  rewrite length_app in Hlt. simpl in Hlt.
  destruct l; simpl in *; [lia |]. rewrite length_app. simpl. lia.
Qed.


Lemma push_bounded_room {A} cap (l : list A) v :
  (length l < cap)%nat -> push_bounded cap l v = (l ++ [v])%list.
Proof.
  intros H. unfold push_bounded.
  destruct (Nat.ltb_spec cap (length (l ++ [v]))) as [Hlt | Hge]; [| reflexivity].
  rewrite length_app in Hlt. simpl in Hlt. lia.
Qed.



Lemma window_after_detect h d pid v p :
  window_of (snd (detectAnomalies h d pid v p)) pid =
  push_bounded 288 (window_of d pid) v.
Proof.
  unfold detectAnomalies. destruct (collect _ _ _ _ _) as [al sev]. simpl.
  rewrite window_addToWindow.
  now destruct (0 <? length al)%nat.
Qed.




(** ** Severity of a result *)

Lemma some_critical_warning l :
  Forall (fun a => type a = "warning") l -> some_critical l = false.
Proof.
  induction 1 as [| a l Ha _ IH]; [reflexivity |].
  unfold some_critical in *. simpl. now rewrite Ha, IH.
Qed.

Lemma some_critical_app l l' :
  some_critical (l ++ l') = some_critical l || some_critical l'.
Proof. apply existsb_app. Qed.

(** What the aggregator computes: only a critical alert of the threshold
    stage, a fall, or an alert of the statistical stage moves the
    severity. *)
Lemma collect_severity h w pid v p :
  snd (collect h w pid v p) =
  if some_critical (checkCriticalVitals v p) || JS.gtb (fallRiskScore v) 80
  then "critical"
  else if (0 <? length (checkStatisticalAnomalies w v))%nat then "warning"
  else "normal".
Proof.
  unfold collect. simpl.
  rewrite (some_critical_warning _ (checkStatisticalAnomalies_warning w v)).
  rewrite (some_critical_warning _ (checkBehavioralChanges_warning h w v)).
  destruct (some_critical (checkCriticalVitals v p));
    destruct (JS.gtb (fallRiskScore v) 80);
    destruct (0 <? length (checkStatisticalAnomalies w v))%nat; reflexivity.
Qed.

(** C1 (the code departs from it).  A reading whose only finding is a
    fever, on a fresh detector, and a reading whose only finding is
    nocturnal activity, at 23:00 on a window of seven active readings: each
    result carries one warning alert and no critical one, the documented
    policy gives severity warning, and [detect] returns severity normal. *)
Theorem fever_only_severity_normal :
  let r := detect 12 constructor "P001" (Sample.reading 72 38.8 0.3 10 0) Sample.P001 in
  let active := Sample.reading 72 36.8 0.7 10 0 in
  let r' := detect 23 (Sample.loaded (repeat active 7)) "P001" active Sample.P001 in
  (map category (alerts r) = ["fever"]
   /\ map type (alerts r) = ["warning"]
   /\ isAnomaly r = true
   /\ documented_severity (alerts r) = "warning"
   /\ severity r = "normal")
  /\ (map category (alerts r') = ["nocturnal_activity"]
      /\ map type (alerts r') = ["warning"]
      /\ isAnomaly r' = true
      /\ documented_severity (alerts r') = "warning"
      /\ severity r' = "normal").
Proof. vm_compute. repeat split. Qed.

(** ** Bradycardia *)

(** C4.  A heart rate strictly below [hrCritical[0]] gives a critical
    bradycardia alert and a critical result, whatever the other vitals, the
    clock and the window are. *)
Theorem bradycardia_critical (h : Z) (d : detector) (pid : string) (v : vitals)
    (p : patient) (lo : Q)
    (Hlo : hrCritical (alertThresholds p) !! 0%nat = Some lo)
    (Hlt : heartRate v < lo) :
  let r := detect h d pid v p in
  (exists a, In a (alerts r) /\ category a = "bradycardia" /\ type a = "critical"
             /\ value a = Num (heartRate v))
  /\ severity r = "critical"
  /\ isAnomaly r = true.
Proof.
  intros r. subst r.
  assert (Hb : JS.ltb_opt (Some (heartRate v)) (hrCritical (alertThresholds p) !! 0%nat) = true).
  { rewrite Hlo. simpl. now apply ltb_lt. }
  assert (Hc : exists a l, checkCriticalVitals v p = a :: l
                /\ category a = "bradycardia" /\ type a = "critical"
                /\ value a = Num (heartRate v)).
  { unfold checkCriticalVitals. rewrite Hb. simpl. eauto 10. }
  destruct Hc as (a & l & Hc & Hcat & Hty & Hval).
  rewrite detect_isAnomaly, detect_severity, detect_alerts, collect_severity, collect_alerts.
  rewrite Hc. split; [| split].
  - exists a. simpl. auto.
  - unfold some_critical. simpl. now rewrite Hty.
  - reflexivity.
Qed.

Lemma bradycardia_critical_witness :
  let r := detect 3 (Sample.loaded [Sample.normalVitals]) "P001"
                  (Sample.reading 35 36.8 0.3 10 0) Sample.P001 in
  severity r = "critical" /\ isAnomaly r = true.
Proof.
  intros r.
  destruct (bradycardia_critical 3 (Sample.loaded [Sample.normalVitals]) "P001"
              (Sample.reading 35 36.8 0.3 10 0) Sample.P001 45) as (_ & Hs & Ha).
  - reflexivity.
  - reflexivity.
  - split; [exact Hs | exact Ha].
Defined.

(** ** Fall detection *)

Lemma filter_category_none cs c l :
  Forall (from_categories cs) l -> ~ In c cs -> List.filter (is_category c) l = [].
Proof.
  intros Hl Hc. induction Hl as [| a l Ha _ IH]; [reflexivity |].
  simpl. rewrite IH. unfold is_category.
  destruct (String.eqb_spec (category a) c) as [E | _]; [| reflexivity].
  exfalso. apply Hc. rewrite <- E. exact Ha.
Qed.

Lemma not_in_list (c : string) (cs : list string) :
  forallb (fun x => negb (String.eqb x c)) cs = true -> ~ In c cs.
Proof.
  rewrite forallb_forall. intros H Hin. specialize (H c Hin).
  now rewrite String.eqb_refl in H.
Qed.

Lemma filter_category_detect c h d pid v p :
  List.filter (is_category c) (alerts (detect h d pid v p)) =
  (List.filter (is_category c) (checkCriticalVitals v p)
   ++ List.filter (is_category c) (fallAlerts pid v)
   ++ List.filter (is_category c) (checkStatisticalAnomalies (window_of d pid) v)
   ++ List.filter (is_category c) (checkBehavioralChanges h (window_of d pid) v))%list.
Proof. now rewrite detect_alerts, collect_alerts, !List.filter_app. Qed.

Lemma fall_detected_only_from_fall h d pid v p :
  List.filter (is_category "fall_detected") (alerts (detect h d pid v p)) =
  List.filter (is_category "fall_detected") (fallAlerts pid v).
Proof.
  rewrite filter_category_detect.
  rewrite (filter_category_none _ _ _ (checkCriticalVitals_categories v p))
    by (apply not_in_list; reflexivity).
  rewrite (filter_category_none _ _ _ (checkStatisticalAnomalies_categories _ v))
    by (apply not_in_list; reflexivity).
  rewrite (filter_category_none _ _ _ (checkBehavioralChanges_categories h _ v))
    by (apply not_in_list; reflexivity).
  simpl. now rewrite app_nil_r.
Qed.

(** C7.  A reading with [fallRiskScore > 80] yields exactly one
    [fall_detected] alert; it is critical and its message interpolates the
    patient id and the score.  A reading with [fallRiskScore <= 80] yields
    none.  Neither depends on the other vitals, the window or the clock. *)
Theorem fall_detected_exactly_one (h h' : Z) (d d' : detector) (pid pid' : string)
    (v v' : vitals) (p p' : patient)
    (Hhigh : 80 < fallRiskScore v)
    (Hlow : fallRiskScore v' <= 80) :
  (exists a,
      List.filter (is_category "fall_detected") (alerts (detect h d pid v p)) = [a]
      /\ type a = "critical"
      /\ In (Str pid) (message a)
      /\ In (Val (Num (fallRiskScore v))) (message a)
      /\ value a = Num (fallRiskScore v))
  /\ List.filter (is_category "fall_detected") (alerts (detect h' d' pid' v' p')) = [].
Proof.
  rewrite !fall_detected_only_from_fall. unfold fallAlerts.
  apply gtb_gt in Hhigh. apply gtb_le in Hlow. rewrite Hhigh, Hlow.
  split; [| reflexivity].
  eexists. split; [reflexivity |]. simpl. auto 10.
Qed.

Lemma fall_detected_exactly_one_witness :
  length (List.filter (is_category "fall_detected")
            (alerts (detect 12 constructor "P002" (Sample.reading 35 39 0.3 95 0)
                            Sample.P001))) = 1%nat
  /\ List.filter (is_category "fall_detected")
       (alerts (detect 12 constructor "P002" (Sample.reading 35 39 0.3 80 0)
                       Sample.P001)) = [].
Proof.
  destruct (fall_detected_exactly_one 12 12 constructor constructor "P002" "P002"
              (Sample.reading 35 39 0.3 95 0) (Sample.reading 35 39 0.3 80 0)
              Sample.P001 Sample.P001) as ((a & Ha & _) & Hnone).
  - reflexivity.
  - discriminate.
  - split; [now rewrite Ha | exact Hnone].
Defined.

(** ** The z-score test *)

Lemma hr_anomaly_filter w cur :
  (12 <= length w)%nat ->
  List.filter (is_category "hr_anomaly") (checkStatisticalAnomalies w cur) =
  if hrZExceeds w cur then
    [ {| type := "warning"; category := "hr_anomaly";
         message := [Lit "⚠️ ABNORMAL HR: "; Val (Num (heartRate cur));
                     Lit " bpm (Z-score: ";
                     Fixed 2 (Double (hrZScore w cur));
                     Lit ")"];
         value := Double (hrZScore w cur) |} ]
  else [].
Proof.
  intros Hlen. unfold checkStatisticalAnomalies.
  destruct (Nat.ltb_spec (length w) 12) as [Hlt | _]; [lia |].
  rewrite List.filter_app.
  destruct (hrZExceeds w cur); destruct (JS.ltb (spo2Trend w) (-5)); reflexivity.
Qed.

Lemma short_window_no_statistics w cur :
  (length w < 12)%nat -> checkStatisticalAnomalies w cur = [].
Proof.
  intros Hlt. unfold checkStatisticalAnomalies.
  destruct (Nat.ltb_spec (length w) 12) as [_ | Hge]; [reflexivity | lia].
Qed.

(** [Math.abs(z) > c] for a positive [c] is [z > c || z < -c]. *)
Lemma abs_gt_cases (z : JS.number) (m : positive) (e : Z) :
  JS.gt (JS.Math_abs z) (SpecFloat.S754_finite false m e)
  = JS.gt z (SpecFloat.S754_finite false m e)
    || JS.lt z (SpecFloat.S754_finite true m e).
Proof.
  unfold JS.gt, JS.lt, JS.Math_abs, SpecFloat.SFltb.
  destruct z as [s | s | | s mz ez]; try (destruct s; reflexivity); [reflexivity |].
  destruct s; cbn [SpecFloat.SFabs SpecFloat.SFcompare]; [| now rewrite orb_false_r].
  change PosDef.Pos.compare_cont with Pos.compare_cont.
  rewrite (Z.compare_antisym e ez), (Pos.compare_cont_antisym mz m Eq).
  destruct (e ?= ez)%Z; reflexivity.
Qed.

Lemma hrZExceeds_cases w cur :
  hrZExceeds w cur
  = JS.gt (hrZScore w cur) (JS.of_Q 2.5) || JS.lt (hrZScore w cur) (JS.of_Q (-2.5)).
Proof. apply abs_gt_cases. Qed.

(** C2 (as the code has it).  On a window of at least 12 entries the
    statistical stage computes, in double arithmetic, the mean of the heart
    rates (their sum from left to right, divided by their number), the
    population standard deviation (the square root of the mean of the
    squared distances to that mean) and the z-score
    [(hr - mean) / (stddev || 1)], the divisor being 1 only when the
    computed deviation is 0 (or not a number); it raises [hr_anomaly], as a
    warning carrying the z-score, exactly when [|z| > 2.5], that is when
    [z > 2.5] or [z < -2.5]. *)
Theorem hr_anomaly_iff_zscore (w : list vitals) (cur : vitals)
    (Hlen : (12 <= length w)%nat) :
  let n := JS.of_nat (length w) in
  let hr := map (fun v => JS.of_Q (heartRate v)) w in
  let z := hrZScore w cur in
  let raised := List.filter (is_category "hr_anomaly") (checkStatisticalAnomalies w cur) in
  hrMean w = JS.div (JS.sum hr) n
  /\ hrStd w =
     JS.Math_sqrt
       (JS.div (fold_left (fun sum v =>
                             JS.add sum (JS.mul (JS.sub v (hrMean w)) (JS.sub v (hrMean w))))
                          hr JS.zero) n)
  /\ z = JS.div (JS.sub (JS.of_Q (heartRate cur)) (hrMean w))
                (JS.or_else (hrStd w) (JS.of_Q 1))
  /\ (JS.gt (hrStd w) JS.zero = true -> JS.or_else (hrStd w) (JS.of_Q 1) = hrStd w)
  /\ (hrStd w = JS.zero -> JS.or_else (hrStd w) (JS.of_Q 1) = JS.of_Q 1)
  /\ (raised <> [] <-> JS.gt (JS.Math_abs z) (JS.of_Q 2.5) = true)
  /\ (raised <> [] <->
      JS.gt z (JS.of_Q 2.5) = true \/ JS.lt z (JS.of_Q (-2.5)) = true)
  /\ (length raised <= 1)%nat
  /\ Forall (fun a => type a = "warning" /\ value a = Double z) raised.
Proof.
  intros n hr z raised.
  assert (En : JS.of_nat (length (hrValues w)) = n)
    by (unfold n, hrValues; now rewrite length_map).
  assert (Hiff : raised <> [] <-> hrZExceeds w cur = true).
  { unfold raised. rewrite hr_anomaly_filter by exact Hlen.
    destruct (hrZExceeds w cur); split; congruence. }
  split; [unfold hrMean; now rewrite En |].
  split; [unfold hrStd, hrVariance; now rewrite En |].
  split; [reflexivity |].
  split; [destruct (hrStd w) as [[] | | |]; try reflexivity; discriminate |].
  split; [intros ->; reflexivity |].
  split; [exact Hiff |].
  split; [rewrite Hiff, hrZExceeds_cases; apply orb_true_iff |].
  unfold raised. rewrite hr_anomaly_filter by exact Hlen.
  destruct (hrZExceeds w cur); split; simpl; try lia; repeat constructor.
Qed.

Lemma hr_anomaly_iff_zscore_witness :
  let w := (repeat (Sample.reading 72 36.8 0.3 10 0) 14
            ++ repeat (Sample.reading 73 36.8 0.3 10 0) 2
            ++ repeat (Sample.reading 74 36.8 0.3 10 0) 2)%list in
  let cur := Sample.reading 74 36.8 0.3 10 0 in
  JS.to_Q (hrZScore w cur) = Some (5629499534213136 # 2251799813685248)
  /\ List.filter (is_category "hr_anomaly") (checkStatisticalAnomalies w cur) <> [].
Proof.
  intros w cur. split; [vm_compute; reflexivity |].
  destruct (hr_anomaly_iff_zscore w cur) as (_ & _ & _ & _ & _ & H & _).
  - simpl. lia.
  - apply H. vm_compute. reflexivity.
Defined.

(** C2 (as the specification words it) fails: six readings at 70 bpm and six
    at 71 have deviation 0.5, so a reading at 72 has z-score 3 and raises
    [hr_anomaly], while [(72 - 70.5) / max(0.5, 1)] is 1.5. *)
Lemma documented_zscore_counterexample :
  let w := (repeat (Sample.reading 70 36.8 0.3 10 0) 6
            ++ repeat (Sample.reading 71 36.8 0.3 10 0) 6)%list in
  let cur := Sample.reading 72 36.8 0.3 10 0 in
  (12 <= length w)%nat
  /\ hrStd w = JS.of_Q 0.5
  /\ hrZScore w cur = JS.of_Q 3
  /\ List.filter (is_category "hr_anomaly") (checkStatisticalAnomalies w cur) <> []
  /\ documented_hrZScore w cur = JS.of_Q 1.5
  /\ JS.gt (JS.Math_abs (documented_hrZScore w cur)) (JS.of_Q 2.5) = false.
Proof.
  intros w cur. split; [simpl; lia |].
  split; [vm_compute; reflexivity |].
  split; [vm_compute; reflexivity |].
  split; [vm_compute; discriminate |].
  split; vm_compute; reflexivity.
Qed.

(** ** A window of constant heart rate *)

Lemma same_eq (a b : JS.number) : JS.same a b = true -> a = b.
Proof.
  destruct a as [s | s | | s m e], b as [s' | s' | | s' m' e']; simpl;
    try discriminate; try reflexivity.
  - intros H. apply Bool.eqb_prop in H. now subst.
  - intros H. apply Bool.eqb_prop in H. now subst.
  - rewrite !andb_true_iff. intros [[Hs Hm] He].
    apply Bool.eqb_prop in Hs. apply Pos.eqb_eq in Hm. apply Z.eqb_eq in He.
    now subst.
Qed.

(** Checked by evaluation: on twelve heart rates all equal to a whole
    number up to 300, the mean of the source comes out as that number and
    its standard deviation as 0. *)
Lemma constant_rates_checked :
  forallb
    (fun c : nat =>
       JS.same
         (JS.div (JS.sum (repeat (JS.of_Q (inject_Z (Z.of_nat c))) 12)) (JS.of_nat 12))
         (JS.of_Q (inject_Z (Z.of_nat c)))
       && JS.same
            (JS.Math_sqrt
               (JS.div
                  (fold_left
                     (fun sum v =>
                        JS.add sum
                               (JS.Math_pow2 (JS.sub v (JS.of_Q (inject_Z (Z.of_nat c))))))
                     (repeat (JS.of_Q (inject_Z (Z.of_nat c))) 12) JS.zero)
                  (JS.of_nat 12)))
            JS.zero)
    (seq 0 301)
  = true.
Proof. vm_compute. reflexivity. Qed.

Lemma hrValues_constant (w : list vitals) (q : Q) :
  Forall (fun s => heartRate s = q) w ->
  hrValues w = repeat (JS.of_Q q) (length w).
Proof.
  intros H. unfold hrValues. induction H as [| x l Hx _ IH]; simpl; [reflexivity |].
  now rewrite Hx, IH.
Qed.

Lemma hrMean_eq w :
  hrMean w = JS.div (JS.sum (hrValues w)) (JS.of_nat (length (hrValues w))).
Proof. reflexivity. Qed.

Lemma hrStd_eq w :
  hrStd w =
  JS.Math_sqrt
    (JS.div (fold_left (fun sum v => JS.add sum (JS.Math_pow2 (JS.sub v (hrMean w))))
                       (hrValues w) JS.zero)
            (JS.of_nat (length (hrValues w)))).
Proof. reflexivity. Qed.

Lemma hrZScore_eq w cur :
  hrZScore w cur =
  JS.div (JS.sub (JS.of_Q (heartRate cur)) (hrMean w))
         (JS.or_else (hrStd w) (JS.of_Q 1)).
Proof. reflexivity. Qed.

Lemma or_else_zero (y : JS.number) : JS.or_else JS.zero y = y.
Proof. reflexivity. Qed.

(** Twelve readings of one whole heart rate up to 300: the computed mean
    is that rate and the computed deviation is 0, so the z-score of a
    sample is its distance to the rate, divided by 1. *)
Lemma constant_window (w : list vitals) (cur : vitals) (c : nat) :
  length w = 12%nat -> (c <= 300)%nat ->
  Forall (fun s => heartRate s = inject_Z (Z.of_nat c)) w ->
  hrMean w = JS.of_Q (inject_Z (Z.of_nat c))
  /\ hrStd w = JS.zero
  /\ hrZScore w cur
     = JS.div (JS.sub (JS.of_Q (heartRate cur)) (JS.of_Q (inject_Z (Z.of_nat c))))
              (JS.of_Q 1).
Proof.
  intros Hlen Hc Hconst.
  pose proof constant_rates_checked as Hall. rewrite forallb_forall in Hall.
  assert (Hin : In c (seq 0 301)) by (apply in_seq; lia).
  specialize (Hall c Hin). cbv beta in Hall.
  apply andb_prop in Hall. destruct Hall as [Hm Hs].
  apply same_eq in Hm. apply same_eq in Hs.
  pose proof (hrValues_constant w _ Hconst) as Hvals. rewrite Hlen in Hvals.
  assert (Hn : length (hrValues w) = 12%nat)
    by (unfold hrValues; now rewrite length_map).
  assert (Emean : hrMean w = JS.of_Q (inject_Z (Z.of_nat c)))
    by (rewrite hrMean_eq, Hn, Hvals; exact Hm).
  assert (Estd : hrStd w = JS.zero)
    by (rewrite hrStd_eq, Emean, Hn, Hvals; exact Hs).
  split; [exact Emean |]. split; [exact Estd |].
  rewrite hrZScore_eq, Emean, Estd. now rewrite or_else_zero.
Qed.

(** C6.  The statistical stage reads the window as it stands when [detect]
    is called, and the sample is appended afterwards.  With 12 prior
    entries and a sample whose computed z-score has [|z| > 2.5] the result
    carries an [hr_anomaly] warning; when the 12 entries have one whole
    heart rate [c] up to 300 bpm, the computed mean is [c], the computed
    deviation 0 and the z-score the distance of the sample to [c].  With at
    most 11 prior entries the stage raises nothing, so the same sample
    yields no [hr_anomaly]. *)
Theorem hr_anomaly_needs_twelve (h h' : Z) (d d' : detector) (pid pid' : string)
    (v : vitals) (p p' : patient)
    (H12 : length (window_of d pid) = 12%nat)
    (Hz : JS.gt (JS.Math_abs (hrZScore (window_of d pid) v)) (JS.of_Q 2.5) = true)
    (H11 : (length (window_of d' pid') <= 11)%nat) :
  (forall c : nat,
      (c <= 300)%nat ->
      Forall (fun s => heartRate s = inject_Z (Z.of_nat c)) (window_of d pid) ->
      hrMean (window_of d pid) = JS.of_Q (inject_Z (Z.of_nat c))
      /\ hrStd (window_of d pid) = JS.zero
      /\ hrZScore (window_of d pid) v
         = JS.div (JS.sub (JS.of_Q (heartRate v)) (JS.of_Q (inject_Z (Z.of_nat c))))
                  (JS.of_Q 1))
  /\ (exists a, In a (alerts (detect h d pid v p))
                /\ category a = "hr_anomaly" /\ type a = "warning")
  /\ checkStatisticalAnomalies (window_of d' pid') v = []
  /\ List.filter (is_category "hr_anomaly") (alerts (detect h' d' pid' v p')) = []
  /\ List.filter (is_category "hr_anomaly") (alerts (detect h d pid v p)) =
     List.filter (is_category "hr_anomaly") (checkStatisticalAnomalies (window_of d pid) v)
  /\ window_of (snd (detectAnomalies h d pid v p)) pid =
     (window_of d pid ++ [v])%list.
Proof.
  assert (Hfilter : forall h d pid p,
             List.filter (is_category "hr_anomaly") (alerts (detect h d pid v p)) =
             List.filter (is_category "hr_anomaly")
                         (checkStatisticalAnomalies (window_of d pid) v)).
  { intros h0 d0 pid0 p0. rewrite filter_category_detect.
    rewrite (filter_category_none _ _ _ (checkCriticalVitals_categories v p0))
      by (apply not_in_list; reflexivity).
    rewrite (filter_category_none _ _ _ (checkBehavioralChanges_categories h0 _ v))
      by (apply not_in_list; reflexivity).
    unfold fallAlerts. destruct (JS.gtb (fallRiskScore v) 80); simpl;
      now rewrite app_nil_r. }
  split; [intros c Hc Hconst; now apply constant_window |].
  split.
  { pose proof (hr_anomaly_filter (window_of d pid) v ltac:(lia)) as Hf.
    unfold hrZExceeds in Hf. rewrite Hz in Hf.
    match type of Hf with _ = [?a] => exists a end.
    split; [| split; reflexivity].
    rewrite detect_alerts, collect_alerts, !in_app_iff. right. right. left.
    eapply (proj1 (filter_In _ _ _)). rewrite Hf. now left. }
  split; [apply short_window_no_statistics; lia |].
  split; [rewrite Hfilter, short_window_no_statistics by lia; reflexivity |].
  split; [apply Hfilter |].
  unfold detectAnomalies. destruct (collect _ _ _ _ _) as [al sev]. simpl.
  rewrite window_addToWindow.
  replace (window_of (if (0 <? length al)%nat then _ else d) pid)
    with (window_of d pid) by (destruct (0 <? length al)%nat; reflexivity).
  apply push_bounded_room. lia.
Qed.

Lemma hr_anomaly_needs_twelve_witness :
  let spike := Sample.reading 110 36.8 0.3 10 0 in
  hrZScore (repeat Sample.normalVitals 12) spike = JS.of_Q 38
  /\ (exists a, In a (alerts (detect 12 (Sample.loaded (repeat Sample.normalVitals 12))
                                     "P001" spike Sample.P001))
                /\ category a = "hr_anomaly" /\ type a = "warning")
  /\ List.filter (is_category "hr_anomaly")
       (alerts (detect 12 (Sample.loaded (repeat Sample.normalVitals 11))
                       "P001" spike Sample.P001)) = [].
Proof.
  intros spike.
  destruct (hr_anomaly_needs_twelve 12 12
              (Sample.loaded (repeat Sample.normalVitals 12))
              (Sample.loaded (repeat Sample.normalVitals 11))
              "P001" "P001" spike Sample.P001 Sample.P001)
    as (Hconst & Hfires & _ & Hsilent & _).
  - reflexivity.
  - vm_compute. reflexivity.
  - replace (window_of (Sample.loaded (repeat Sample.normalVitals 11)) "P001")
      with (repeat Sample.normalVitals 11) by reflexivity.
    simpl. lia.
  - split; [| split; [exact Hfires | exact Hsilent]].
    destruct (Hconst 72%nat) as (_ & _ & E).
    + lia.
    + replace (window_of (Sample.loaded (repeat Sample.normalVitals 12)) "P001")
        with (repeat Sample.normalVitals 12) by reflexivity.
      repeat constructor.
    + replace (window_of (Sample.loaded (repeat Sample.normalVitals 12)) "P001")
        with (repeat Sample.normalVitals 12) in E by reflexivity.
      rewrite E. vm_compute. reflexivity.
Defined.

(** ** Validation of the retrospective request *)

Lemma truthy_given (s : string) : s <> "" -> truthy (Some s) = Some s.
Proof. destruct s; [congruence | reflexivity]. Qed.

Lemma parseOptionalDate_invalid Date_parse field s :
  s <> "" -> Date_parse s = None ->
  parseOptionalDate Date_parse field (Some s) = inl ("Invalid " ++ field ++ " format").
Proof.
  intros Hs Hp. unfold parseOptionalDate. now rewrite truthy_given, Hp.
Qed.

Lemma parseOptionalDate_valid Date_parse field s t :
  s <> "" -> Date_parse s = Some t ->
  parseOptionalDate Date_parse field (Some s) = inr (Some t).
Proof.
  intros Hs Hp. unfold parseOptionalDate. now rewrite truthy_given, Hp.
Qed.

(** C9 (as the code has it).  A request whose [startDate] or [endDate] is
    a non-empty string that does not parse, or whose two dates are given,
    parse, and are in the wrong order, is answered with status 400 before
    the detector is invoked: the detector and the collections are returned
    as they were. *)
Theorem invalid_dates_rejected (Date_parse : string -> option Z) (e : env)
    (req : request) (det : detector) (db : Db.t)
    (H : invalid_given_dates Date_parse req) :
  rejected (post_retrospective Date_parse e req det db) det db.
Proof.
  unfold post_retrospective, rejected.
  destruct H as [(s & Hs & Hne & Hp) | [(s & Hs & Hne & Hp) | H]].
  - rewrite Hs, (parseOptionalDate_invalid _ _ _ Hne Hp). simpl. eauto.
  - rewrite Hs, (parseOptionalDate_invalid _ _ _ Hne Hp).
    destruct (parseOptionalDate Date_parse "startDate" (body_startDate req));
      simpl; eauto.
  - destruct H as (s & f & ts & tf & Hs & Hf & Hns & Hnf & Hps & Hpf & Hlt).
    rewrite Hs, Hf, (parseOptionalDate_valid _ _ _ _ Hns Hps),
      (parseOptionalDate_valid _ _ _ _ Hnf Hpf).
    destruct (Z.ltb_spec tf ts) as [_ | Hge]; [| lia].
    simpl. eauto.
Qed.

Lemma invalid_dates_rejected_witness :
  let req := {| body_patientId := None; body_startDate := Some "2025";
                body_endDate := Some "2024"; body_updateDatabase := None |} in
  let det := setHealthRecordModel constructor in
  let db := Sample.db_of [Sample.stored 35 0.3 0] in
  rejected (post_retrospective Sample.Date_parse (Sample.at_hour 12) req det db) det db.
Proof.
  intros req det db.
  apply (invalid_dates_rejected Sample.Date_parse (Sample.at_hour 12) req det db).
  right. right. exists "2025", "2024", 1735689600000%Z, 1704067200000%Z.
  repeat split; try reflexivity; try discriminate.
Defined.

(** C9 (as the specification words it) fails: the empty string does not
    parse as a date, yet a request whose [startDate] is the empty string is
    taken as one without a start date; the detection runs and an anomaly is
    written. *)
Lemma empty_startDate_not_rejected :
  let req := {| body_patientId := None; body_startDate := Some "";
                body_endDate := None; body_updateDatabase := None |} in
  let det := setHealthRecordModel constructor in
  let db := Sample.db_of [Sample.stored 35 0.3 0] in
  let out := post_retrospective Sample.Date_parse (Sample.at_hour 12) req det db in
  invalid_dates Sample.Date_parse req
  /\ ~ rejected out det db
  /\ (exists r, out.1.1 = Status200 r /\ newAnomaliesDetected r = 1%nat)
  /\ length (Db.Anomaly out.2) = 1%nat
  /\ Db.Anomaly db = [].
Proof.
  intros req det db out.
  assert (E : exists r d' db', out = (Status200 r, d', db')
                /\ newAnomaliesDetected r = 1%nat /\ length (Db.Anomaly db') = 1%nat).
  { unfold out. vm_compute. do 3 eexists. repeat split. }
  destruct E as (r & d' & db' & E & Hn & Hl). rewrite E. simpl.
  split; [left; exists ""; split; reflexivity |].
  split; [intros ((msg & Hm) & _); discriminate |].
  split; [exists r; auto |]. auto.
Qed.

(** ** Replaying the history twice *)

Lemma checkBehavioralChanges_night h1 h2 w v :
  isNight h1 = isNight h2 ->
  checkBehavioralChanges h1 w v = checkBehavioralChanges h2 w v.
Proof. intros H. unfold checkBehavioralChanges. now rewrite H. Qed.

Lemma collect_night h1 h2 w pid v p :
  isNight h1 = isNight h2 -> collect h1 w pid v p = collect h2 w pid v p.
Proof.
  intros H. unfold collect. now rewrite (checkBehavioralChanges_night h1 h2 w v H).
Qed.

Lemma detectAnomalies_result h1 h2 d1 d2 pid v p :
  isNight h1 = isNight h2 -> window_of d1 pid = window_of d2 pid ->
  fst (detectAnomalies h1 d1 pid v p) = fst (detectAnomalies h2 d2 pid v p).
Proof.
  intros Hn Hw. unfold detectAnomalies.
  rewrite Hw, (collect_night h1 h2 _ pid v p Hn).
  destruct (collect h2 (window_of d2 pid) pid v p). reflexivity.
Qed.

Lemma HealthRecord_after_detect h d pid v p :
  HealthRecord (snd (detectAnomalies h d pid v p)) = HealthRecord d.
Proof.
  unfold detectAnomalies. destruct (collect _ _ _ _ _) as [al sev]. simpl.
  now destruct (0 <? length al)%nat.
Qed.

Lemma existingKeys_create o a l db :
  existingKeys o (insertMany l (createAnomaly a db)) =
  existingKeys o db
  ∪ (if anomaly_matches o (Anomaly_document a)
     then {[ anomalyKey (af_patientId a) (af_detectedAt a) ]} else ∅).
Proof.
  unfold existingKeys. simpl.
  rewrite List.filter_app, map_app, list_to_set_app_L. simpl.
  destruct (anomaly_matches o (Anomaly_document a)); simpl; [| reflexivity].
  now rewrite (right_id_L ∅ (∪)).
Qed.

(** One record: what every run does. *)
Lemma processRecord_shape e o pid p st r :
  let out := detectAnomalies (getHours e (processed (st_results st)))
                             (st_detector st) pid (vitals_of r) p in
  let st' := processRecord e o pid p st r in
  st_detector st' = snd out
  /\ processed (st_results st') = S (processed (st_results st))
  /\ Db.HealthRecord (st_db st') = Db.HealthRecord (st_db st).
Proof.
  intros out st'. subst out st'. unfold processRecord.
  destruct (detectAnomalies _ _ _ _ _) as [det d']. simpl.
  destruct (isAnomaly det && _); [| auto].
  destruct (updateDatabase o); [| auto].
  destruct (persist e _); auto.
Qed.

(** One record whose key is already known: nothing is counted or written. *)
Lemma processRecord_known e o pid p st r :
  let out := detectAnomalies (getHours e (processed (st_results st)))
                             (st_detector st) pid (vitals_of r) p in
  let st' := processRecord e o pid p st r in
  (isAnomaly (fst out) = true ->
   anomalyKey pid (recordedAt r) ∈ existingAnomalySet st) ->
  newAnomaliesDetected (st_results st') = newAnomaliesDetected (st_results st)
  /\ existingAnomalySet st' = existingAnomalySet st
  /\ st_db st' = st_db st.
Proof.
  intros out st' H. subst out st'. unfold processRecord.
  destruct (detectAnomalies _ _ _ _ _) as [det d']. simpl in *.
  destruct (isAnomaly det); simpl; [| auto].
  rewrite bool_decide_eq_true_2 by auto. simpl. auto.
Qed.

(** One record of a run whose writes succeed: the anomaly of the record, if
    any, is among the stored anomalies that the query selects. *)
Lemma processRecord_saved e o pid p st r :
  let out := detectAnomalies (getHours e (processed (st_results st)))
                             (st_detector st) pid (vitals_of r) p in
  let st' := processRecord e o pid p st r in
  persist e (processed (st_results st)) = Saved ->
  updateDatabase o = true ->
  record_matches o r = true -> rec_patientId r = pid ->
  keys_known o st ->
  keys_known o st'
  /\ existingKeys o (st_db st) ⊆ existingKeys o (st_db st')
  /\ (isAnomaly (fst out) = true ->
      anomalyKey pid (recordedAt r) ∈ existingKeys o (st_db st')).
Proof.
  intros out st' Hsaved Hupd Hmatch Hpid Hinv. subst out st'.
  unfold processRecord, keys_known in *.
  destruct (detectAnomalies _ _ _ _ _) as [det d']. simpl in *.
  rewrite Hupd, Hsaved.
  destruct (isAnomaly det); simpl.
  - destruct (decide (anomalyKey pid (recordedAt r) ∈ existingAnomalySet st)) as [Hin | Hout].
    + rewrite bool_decide_eq_true_2 by exact Hin. simpl.
      split; [exact Hinv |]. split; [reflexivity |].
      intros _. eapply elem_of_weaken; [exact Hin | exact Hinv].
    + rewrite bool_decide_eq_false_2 by exact Hout. simpl.
      rewrite existingKeys_create. unfold anomaly_matches. simpl.
      unfold record_matches in Hmatch. rewrite Hpid in Hmatch. rewrite Hmatch.
      split; [| split].
      * apply union_least; [apply union_subseteq_r |].
        etrans; [exact Hinv | apply union_subseteq_l].
      * apply union_subseteq_l.
      * intros _. apply elem_of_union_r, elem_of_singleton. reflexivity.
  - split; [exact Hinv |]. split; [reflexivity | discriminate].
Qed.

(** The records of one patient, replayed by two runs in step: the first
    saves what it finds; the second, started with all the keys the first
    ends with, finds nothing new. *)
Lemma replay_records e1 e2 o pid p rs :
  (forall n, persist e1 n = Saved) -> updateDatabase o = true -> same_night e1 e2 ->
  forall st1 st2,
    (forall r, In r rs -> record_matches o r = true /\ rec_patientId r = pid) ->
    keys_known o st1 -> in_step st1 st2 ->
    window_of (st_detector st1) pid = window_of (st_detector st2) pid ->
    let st1' := fold_left (processRecord e1 o pid p) rs st1 in
    let st2' := fold_left (processRecord e2 o pid p) rs st2 in
    keys_known o st1' /\ in_step st1' st2'
    /\ existingKeys o (st_db st1) ⊆ existingKeys o (st_db st1')
    /\ (existingKeys o (st_db st1') ⊆ existingAnomalySet st2 ->
        newAnomaliesDetected (st_results st2') = newAnomaliesDetected (st_results st2)
        /\ existingAnomalySet st2' = existingAnomalySet st2
        /\ st_db st2' = st_db st2).
Proof.
  intros Hsaved Hupd Hnight.
  induction rs as [| r rs IH]; intros st1 st2 Hrs Hinv Hstep Hwin; simpl.
  - repeat split; auto; apply Hstep.
  - destruct (Hrs r (or_introl eq_refl)) as [Hmatch Hpid].
    destruct Hstep as [Hproc Hdb].
    pose proof (processRecord_shape e1 o pid p st1 r) as (Hd1 & Hp1 & Hh1).
    pose proof (processRecord_shape e2 o pid p st2 r) as (Hd2 & Hp2 & Hh2).
    pose proof (processRecord_saved e1 o pid p st1 r (Hsaved _) Hupd Hmatch Hpid Hinv)
      as (Hinv' & Hmono & Hfound).
    assert (Hsame :
              fst (detectAnomalies (getHours e1 (processed (st_results st1)))
                     (st_detector st1) pid (vitals_of r) p) =
              fst (detectAnomalies (getHours e2 (processed (st_results st2)))
                     (st_detector st2) pid (vitals_of r) p)).
    { apply detectAnomalies_result; [rewrite Hproc; apply Hnight | exact Hwin]. }
    specialize (IH (processRecord e1 o pid p st1 r) (processRecord e2 o pid p st2 r)).
    destruct IH as (Hinv'' & Hstep'' & Hmono' & Hfinal).
    + intros r' Hr'. apply Hrs. now right.
    + exact Hinv'.
    + split; [rewrite Hp1, Hp2; now f_equal | now rewrite Hh1, Hh2].
    + now rewrite Hd1, Hd2, !window_after_detect, Hwin.
    + split; [exact Hinv'' |]. split; [exact Hstep'' |].
      split; [etrans; [exact Hmono | exact Hmono'] |].
      intros Hall.
      destruct (processRecord_known e2 o pid p st2 r) as (Hn2 & Hs2 & Hb2).
      { rewrite <- Hsame. intros Ha. apply Hall, Hmono', Hfound, Ha. }
      destruct Hfinal as (Hn & Hs & Hb); [now rewrite Hs2 |].
      rewrite Hn, Hs, Hb. auto.
Qed.

Lemma fold_context_window d1 d2 pid l :
  window_of d1 pid = window_of d2 pid ->
  window_of (fold_left (fun d r => addToWindow d pid (vitals_of r)) l d1) pid =
  window_of (fold_left (fun d r => addToWindow d pid (vitals_of r)) l d2) pid.
Proof.
  intros H. rewrite !(window_fold_addToWindow vitals_of). now rewrite H.
Qed.

Lemma window_resetPatient d pid : window_of (resetPatient d pid) pid = [].
Proof. unfold window_of, resetPatient. simpl. now rewrite lookup_delete_eq. Qed.

(** The same, for one entry of [recordsByPatient]. *)
Lemma replay_patient e1 e2 o pm g :
  (forall n, persist e1 n = Saved) -> updateDatabase o = true -> same_night e1 e2 ->
  group_matches o g ->
  forall st1 st2,
    keys_known o st1 -> in_step st1 st2 ->
    let st1' := processPatient e1 o pm st1 g in
    let st2' := processPatient e2 o pm st2 g in
    keys_known o st1' /\ in_step st1' st2'
    /\ existingKeys o (st_db st1) ⊆ existingKeys o (st_db st1')
    /\ (existingKeys o (st_db st1') ⊆ existingAnomalySet st2 ->
        newAnomaliesDetected (st_results st2') = newAnomaliesDetected (st_results st2)
        /\ existingAnomalySet st2' = existingAnomalySet st2
        /\ st_db st2' = st_db st2).
Proof.
  intros Hsaved Hupd Hnight Hg st1 st2 Hinv Hstep.
  destruct g as [pid [r0 rs]]. unfold processPatient.
  destruct (pm !! pid) as [p |].
  - destruct Hstep as [Hproc Hdb].
    match goal with
    | |- context [fold_left (processRecord e1 o pid p) _ ?a] => set (a1 := a)
    end.
    match goal with
    | |- context [fold_left (processRecord e2 o pid p) _ ?a] => set (a2 := a)
    end.
    destruct (replay_records e1 e2 o pid p (r0 :: rs) Hsaved Hupd Hnight a1 a2)
      as (Hinv' & Hstep' & Hmono & Hfinal).
    + exact Hg.
    + exact Hinv.
    + split; [exact Hproc | exact Hdb].
    + subst a1 a2. cbn [st_detector st_db]. unfold contextRecords. rewrite Hdb.
      apply fold_context_window. now rewrite !window_resetPatient.
    + set (f1 := fold_left (processRecord e1 o pid p) (r0 :: rs) a1) in *.
      set (f2 := fold_left (processRecord e2 o pid p) (r0 :: rs) a2) in *.
      unfold with_detector, keys_known, in_step in *.
      cbn [st_results st_db existingAnomalySet st_detector].
      change (st_db a1) with (st_db st1) in *.
      change (st_db a2) with (st_db st2) in *.
      change (existingAnomalySet a2) with (existingAnomalySet st2) in *.
      change (newAnomaliesDetected (st_results a2))
        with (newAnomaliesDetected (st_results st2)) in *.
      auto.
  - simpl. repeat split; auto; apply Hstep.
Qed.

Lemma replay_groups e1 e2 o pm gs :
  (forall n, persist e1 n = Saved) -> updateDatabase o = true -> same_night e1 e2 ->
  Forall (group_matches o) gs ->
  forall st1 st2,
    keys_known o st1 -> in_step st1 st2 ->
    let st1' := fold_left (processPatient e1 o pm) gs st1 in
    let st2' := fold_left (processPatient e2 o pm) gs st2 in
    keys_known o st1' /\ in_step st1' st2'
    /\ existingKeys o (st_db st1) ⊆ existingKeys o (st_db st1')
    /\ (existingKeys o (st_db st1') ⊆ existingAnomalySet st2 ->
        newAnomaliesDetected (st_results st2') = newAnomaliesDetected (st_results st2)
        /\ existingAnomalySet st2' = existingAnomalySet st2
        /\ st_db st2' = st_db st2).
Proof.
  intros Hsaved Hupd Hnight Hgs.
  induction Hgs as [| g gs Hg _ IH]; intros st1 st2 Hinv Hstep; simpl.
  - repeat split; auto; apply Hstep.
  - destruct (replay_patient e1 e2 o pm g Hsaved Hupd Hnight Hg st1 st2 Hinv Hstep)
      as (Hinv' & Hstep' & Hmono & Hone).
    destruct (IH _ _ Hinv' Hstep') as (Hinv'' & Hstep'' & Hmono' & Hrest).
    split; [exact Hinv'' |]. split; [exact Hstep'' |].
    split; [etrans; [exact Hmono | exact Hmono'] |].
    intros Hall.
    destruct Hone as (Hn & Hs & Hb); [etrans; [exact Hmono' | exact Hall] |].
    destruct Hrest as (Hn' & Hs' & Hb'); [now rewrite Hs |].
    rewrite Hn', Hs', Hb'. auto.
Qed.

(** *** The groups handed to the loop *)

Lemma In_insert_by {A} (le : A -> A -> bool) x y l :
  In y (insert_by le x l) <-> y = x \/ In y l.
Proof.
  induction l as [| z l IH]; simpl.
  - intuition congruence.
  - destruct (le x z); simpl; rewrite ?IH; intuition congruence.
Qed.

Lemma In_sort_by {A} (le : A -> A -> bool) y l : In y (sort_by le l) <-> In y l.
Proof.
  induction l as [| x l IH]; simpl; [tauto |].
  rewrite In_insert_by, IH. intuition congruence.
Qed.

Lemma Object_entries_In {A} (g : string * A) l : In g (Object_entries l) -> In g l.
Proof.
  unfold Object_entries. rewrite in_app_iff, In_sort_by, !filter_In. tauto.
Qed.

Lemma findRecords_match o db :
  Forall (fun r => record_matches o r = true) (findRecords o db).
Proof.
  apply List.Forall_forall. intros r Hr. unfold findRecords in Hr.
  apply In_sort_by, filter_In in Hr. tauto.
Qed.

Lemma group_push_matches o r g :
  record_matches o r = true ->
  Forall (group_matches o) g -> Forall (group_matches o) (group_push r g).
Proof.
  intros Hr Hg. induction Hg as [| [k [r0 rs]] g Hk Hg IH]; simpl.
  - constructor; [| constructor].
    intros r' [<- | []]. auto.
  - destruct (String.eqb_spec k (rec_patientId r)) as [E | _].
    + constructor; [| assumption].
      intros r' Hr'. simpl in Hr'. rewrite in_app_iff in Hr'. simpl in Hr'.
      destruct Hr' as [<- | [Hin | [<- | []]]]; simpl.
      * apply Hk. now left.
      * apply Hk. now right.
      * auto.
    + constructor; assumption.
Qed.

Lemma recordsByPatient_matches o l :
  Forall (fun r => record_matches o r = true) l ->
  Forall (group_matches o) (recordsByPatient l).
Proof.
  unfold recordsByPatient. intros Hl.
  assert (H : forall g, Forall (group_matches o) g ->
                        Forall (group_matches o) (fold_left (fun g r => group_push r g) l g)).
  { induction Hl as [| r l Hr _ IH]; intros g Hg; simpl; [exact Hg |].
    apply IH. now apply group_push_matches. }
  apply H. constructor.
Qed.

Lemma groups_match o db :
  Forall (group_matches o) (Object_entries (recordsByPatient (findRecords o db))).
Proof.
  apply List.Forall_forall. intros g Hg. apply Object_entries_In in Hg.
  pose proof (recordsByPatient_matches o _ (findRecords_match o db)) as H.
  rewrite List.Forall_forall in H. now apply H.
Qed.

(** *** What a run leaves untouched *)

Lemma fold_left_preserves {A B} (f : A -> B -> A) (P : A -> Prop) l a :
  (forall a b, P a -> P (f a b)) -> P a -> P (fold_left f l a).
Proof. intros Hf. revert a. induction l; simpl; auto. Qed.

Lemma processRecord_untouched e o pid p ps rs st r :
  untouched ps rs st -> untouched ps rs (processRecord e o pid p st r).
Proof.
  intros (Hp & Hr & Hm). unfold untouched, processRecord.
  pose proof (HealthRecord_after_detect (getHours e (processed (st_results st)))
                (st_detector st) pid (vitals_of r) p) as Hd.
  destruct (detectAnomalies _ _ _ _ _) as [det d']. simpl in *.
  rewrite Hm in Hd.
  destruct (isAnomaly det && _); [| auto].
  destruct (updateDatabase o); [| auto].
  destruct (persist e _); auto.
Qed.

Lemma processPatient_untouched e o pm ps rs st g :
  untouched ps rs st -> untouched ps rs (processPatient e o pm st g).
Proof.
  intros H. destruct g as [pid [r0 l]]. unfold processPatient.
  destruct (pm !! pid) as [p |]; [| exact H].
  match goal with
  | |- untouched _ _ (with_detector _ ?f) => assert (Hf : untouched ps rs f)
  end.
  { apply fold_left_preserves; [intros; now apply processRecord_untouched |].
    destruct H as (Hp & Hr & Hm). unfold untouched. cbn [st_db st_detector].
    split; [exact Hp |]. split; [exact Hr |].
    apply fold_left_preserves; [intros a b Ha; exact Ha |]. exact Hm. }
  destruct Hf as (Hp & Hr & Hm). unfold untouched, with_detector. simpl. auto.
Qed.

Lemma run_cases e o det db :
  detectRetrospectiveAnomalies e o det db =
  if negb (HealthRecord det) then Threw "HealthRecord model not injected"
  else if (length (List.filter (patient_matches o) (Db.Patient db)) =? 0)%nat
       then Returned results0 det db
       else Returned (st_results (replayed e o det db))
                     (st_detector (replayed e o det db))
                     (st_db (replayed e o det db)).
Proof. reflexivity. Qed.

Lemma replayed_untouched e o det db :
  HealthRecord det = true ->
  untouched (Db.Patient db) (Db.HealthRecord db) (replayed e o det db).
Proof.
  intros Hmodel. unfold replayed.
  apply fold_left_preserves; [intros; now apply processPatient_untouched |].
  unfold untouched. cbn [st_db st_detector]. auto.
Qed.

(** C3 (as the code has it).  Run the retrospective detection with
    [updateDatabase = true] and every write succeeding, then run it again
    with the same options on the detector and the collections the first run
    left: provided each evaluation of the second run falls on the same side
    of the night/day boundary of the wall clock as the corresponding
    evaluation of the first, the second run returns
    [newAnomaliesDetected = 0], processes the same number of records and
    writes nothing. *)
Theorem retrospective_rerun_finds_nothing (e1 e2 : env) (o : options)
    (det : detector) (db : Db.t) (r1 : results) (det1 : detector) (db1 : Db.t)
    (Hupd : updateDatabase o = true)
    (Hsaved : forall n, persist e1 n = Saved)
    (Hnight : same_night e1 e2)
    (Hrun : detectRetrospectiveAnomalies e1 o det db = Returned r1 det1 db1) :
  exists r2 det2,
    detectRetrospectiveAnomalies e2 o det1 db1 = Returned r2 det2 db1
    /\ newAnomaliesDetected r2 = 0%nat
    /\ processed r2 = processed r1.
Proof.
  rewrite run_cases in Hrun.
  destruct (HealthRecord det) eqn:Hmodel; cbn [negb] in Hrun; [| discriminate].
  destruct (length (List.filter (patient_matches o) (Db.Patient db)) =? 0)%nat eqn:Hnone.
  - injection Hrun as <- <- <-. exists results0, det.
    rewrite run_cases, Hmodel, Hnone. auto.
  - destruct (replayed_untouched e1 o det db Hmodel) as (Hp & Hr & Hm).
    injection Hrun as <- <- <-.
    set (st1 := {| st_results := results0; st_detector := det; st_db := db;
                   existingAnomalySet := existingKeys o db |}).
    set (st2 := {| st_results := results0;
                   st_detector := st_detector (replayed e1 o det db);
                   st_db := st_db (replayed e1 o det db);
                   existingAnomalySet := existingKeys o (st_db (replayed e1 o det db)) |}).
    set (pm := fold_left (fun m p => <[patientId p := p]> m)
                         (List.filter (patient_matches o) (Db.Patient db))
                         (∅ : gmap string patient)).
    set (gs := Object_entries (recordsByPatient (findRecords o db))).
    assert (E1 : replayed e1 o det db = fold_left (processPatient e1 o pm) gs st1)
      by reflexivity.
    assert (E2 : replayed e2 o (st_detector (replayed e1 o det db))
                          (st_db (replayed e1 o det db))
                 = fold_left (processPatient e2 o pm) gs st2).
    { set (R1 := replayed e1 o det db) in *.
      unfold replayed, findRecords. rewrite Hp, Hr. reflexivity. }
    destruct (replay_groups e1 e2 o pm gs Hsaved Hupd Hnight (groups_match o db) st1 st2)
      as (_ & Hstep & _ & Hfinal).
    + unfold keys_known. reflexivity.
    + split; [reflexivity |]. unfold st2, st1. cbn [st_db]. now rewrite Hr.
    + rewrite <- E1, <- E2 in Hfinal, Hstep.
      destruct Hfinal as (Hn & _ & Hb); [reflexivity |].
      eexists _, _. split; [| split].
      * rewrite run_cases, Hm, Hp, Hnone. cbn [negb]. f_equal. exact Hb.
      * exact Hn.
      * symmetry. apply Hstep.
Qed.

Lemma retrospective_rerun_finds_nothing_witness :
  let det := setHealthRecordModel constructor in
  let db := Sample.db_of [Sample.stored 72 0.3 0; Sample.stored 35 0.3 300000] in
  exists r1 det1 db1 r2 det2,
    detectRetrospectiveAnomalies (Sample.at_hour 12) Sample.all_records det db
    = Returned r1 det1 db1
    /\ newAnomaliesDetected r1 = 1%nat
    /\ detectRetrospectiveAnomalies (Sample.at_hour 13) Sample.all_records det1 db1
       = Returned r2 det2 db1
    /\ newAnomaliesDetected r2 = 0%nat.
Proof.
  intros det db.
  assert (E : exists r1 det1 db1,
             detectRetrospectiveAnomalies (Sample.at_hour 12) Sample.all_records det db
             = Returned r1 det1 db1 /\ newAnomaliesDetected r1 = 1%nat).
  { vm_compute. do 3 eexists. split; reflexivity. }
  destruct E as (r1 & det1 & db1 & E & Hone).
  destruct (retrospective_rerun_finds_nothing (Sample.at_hour 12) (Sample.at_hour 13)
              Sample.all_records det db r1 det1 db1 eq_refl
              (fun _ => eq_refl) (fun _ => eq_refl) E) as (r2 & det2 & E2 & Hzero & _).
  exists r1, det1, db1, r2, det2. auto.
Defined.

(** C3 (as the specification words it) fails: eight stored readings with
    motion 0.7, replayed once at noon and once at 23:00 with the same
    options.  The first run finds nothing; in the second the eighth reading
    raises [nocturnal_activity], which no stored anomaly matches, so the
    second run reports one new anomaly. *)
Lemma second_run_at_night_finds_more :
  let det := setHealthRecordModel constructor in
  let db := Sample.db_of
              (map (fun t => Sample.stored 72 0.7 (Z.of_nat t * 300000)) (seq 0 8)) in
  (forall n, persist (Sample.at_hour 12) n = Saved)
  /\ updateDatabase Sample.all_records = true
  /\ exists r1 det1 db1 r2 det2 db2,
      detectRetrospectiveAnomalies (Sample.at_hour 12) Sample.all_records det db
      = Returned r1 det1 db1
      /\ detectRetrospectiveAnomalies (Sample.at_hour 23) Sample.all_records det1 db1
         = Returned r2 det2 db2
      /\ newAnomaliesDetected r1 = 0%nat
      /\ newAnomaliesDetected r2 = 1%nat.
Proof.
  intros det db. split; [reflexivity |]. split; [reflexivity |].
  do 6 eexists. split; [vm_compute; reflexivity |].
  split; [vm_compute; reflexivity |]. split; reflexivity.
Qed.

(** * Further properties of the detector *)

(** ** The threshold stage, vital by vital *)

Ltac stage_filter :=
  rewrite ?List.filter_app;
  repeat match goal with
         | |- context [if ?b then _ else _] => destruct b eqn:?
         end;
  try reflexivity; try discriminate.

Lemma fallAlerts_category c pid v :
  c <> "fall_detected" -> List.filter (is_category c) (fallAlerts pid v) = [].
Proof.
  intros Hc. unfold fallAlerts. destruct (JS.gtb (fallRiskScore v) 80); [| reflexivity].
  cbn [List.filter]. unfold is_category. cbn [category].
  destruct (String.eqb_spec "fall_detected" c) as [E | _]; [congruence | reflexivity].
Qed.

(** Only the threshold stage raises the categories of the threshold stage. *)
Lemma threshold_category_detect c h d pid v p :
  In c ["bradycardia"; "tachycardia"; "hypertensive_crisis"; "hypotension";
        "hypoxemia"; "fever"; "hypothermia"] ->
  List.filter (is_category c) (alerts (detect h d pid v p)) =
  List.filter (is_category c) (checkCriticalVitals v p).
Proof.
  intros Hc. rewrite filter_category_detect.
  assert (Hs : ~ In c ["hr_anomaly"; "spo2_declining"]).
  { simpl in *. intuition (subst; discriminate). }
  assert (Hb : ~ In c ["sustained_inactivity"; "nocturnal_activity"]).
  { simpl in *. intuition (subst; discriminate). }
  assert (Hf : c <> "fall_detected").
  { simpl in *. intuition (subst; discriminate). }
  rewrite (filter_category_none _ _ _ (checkStatisticalAnomalies_categories _ v) Hs).
  rewrite (filter_category_none _ _ _ (checkBehavioralChanges_categories h _ v) Hb).
  rewrite (fallAlerts_category c pid v Hf). simpl. now rewrite app_nil_r.
Qed.

Lemma ltb_opt_true x y :
  JS.ltb_opt x y = true <-> exists a b, x = Some a /\ y = Some b /\ a < b.
Proof.
  unfold JS.ltb_opt. destruct x as [a |], y as [b |]; try rewrite ltb_lt; split;
    try discriminate; try (intros (a' & b' & Ha & Hb & _); discriminate).
  - intros H. eauto.
  - intros (a' & b' & [= <-] & [= <-] & H). exact H.
Qed.

Lemma heart_filters v p :
  exists ab at',
    List.filter (is_category "bradycardia") (checkCriticalVitals v p)
    = (if JS.ltb_opt (Some (heartRate v)) (hrCritical (alertThresholds p) !! 0%nat)
       then [ab] else [])
    /\ List.filter (is_category "tachycardia") (checkCriticalVitals v p)
       = (if JS.ltb_opt (Some (heartRate v)) (hrCritical (alertThresholds p) !! 0%nat)
          then []
          else if JS.gtb_opt (Some (heartRate v)) (hrCritical (alertThresholds p) !! 1%nat)
               then [at'] else [])
    /\ type ab = "critical" /\ value ab = Num (heartRate v) /\ category ab = "bradycardia"
    /\ type at' = "critical" /\ value at' = Num (heartRate v) /\ category at' = "tachycardia".
Proof.
  unfold checkCriticalVitals. do 2 eexists.
  split; [stage_filter |]. split; [stage_filter |]. repeat split.
Qed.

(** X1.  The heart-rate check of [detect]: bradycardia below [hrCritical[0]],
    otherwise tachycardia above [hrCritical[1]]; never both, and a missing
    threshold raises nothing. *)
Theorem heart_rate_alerts (h : Z) (d : detector) (pid : string) (v : vitals)
    (p : patient) :
  let l := alerts (detect h d pid v p) in
  let th := alertThresholds p in
  (raised "bradycardia" l <->
   exists lo, hrCritical th !! 0%nat = Some lo /\ heartRate v < lo)
  /\ (raised "tachycardia" l <->
      ~ raised "bradycardia" l
      /\ exists hi, hrCritical th !! 1%nat = Some hi /\ hi < heartRate v)
  /\ (count_category "bradycardia" l + count_category "tachycardia" l <= 1)%nat
  /\ Forall (fun a => type a = "critical" /\ value a = Num (heartRate v))
            (List.filter (is_category "bradycardia") l
             ++ List.filter (is_category "tachycardia") l)%list.
Proof.
  intros l th. subst l th. unfold raised, count_category.
  rewrite !threshold_category_detect by (simpl; auto 10).
  destruct (heart_filters v p) as (ab & at' & -> & -> & Hb1 & Hb2 & _ & Ht1 & Ht2 & _).
  assert (HB : JS.ltb_opt (Some (heartRate v)) (hrCritical (alertThresholds p) !! 0%nat) = true
               <-> exists lo, hrCritical (alertThresholds p) !! 0%nat = Some lo
                              /\ heartRate v < lo).
  { rewrite ltb_opt_true. split.
    - intros (a & b & [= <-] & Hb & Hlt). eauto.
    - intros (lo & Hlo & Hlt). eauto. }
  assert (HT : JS.gtb_opt (Some (heartRate v)) (hrCritical (alertThresholds p) !! 1%nat) = true
               <-> exists hi, hrCritical (alertThresholds p) !! 1%nat = Some hi
                              /\ hi < heartRate v).
  { unfold JS.gtb_opt. rewrite ltb_opt_true. split.
    - intros (a & b & Ha & [= <-] & Hlt). eauto.
    - intros (hi & Hhi & Hlt). eauto. }
  destruct (JS.ltb_opt (Some (heartRate v)) _);
    destruct (JS.gtb_opt (Some (heartRate v)) _); simpl.
  all: split; [intuition (auto; congruence) |].
  all: split; [intuition (auto; congruence) |].
  all: split; [lia | repeat constructor; auto].
Qed.

Lemma pressure_filters v p :
  let systolic := option_map inject_Z (systolic_of (bloodPressure v)) in
  exists ah al,
    List.filter (is_category "hypertensive_crisis") (checkCriticalVitals v p)
    = (if JS.gtb_opt systolic (bpCritical (alertThresholds p) !! 0%nat)
       then [ah] else [])
    /\ List.filter (is_category "hypotension") (checkCriticalVitals v p)
       = (if JS.gtb_opt systolic (bpCritical (alertThresholds p) !! 0%nat)
          then []
          else if JS.ltb_opt systolic (bpCritical (alertThresholds p) !! 1%nat)
               then [al] else [])
    /\ type ah = "critical" /\ type al = "critical"
    /\ value ah = Num (default 0 systolic) /\ value al = Num (default 0 systolic).
Proof.
  intros systolic. subst systolic. unfold checkCriticalVitals. do 2 eexists.
  split; [stage_filter |]. split; [stage_filter |]. repeat split.
Qed.

(** X2.  The blood-pressure check of [detect]: the systolic value is what
    [parseInt] reads before the first ["/"]; hypertensive crisis above
    [bpCritical[0]], otherwise hypotension below [bpCritical[1]]; never
    both, and a pressure that does not parse raises neither. *)
Theorem blood_pressure_alerts (h : Z) (d : detector) (pid : string) (v : vitals)
    (p : patient) :
  let l := alerts (detect h d pid v p) in
  let th := alertThresholds p in
  (raised "hypertensive_crisis" l <->
   exists s hi, systolic_of (bloodPressure v) = Some s
                /\ bpCritical th !! 0%nat = Some hi /\ hi < inject_Z s)
  /\ (raised "hypotension" l <->
      ~ raised "hypertensive_crisis" l
      /\ exists s lo, systolic_of (bloodPressure v) = Some s
                      /\ bpCritical th !! 1%nat = Some lo /\ inject_Z s < lo)
  /\ (systolic_of (bloodPressure v) = None ->
      ~ raised "hypertensive_crisis" l /\ ~ raised "hypotension" l)
  /\ (count_category "hypertensive_crisis" l + count_category "hypotension" l <= 1)%nat
  /\ Forall (fun a => type a = "critical")
            (List.filter (is_category "hypertensive_crisis") l
             ++ List.filter (is_category "hypotension") l)%list.
Proof.
  intros l th. subst l th. unfold raised, count_category.
  rewrite !threshold_category_detect by (simpl; auto 10).
  destruct (pressure_filters v p) as (ah & al & -> & -> & Hh & Hl & _).
  set (sys := systolic_of (bloodPressure v)).
  assert (HH : JS.gtb_opt (option_map inject_Z sys) (bpCritical (alertThresholds p) !! 0%nat) = true
               <-> exists s hi, sys = Some s
                                /\ bpCritical (alertThresholds p) !! 0%nat = Some hi
                                /\ hi < inject_Z s).
  { unfold JS.gtb_opt. rewrite ltb_opt_true. split.
    - intros (a & b & Ha & Hb & Hlt). destruct sys as [s |]; [| discriminate].
      injection Hb as <-. eauto.
    - intros (s & hi & -> & Hhi & Hlt). simpl. eauto. }
  assert (HL : JS.ltb_opt (option_map inject_Z sys) (bpCritical (alertThresholds p) !! 1%nat) = true
               <-> exists s lo, sys = Some s
                                /\ bpCritical (alertThresholds p) !! 1%nat = Some lo
                                /\ inject_Z s < lo).
  { rewrite ltb_opt_true. split.
    - intros (a & b & Ha & Hb & Hlt). destruct sys as [s |]; [| discriminate].
      injection Ha as <-. eauto.
    - intros (s & lo & -> & Hlo & Hlt). simpl. eauto. }
  assert (HN : sys = None ->
               JS.gtb_opt (option_map inject_Z sys) (bpCritical (alertThresholds p) !! 0%nat) = false
               /\ JS.ltb_opt (option_map inject_Z sys) (bpCritical (alertThresholds p) !! 1%nat) = false).
  { intros ->. simpl. unfold JS.gtb_opt, JS.ltb_opt.
    destruct (bpCritical (alertThresholds p) !! 0%nat); auto. }
  destruct (JS.gtb_opt (option_map inject_Z sys) _);
    destruct (JS.ltb_opt (option_map inject_Z sys) _); simpl.
  all: split; [intuition (auto; congruence) |].
  all: split; [intuition (auto; congruence) |].
  all: split; [intros Hn; destruct (HN Hn); split; congruence |].
  all: split; [lia | repeat constructor; auto].
Qed.

Lemma oxygen_temperature_filters v p :
  exists ao af ac,
    List.filter (is_category "hypoxemia") (checkCriticalVitals v p)
    = (if JS.ltb (spo2 v) (spo2Critical (alertThresholds p)) then [ao] else [])
    /\ List.filter (is_category "fever") (checkCriticalVitals v p)
       = (if JS.gtb (bodyTemperature v) 38.5 then [af] else [])
    /\ List.filter (is_category "hypothermia") (checkCriticalVitals v p)
       = (if JS.gtb (bodyTemperature v) 38.5 then []
          else if JS.ltb (bodyTemperature v) 35.0 then [ac] else [])
    /\ type ao = "critical" /\ type af = "warning" /\ type ac = "critical".
Proof.
  unfold checkCriticalVitals. do 3 eexists.
  split; [stage_filter |]. split; [stage_filter |]. split; [stage_filter |].
  repeat split.
Qed.

(** X3.  The oxygen and temperature checks of [detect]: hypoxemia exactly below
    [spo2Critical]; fever exactly above 38.5, as a warning; hypothermia
    exactly below 35, as a critical alert; fever and hypothermia never
    together. *)
Theorem oxygen_temperature_alerts (h : Z) (d : detector) (pid : string) (v : vitals)
    (p : patient) :
  let l := alerts (detect h d pid v p) in
  (raised "hypoxemia" l <-> spo2 v < spo2Critical (alertThresholds p))
  /\ (raised "fever" l <-> 38.5 < bodyTemperature v)
  /\ (raised "hypothermia" l <-> bodyTemperature v < 35.0)
  /\ (count_category "hypoxemia" l <= 1)%nat
  /\ (count_category "fever" l + count_category "hypothermia" l <= 1)%nat
  /\ Forall (fun a => type a = "critical")
            (List.filter (is_category "hypoxemia") l
             ++ List.filter (is_category "hypothermia") l)%list
  /\ Forall (fun a => type a = "warning") (List.filter (is_category "fever") l).
Proof.
  intros l. subst l. unfold raised, count_category.
  rewrite !threshold_category_detect by (simpl; auto 10).
  destruct (oxygen_temperature_filters v p) as (ao & af & ac & -> & -> & -> & Ho & Hf & Hc).
  pose proof (ltb_lt (spo2 v) (spo2Critical (alertThresholds p))) as HO.
  pose proof (gtb_gt (bodyTemperature v) 38.5) as HF.
  pose proof (ltb_lt (bodyTemperature v) 35.0) as HC.
  assert (Hex : 38.5 < bodyTemperature v -> bodyTemperature v < 35.0 -> False).
  { intros H1 H2. pose proof (Qlt_trans _ _ _ H1 H2) as H3. now vm_compute in H3. }
  destruct (JS.ltb (spo2 v) _); destruct (JS.gtb (bodyTemperature v) 38.5);
    destruct (JS.ltb (bodyTemperature v) _); simpl.
  all: split; [intuition (auto; congruence) |].
  all: split; [intuition (auto; congruence) |].
  all: split; [intuition (auto; try congruence) |].
  all: split; [lia |]. all: split; [lia |].
  all: split; repeat constructor; auto.
Qed.

(** ** The SpO2 trend *)





Lemma statistics_category_detect c h d pid v p :
  In c ["hr_anomaly"; "spo2_declining"] ->
  List.filter (is_category c) (alerts (detect h d pid v p)) =
  List.filter (is_category c) (checkStatisticalAnomalies (window_of d pid) v).
Proof.
  intros Hc. rewrite filter_category_detect.
  assert (Ht : ~ In c ["bradycardia"; "tachycardia"; "hypertensive_crisis";
                       "hypotension"; "hypoxemia"; "fever"; "hypothermia"]).
  { simpl in *. intuition (subst; discriminate). }
  assert (Hb : ~ In c ["sustained_inactivity"; "nocturnal_activity"]).
  { simpl in *. intuition (subst; discriminate). }
  assert (Hf : c <> "fall_detected").
  { simpl in *. intuition (subst; discriminate). }
  rewrite (filter_category_none _ _ _ (checkCriticalVitals_categories v p) Ht).
  rewrite (filter_category_none _ _ _ (checkBehavioralChanges_categories h _ v) Hb).
  rewrite (fallAlerts_category c pid v Hf). simpl. now rewrite app_nil_r.
Qed.



(** ** The behavioural stage *)

Lemma behaviour_category_detect c h d pid v p :
  In c ["sustained_inactivity"; "nocturnal_activity"] ->
  List.filter (is_category c) (alerts (detect h d pid v p)) =
  List.filter (is_category c) (checkBehavioralChanges h (window_of d pid) v).
Proof.
  intros Hc. rewrite filter_category_detect.
  assert (Ht : ~ In c ["bradycardia"; "tachycardia"; "hypertensive_crisis";
                       "hypotension"; "hypoxemia"; "fever"; "hypothermia"]).
  { simpl in *. intuition (subst; discriminate). }
  assert (Hs : ~ In c ["hr_anomaly"; "spo2_declining"]).
  { simpl in *. intuition (subst; discriminate). }
  assert (Hf : c <> "fall_detected").
  { simpl in *. intuition (subst; discriminate). }
  rewrite (filter_category_none _ _ _ (checkCriticalVitals_categories v p) Ht).
  rewrite (filter_category_none _ _ _ (checkStatisticalAnomalies_categories _ v) Hs).
  rewrite (fallAlerts_category c pid v Hf). reflexivity.
Qed.

Lemma nightActivityCount_bound w : (nightActivityCount w <= length w)%nat.
Proof.
  unfold nightActivityCount, JS.slice_last.
  etransitivity; [apply filter_length_le |]. rewrite length_skipn. lia.
Qed.

Lemma behaviour_filters h w v :
  exists ai an,
    List.filter (is_category "sustained_inactivity") (checkBehavioralChanges h w v)
    = (if (length w <? 6)%nat then []
       else if negb (isNight h) && JS.lt (avgRecentMotion w) (JS.of_Q 0.1)
               && (24 <? length w)%nat
               && forallb (fun v => JS.lt (JS.of_Q (motionLevel v)) (JS.of_Q 0.15))
                          (JS.slice_last 12 w)
            then [ai] else [])
    /\ List.filter (is_category "nocturnal_activity") (checkBehavioralChanges h w v)
       = (if (length w <? 6)%nat then []
          else if isNight h && JS.gt (JS.of_Q (motionLevel v)) (JS.of_Q 0.6)
                  && (6 <? nightActivityCount w)%nat
               then [an] else [])
    /\ type ai = "warning" /\ type an = "warning".
Proof.
  unfold checkBehavioralChanges. do 2 eexists.
  split; [stage_filter |]. split; [stage_filter |]. split; reflexivity.
Qed.

Lemma isNight_hours (h : Z) : isNight h = true <-> (22 <= h \/ h <= 6)%Z.
Proof. unfold isNight. rewrite orb_true_iff, !Z.leb_le. tauto. Qed.

(** X5.  The behavioural stage of [detect] raises at most one alert per call.
    [sustained_inactivity] is raised exactly when the hour is neither 22 or
    later nor 6 or earlier, the window has more than 24 entries, the
    average of its last six motion levels (their sum from left to right
    divided by their number, in double arithmetic) is below 0.1 and its
    last twelve motion levels are all below 0.15.  [nocturnal_activity] is
    raised exactly when the hour is 22 or later or 6 or earlier, the sample
    moves above 0.6 and more than six of the last twelve entries moved
    above 0.5.  Both are warnings. *)
Theorem behavioural_alerts (h : Z) (d : detector) (pid : string) (v : vitals)
    (p : patient) :
  let w := window_of d pid in
  let l := alerts (detect h d pid v p) in
  let night := (22 <= h \/ h <= 6)%Z in
  let recent := map (fun x => JS.of_Q (motionLevel x)) (JS.slice_last 6 w) in
  let active := List.filter (fun x => JS.gtb (motionLevel x) 0.5) (JS.slice_last 12 w) in
  (raised "sustained_inactivity" l <->
   ~ night /\ (24 < length w)%nat
   /\ JS.lt (JS.div (JS.sum recent) (JS.of_nat (length recent))) (JS.of_Q 0.1) = true
   /\ Forall (fun x => JS.lt (JS.of_Q (motionLevel x)) (JS.of_Q 0.15) = true)
             (JS.slice_last 12 w))
  /\ (raised "nocturnal_activity" l <->
      night /\ JS.gt (JS.of_Q (motionLevel v)) (JS.of_Q 0.6) = true
      /\ (6 < length active)%nat)
  /\ (count_category "sustained_inactivity" l + count_category "nocturnal_activity" l
      <= 1)%nat
  /\ (raised "nocturnal_activity" l -> (7 <= length w)%nat)
  /\ Forall (fun a => type a = "warning")
            (List.filter (is_category "sustained_inactivity") l
             ++ List.filter (is_category "nocturnal_activity") l)%list.
Proof.
  intros w l night recent active. subst l. unfold raised, count_category.
  rewrite !behaviour_category_detect by (simpl; auto). fold w.
  destruct (behaviour_filters h w v) as (ai & an & -> & -> & Hi & Hn).
  pose proof (nightActivityCount_bound w) as Hb.
  change (length active) with (nightActivityCount w).
  change (JS.div (JS.sum recent) (JS.of_nat (length recent))) with (avgRecentMotion w).
  assert (HA : forallb (fun x => JS.lt (JS.of_Q (motionLevel x)) (JS.of_Q 0.15))
                       (JS.slice_last 12 w) = true
               <-> Forall (fun x => JS.lt (JS.of_Q (motionLevel x)) (JS.of_Q 0.15) = true)
                          (JS.slice_last 12 w)).
  { rewrite forallb_forall, List.Forall_forall. reflexivity. }
  assert (HN : isNight h = false <-> ~ night).
  { unfold night. rewrite <- isNight_hours. destruct (isNight h); intuition congruence. }
  pose proof (isNight_hours h) as HN'. fold night in HN'.
  pose proof (Nat.ltb_lt 24 (length w)) as H24.
  pose proof (Nat.ltb_lt 6 (nightActivityCount w)) as H6.
  clearbody night. clear recent active.
  destruct (Nat.ltb_spec (length w) 6) as [Hshort | Hlong].
  - split; [split; [intros H; now elim H | intros (_ & H & _); lia] |].
    split; [split; [intros H; now elim H | intros (_ & _ & H); lia] |].
    split; [simpl; lia |]. split; [intros H; now elim H | constructor].
  - destruct (isNight h); simpl;
      destruct (JS.lt (avgRecentMotion w) (JS.of_Q 0.1)); simpl;
      destruct (24 <? length w)%nat; simpl;
      destruct (forallb _ (JS.slice_last 12 w)); simpl;
      destruct (JS.gt (JS.of_Q (motionLevel v)) (JS.of_Q 0.6)); simpl;
      destruct (6 <? nightActivityCount w)%nat; simpl.
    all: split; [intuition (auto; congruence) |].
    all: split; [intuition (auto; congruence) |].
    all: split; [lia |].
    all: split; [try (intros H; now elim H); intros _; intuition lia |].
    all: repeat constructor; auto.
Qed.

(** ** Severity and score of a result *)

Lemma some_critical_fallAlerts pid v :
  some_critical (fallAlerts pid v) = JS.gtb (fallRiskScore v) 80.
Proof. unfold fallAlerts. now destruct (JS.gtb (fallRiskScore v) 80). Qed.

Lemma some_critical_detect h d pid v p :
  some_critical (alerts (detect h d pid v p)) =
  some_critical (checkCriticalVitals v p) || JS.gtb (fallRiskScore v) 80.
Proof.
  rewrite detect_alerts, collect_alerts, !some_critical_app.
  rewrite some_critical_fallAlerts.
  rewrite (some_critical_warning _ (checkStatisticalAnomalies_warning _ v)).
  rewrite (some_critical_warning _ (checkBehavioralChanges_warning h _ v)).
  now rewrite !orb_false_r.
Qed.

Lemma statistics_nonempty w v :
  checkStatisticalAnomalies w v <> [] <->
  raised "hr_anomaly" (checkStatisticalAnomalies w v)
  \/ raised "spo2_declining" (checkStatisticalAnomalies w v).
Proof.
  unfold raised.
  pose proof (checkStatisticalAnomalies_categories w v) as Hc.
  destruct (checkStatisticalAnomalies w v) as [| a l]; [simpl; intuition congruence |].
  split; [| intros _; discriminate]. intros _.
  inversion Hc as [| ? ? Ha _]; subst. unfold from_categories in Ha. simpl in Ha.
  cbn [List.filter]. unfold is_category.
  destruct Ha as [<- | [<- | []]]; [left | right]; rewrite String.eqb_refl; discriminate.
Qed.

Lemma some_critical_count l :
  some_critical l = true -> (1 <= count_type "critical" l)%Z.
Proof.
  induction l as [| a l IH]; [discriminate |].
  rewrite count_type_cons. pose proof (count_type_nonneg "critical" l).
  unfold some_critical in *. simpl.
  destruct (String.eqb (type a) "critical"); simpl; [lia |].
  intros H'. specialize (IH H'). lia.
Qed.

(** X6.  The severity [detect] returns: critical exactly when an alert is
    critical; warning exactly when none is critical and the statistical
    stage raised something; normal otherwise, even with fever or
    behavioural warnings among the alerts.  A critical result scores at
    least 30. *)
Theorem severity_of_result (h : Z) (d : detector) (pid : string) (v : vitals)
    (p : patient) :
  let r := detect h d pid v p in
  (severity r = "critical" <-> some_critical (alerts r) = true)
  /\ (severity r = "warning" <->
      some_critical (alerts r) = false
      /\ (raised "hr_anomaly" (alerts r) \/ raised "spo2_declining" (alerts r)))
  /\ (severity r = "normal" <->
      some_critical (alerts r) = false
      /\ ~ raised "hr_anomaly" (alerts r) /\ ~ raised "spo2_declining" (alerts r))
  /\ (severity r = "critical" -> (30 <= normalizedScore r <= 100)%Z).
Proof.
  intros r. subst r.
  pose proof (some_critical_count (alerts (detect h d pid v p))) as Hcount.
  pose proof (count_type_nonneg "warning" (alerts (detect h d pid v p))) as Hw.
  rewrite detect_score, score_formula.
  rewrite detect_severity, collect_severity, some_critical_detect in *.
  unfold raised.
  rewrite !statistics_category_detect by (simpl; auto).
  pose proof (statistics_nonempty (window_of d pid) v) as Hs. unfold raised in Hs.
  destruct (some_critical (checkCriticalVitals v p) || JS.gtb (fallRiskScore v) 80).
  - split; [intuition congruence |]. split; [intuition congruence |].
    split; [intuition congruence |]. intros _. specialize (Hcount eq_refl). lia.
  - destruct (checkStatisticalAnomalies (window_of d pid) v) as [| a l] eqn:E.
    + simpl. split; [intuition congruence |].
      split; [split; [discriminate | intros [_ [H | H]]; now elim H] |].
      split; [| discriminate]. intuition congruence.
    + change (0 <? length (a :: l))%nat with true.
      assert (Hne : a :: l <> []) by discriminate. apply Hs in Hne.
      split; [intuition congruence |].
      split; [intuition congruence |].
      split; [| discriminate].
      split; [discriminate | intros (_ & H1 & H2); tauto].
Qed.

(** ** The detector state, patient by patient *)

Lemma history_after_detect h d pid v p :
  history_of (snd (detectAnomalies h d pid v p)) pid =
  if isAnomaly (detect h d pid v p)
  then push_bounded 100 (history_of d pid)
         {| h_timestamp := timestamp v; h_alerts := alerts (detect h d pid v p);
            h_severity := severity (detect h d pid v p) |}
  else history_of d pid.
Proof.
  unfold detect, detectAnomalies. destruct (collect _ _ _ _ _) as [al sev]. simpl.
  unfold history_of, addToWindow, storeHistory.
  destruct (0 <? length al)%nat; simpl; [| reflexivity].
  now rewrite lookup_insert_eq.
Qed.

Lemma state_after_detect_ne h d pid pid' v p :
  pid <> pid' ->
  window_of (snd (detectAnomalies h d pid v p)) pid' = window_of d pid'
  /\ history_of (snd (detectAnomalies h d pid v p)) pid' = history_of d pid'.
Proof.
  intros Hne. unfold detectAnomalies. destruct (collect _ _ _ _ _) as [al sev]. simpl.
  unfold window_of, history_of, addToWindow, storeHistory.
  destruct (0 <? length al)%nat; simpl; rewrite ?lookup_insert_ne by exact Hne; auto.
Qed.

Lemma detect_window h d1 d2 pid v p :
  window_of d1 pid = window_of d2 pid -> detect h d1 pid v p = detect h d2 pid v p.
Proof. intros H. unfold detect. now apply detectAnomalies_result. Qed.

(** X7.  Evaluating a reading of one patient leaves every other patient's
    window and history as they were, so the result of a later [detect] for
    another patient is the same whether or not the first call happened. *)
Theorem detect_isolated (h h' : Z) (d : detector) (pid pid' : string)
    (v v' : vitals) (p p' : patient) (Hne : pid <> pid') :
  let d' := snd (detectAnomalies h d pid v p) in
  window_of d' pid' = window_of d pid'
  /\ history_of d' pid' = history_of d pid'
  /\ detect h' d' pid' v' p' = detect h' d pid' v' p'
  /\ HealthRecord d' = HealthRecord d.
Proof.
  intros d'. subst d'.
  destruct (state_after_detect_ne h d pid pid' v p Hne) as [Hw Hh].
  split; [exact Hw |]. split; [exact Hh |].
  split; [now apply detect_window | apply HealthRecord_after_detect].
Qed.

Lemma detect_isolated_witness :
  let d := Sample.loaded (repeat Sample.normalVitals 12) in
  let d' := snd (detectAnomalies 12 d "P002" (Sample.reading 35 39 0.3 95 0) Example.P002) in
  detect 12 d' "P001" (Sample.reading 110 36.8 0.3 10 0) Sample.P001
  = detect 12 d "P001" (Sample.reading 110 36.8 0.3 10 0) Sample.P001.
Proof.
  intros d d'.
  destruct (detect_isolated 12 12 d "P002" "P001" (Sample.reading 35 39 0.3 95 0)
              (Sample.reading 110 36.8 0.3 10 0) Example.P002 Sample.P001)
    as (_ & _ & H & _).
  - discriminate.
  - exact H.
Defined.

Lemma push_bounded_last {A} cap (l : list A) x :
  (0 < cap)%nat -> exists l', push_bounded cap l x = (l' ++ [x])%list.
Proof.
  intros Hc. unfold push_bounded.
  destruct (cap <? length (l ++ [x]))%nat eqn:E; [| eauto].
  destruct l as [| y l]; simpl.
  - apply Nat.ltb_lt in E. simpl in E. lia.
  - eauto.
Qed.

Lemma Array_slice_last_one {A} (l' : list A) x : Array_slice (-1) (l' ++ [x]) = [x].
Proof.
  unfold Array_slice. change (-1 <? 0)%Z with true.
  change (Z.to_nat (- -1)) with 1%nat. cbv iota. rewrite length_app. cbn [length].
  replace (length l' + 1 - 1)%nat with (length l') by lia.
  rewrite skipn_app, skipn_all, Nat.sub_diag. reflexivity.
Qed.

(** X8.  The anomaly history of a patient: a call that finds an anomaly pushes
    one entry carrying the timestamp of the reading and the alerts and
    severity of the result, and [getAnomalyHistory(pid, 1)] then returns
    exactly that entry; a call that finds none leaves the history alone;
    the history never grows beyond 100 entries. *)
Theorem history_records_detection (h : Z) (d : detector) (pid : string) (v : vitals)
    (p : patient) :
  let r := detect h d pid v p in
  let d' := snd (detectAnomalies h d pid v p) in
  let e := {| h_timestamp := timestamp v; h_alerts := alerts r; h_severity := severity r |} in
  (isAnomaly r = true ->
   history_of d' pid = push_bounded 100 (history_of d pid) e
   /\ getAnomalyHistory d' pid (Some 1%Z) = [e])
  /\ (isAnomaly r = false -> history_of d' pid = history_of d pid)
  /\ ((length (history_of d pid) <= 100)%nat -> (length (history_of d' pid) <= 100)%nat)
  /\ ((length (history_of d pid) < 100)%nat -> isAnomaly r = true ->
      history_of d' pid = (history_of d pid ++ [e])%list).
Proof.
  intros r d' e. subst r d' e. rewrite history_after_detect.
  split; [| split; [| split]].
  - intros Ha. unfold getAnomalyHistory. rewrite history_after_detect, Ha.
    split; [reflexivity |].
    destruct (push_bounded_last 100 (history_of d pid)
                {| h_timestamp := timestamp v; h_alerts := alerts (detect h d pid v p);
                   h_severity := severity (detect h d pid v p) |}) as (l' & ->); [lia |].
    apply Array_slice_last_one.
  - now intros ->.
  - intros Hb. destruct (isAnomaly _); [now apply push_bounded_length | exact Hb].
  - intros Hb ->. now apply push_bounded_room.
Qed.

(** X9.  [getAnomalyHistory(pid, limit)]: a positive [limit] gives the newest
    [limit] entries, all of them when there are fewer; an omitted [limit]
    is 20; [limit = 0] gives the whole history, not an empty list; a
    negative [limit] drops the oldest [-limit] entries; a patient without
    history gives the empty list. *)
Theorem getAnomalyHistory_limit (d : detector) (pid : string) (n : Z) :
  let hist := history_of d pid in
  ((0 < n)%Z ->
   length (getAnomalyHistory d pid (Some n)) = Nat.min (Z.to_nat n) (length hist)
   /\ exists older, hist = (older ++ getAnomalyHistory d pid (Some n))%list)
  /\ getAnomalyHistory d pid (Some 0%Z) = hist
  /\ ((n < 0)%Z -> getAnomalyHistory d pid (Some n) = skipn (Z.to_nat (- n)) hist)
  /\ getAnomalyHistory d pid None = getAnomalyHistory d pid (Some 20%Z)
  /\ (anomalyHistory d !! pid = None -> getAnomalyHistory d pid (Some n) = []).
Proof.
  intros hist. subst hist. unfold getAnomalyHistory, Array_slice. simpl default.
  split; [| split; [| split; [| split]]].
  - intros Hn. destruct (Z.ltb_spec (- n) 0) as [_ | Hge]; [| lia].
    rewrite Z.opp_involutive, length_skipn.
    split; [lia |].
    exists (firstn (length (history_of d pid) - Z.to_nat n) (history_of d pid)).
    now rewrite firstn_skipn.
  - reflexivity.
  - intros Hn. destruct (Z.ltb_spec (- n) 0) as [Hlt | _]; [lia | reflexivity].
  - reflexivity.
  - intros Hnone. unfold history_of. rewrite Hnone.
    destruct (- n <? 0)%Z; apply skipn_nil.
Qed.

Lemma history_resetPatient d pid : history_of (resetPatient d pid) pid = [].
Proof. unfold history_of, resetPatient. simpl. now rewrite lookup_delete_eq. Qed.

(** X10.  [resetPatient] empties the window and the history of the patient and
    touches nobody else; a [detect] after it gives what a detector that
    never saw the patient gives; resetting twice is resetting once. *)
Theorem resetPatient_fresh (h : Z) (d : detector) (pid pid' : string) (v : vitals)
    (p : patient) :
  let d' := resetPatient d pid in
  window_of d' pid = [] /\ history_of d' pid = []
  /\ detect h d' pid v p = detect h constructor pid v p
  /\ (pid <> pid' ->
      window_of d' pid' = window_of d pid' /\ history_of d' pid' = history_of d pid')
  /\ resetPatient d' pid = d'
  /\ HealthRecord d' = HealthRecord d.
Proof.
  intros d'. subst d'.
  split; [apply window_resetPatient |]. split; [apply history_resetPatient |].
  split; [apply detect_window; now rewrite window_resetPatient |].
  split.
  - intros Hne. unfold window_of, history_of, resetPatient. simpl.
    now rewrite !lookup_delete_ne by exact Hne.
  - split; [| reflexivity]. unfold resetPatient. simpl. f_equal; apply delete_delete_eq.
Qed.

(** ** Loading the stored history *)

Lemma StronglySorted_app_iff {A} (R : A -> A -> Prop) (l1 l2 : list A) :
  StronglySorted R (l1 ++ l2) <->
  StronglySorted R l1 /\ StronglySorted R l2
  /\ (forall a b, In a l1 -> In b l2 -> R a b).
Proof.
  induction l1 as [| x l1 IH]; simpl.
  - split; [intros H; repeat split; [constructor | exact H | intros a b []] | tauto].
  - split.
    + intros H. apply StronglySorted_inv in H. destruct H as [Hs Hf].
      apply IH in Hs. destruct Hs as (H1 & H2 & H12).
      rewrite List.Forall_forall in Hf.
      split; [| split; [exact H2 |]].
      * constructor; [exact H1 |]. apply List.Forall_forall.
        intros y Hy. apply Hf, in_or_app. now left.
      * intros a b [<- | Ha] Hb; [apply Hf, in_or_app; now right | now apply H12].
    + intros (H1 & H2 & H12). apply StronglySorted_inv in H1. destruct H1 as [H1 Hf].
      rewrite List.Forall_forall in Hf.
      constructor; [apply IH; repeat split; auto |].
      apply List.Forall_forall. intros y Hy. apply in_app_or in Hy.
      destruct Hy as [Hy | Hy]; [now apply Hf | apply H12; auto].
Qed.

Lemma StronglySorted_rev {A} (R : A -> A -> Prop) (l : list A) :
  StronglySorted R l -> StronglySorted (fun a b => R b a) (rev l).
Proof.
  induction 1 as [| x l Hs IH Hf]; simpl; [constructor |].
  apply StronglySorted_app_iff. split; [exact IH |].
  split; [repeat constructor |].
  intros a b Ha [<- | []]. rewrite List.Forall_forall in Hf.
  apply Hf. now apply in_rev.
Qed.

Lemma insert_by_descending_sorted x l :
  StronglySorted (fun a b => (recordedAt b <= recordedAt a)%Z) l ->
  StronglySorted (fun a b => (recordedAt b <= recordedAt a)%Z) (insert_by descending x l).
Proof.
  induction 1 as [| a l Hs IH Hf]; simpl; [repeat constructor |].
  rewrite List.Forall_forall in Hf. unfold descending at 1.
  destruct (Z.leb_spec (recordedAt a) (recordedAt x)) as [Hle | Hgt].
  - constructor; [constructor; [exact Hs | now apply List.Forall_forall] |].
    apply List.Forall_forall. intros b [<- | Hb]; [exact Hle |].
    specialize (Hf b Hb). lia.
  - constructor; [exact IH |].
    apply List.Forall_forall. intros b Hb. apply In_insert_by in Hb.
    destruct Hb as [-> | Hb]; [lia | now apply Hf].
Qed.

Lemma sort_by_descending_sorted l :
  StronglySorted (fun a b => (recordedAt b <= recordedAt a)%Z) (sort_by descending l).
Proof.
  induction l as [| x l IH]; simpl; [constructor |].
  now apply insert_by_descending_sorted.
Qed.

Lemma length_insert_by {A} (le : A -> A -> bool) x l :
  length (insert_by le x l) = S (length l).
Proof.
  induction l as [| y l IH]; simpl; [reflexivity |].
  destruct (le x y); simpl; now rewrite ?IH.
Qed.

Lemma length_sort_by {A} (le : A -> A -> bool) (l : list A) :
  length (sort_by le l) = length l.
Proof.
  induction l as [| x l IH]; simpl; [reflexivity |].
  now rewrite length_insert_by, IH.
Qed.

(** X11.  [loadHistoricalData]: without an injected model nothing happens;
    otherwise the window of the patient is extended, never shortened or
    bounded, by the patient's stored readings: the 288 most recent ones
    (all of them when there are fewer), oldest first.  Other patients and
    the anomaly history are untouched, and a window that was empty holds at
    most 288 entries afterwards. *)
Theorem loadHistoricalData_window (d : detector) (db : Db.t) (pid : string) :
  let d' := loadHistoricalData d db pid in
  let mine := List.filter (fun r => String.eqb (rec_patientId r) pid)
                          (Db.HealthRecord db) in
  (HealthRecord d = false -> d' = d)
  /\ (HealthRecord d = true ->
      exists loaded,
        window_of d' pid = (window_of d pid ++ map vitals_of loaded)%list
        /\ length loaded = Nat.min 288 (length mine)
        /\ (forall r, In r loaded -> In r mine)
        /\ StronglySorted (fun a b => (recordedAt a <= recordedAt b)%Z) loaded
        /\ exists skipped,
             (forall r, In r mine <-> In r skipped \/ In r loaded)
             /\ length skipped = (length mine - 288)%nat
             /\ forall r r', In r skipped -> In r' loaded ->
                             (recordedAt r <= recordedAt r')%Z)
  /\ (forall pid', pid' <> pid -> window_of d' pid' = window_of d pid')
  /\ anomalyHistory d' = anomalyHistory d
  /\ (window_of d pid = [] -> (length (window_of d' pid) <= 288)%nat).
Proof.
  intros d' mine. subst d'. unfold loadHistoricalData. fold mine.
  set (sorted := sort_by descending mine).
  pose proof (sort_by_descending_sorted mine) as Hsorted. fold sorted in Hsorted.
  rewrite <- (firstn_skipn 288 sorted) in Hsorted.
  apply StronglySorted_app_iff in Hsorted. destruct Hsorted as (Hs1 & _ & Hcross).
  assert (Hlen : length (firstn 288 sorted) = Nat.min 288 (length mine)).
  { rewrite length_firstn. unfold sorted. now rewrite length_sort_by. }
  assert (Hin : forall r, In r mine <-> In r (skipn 288 sorted) \/ In r (rev (firstn 288 sorted))).
  { intros r. rewrite <- in_rev, <- (In_sort_by descending r mine). fold sorted.
    rewrite <- (firstn_skipn 288 sorted) at 1. rewrite in_app_iff. tauto. }
  destruct (HealthRecord d) eqn:Hm; cbn [negb].
  - split; [discriminate |].
    destruct (Nat.eqb_spec (length (firstn 288 sorted)) 0) as [E0 | Hn0].
    + split.
      * intros _. exists []. cbn [map]. rewrite app_nil_r.
        split; [reflexivity |]. split; [now rewrite <- Hlen, E0 |].
        split; [intros r [] |].
        split; [constructor |].
        exists (skipn 288 sorted). split; [| split].
        -- intros r. rewrite (Hin r).
           apply length_zero_iff_nil in E0. rewrite E0. simpl. tauto.
        -- rewrite length_skipn. unfold sorted. now rewrite length_sort_by.
        -- intros r r' _ [].
      * split; [reflexivity |]. split; [reflexivity |].
        intros Hempty. rewrite Hempty. cbn [length]. lia.
    + split.
      * intros _. exists (rev (firstn 288 sorted)).
        split; [unfold window_of at 1; simpl; now rewrite lookup_insert_eq |].
        split; [rewrite length_rev; exact Hlen |].
        split; [intros r Hr; apply Hin; now right |].
        split; [apply (StronglySorted_rev _ _ Hs1) |].
        exists (skipn 288 sorted). split; [exact Hin |].
        split; [rewrite length_skipn; unfold sorted; now rewrite length_sort_by |].
        intros r r' Hr Hr'. apply in_rev in Hr'. apply (Hcross r' r Hr' Hr).
      * split; [| split; [reflexivity |]].
        -- intros pid' Hne. unfold window_of. simpl.
           rewrite lookup_insert_ne by congruence. reflexivity.
        -- intros Hempty. unfold window_of at 1. simpl. rewrite lookup_insert_eq. simpl.
           rewrite Hempty. simpl. rewrite length_map, length_rev, Hlen. lia.
  - split; [reflexivity |]. split; [discriminate |].
    split; [reflexivity |]. split; [reflexivity |].
    intros Hempty. rewrite Hempty. cbn [length]. lia.
Qed.

(** ** What a retrospective run writes and counts *)

Section Invariant.

Variables (e : env) (o : options) (P : loopState -> Prop).
Hypothesis Hcore : forall st st', same_core st st' -> P st -> P st'.
Hypothesis Hstep :
  forall pid p st r,
    record_matches o r = true -> rec_patientId r = pid ->
    P st -> P (processRecord e o pid p st r).

Lemma records_invariant pid p l :
  (forall r, In r l -> record_matches o r = true /\ rec_patientId r = pid) ->
  forall st, P st -> P (fold_left (processRecord e o pid p) l st).
Proof.
  induction l as [| r l IH]; intros Hl st Hst; simpl; [exact Hst |].
  apply IH; [intros r' Hr'; apply Hl; now right |].
  destruct (Hl r (or_introl eq_refl)). now apply Hstep.
Qed.

Lemma patient_invariant pm g st :
  group_matches o g -> P st -> P (processPatient e o pm st g).
Proof.
  intros Hg Hst. destruct g as [pid [r0 rs]]. unfold processPatient.
  destruct (pm !! pid) as [p |].
  - match goal with
    | |- P (with_detector ?x ?f) => apply (Hcore f); [repeat split |]
    end.
    apply records_invariant; [exact Hg |].
    revert Hst. apply Hcore. repeat split.
  - revert Hst. apply Hcore. repeat split.
Qed.

Lemma groups_invariant pm gs :
  Forall (group_matches o) gs ->
  forall st, P st -> P (fold_left (processPatient e o pm) gs st).
Proof.
  induction 1 as [| g gs Hg _ IH]; intros st Hst; simpl; [exact Hst |].
  apply IH. now apply patient_invariant.
Qed.

(** A property of the counters, the collections and the key set that the
    initial state has and that processing one selected record preserves
    holds when the loop is left. *)
Lemma replayed_invariant det db :
  P {| st_results := results0; st_detector := det; st_db := db;
       existingAnomalySet := existingKeys o db |} ->
  P (replayed e o det db).
Proof.
  intros Hinit. unfold replayed.
  apply groups_invariant; [apply groups_match | exact Hinit].
Qed.

End Invariant.

Lemma total_alerts_app l l' : total_alerts (l ++ l') = (total_alerts l + total_alerts l')%nat.
Proof. induction l as [| a l IH]; simpl; [reflexivity |]. rewrite IH. lia. Qed.

Lemma replay_accounts_core e o db st st' :
  same_core st st' -> replay_accounts e o db st -> replay_accounts e o db st'.
Proof.
  intros (Hp & Hn & Hc & Hw & Hd & _). unfold replay_accounts.
  now rewrite Hp, Hn, Hc, Hw, Hd.
Qed.

Lemma logged_documents (l : list alertLogFields) :
  Forall logged_by_replay (map AlertLog_document l).
Proof. induction l; simpl; constructor; [repeat split | assumption]. Qed.

Lemma replay_accounts_step e o db pid p st r :
  replay_accounts e o db st -> replay_accounts e o db (processRecord e o pid p st r).
Proof.
  intros (HP & HH & Hcw & Hnp & na & nl & HA & HL & Hgood & Hlog & Hlen & Hdry & Hall).
  unfold replay_accounts, processRecord.
  pose proof (detect_isAnomaly (getHours e (processed (st_results st)))
                (st_detector st) pid (vitals_of r) p) as Hflag.
  unfold detect in Hflag.
  destruct (detectAnomalies _ _ _ _ _) as [det d']. cbn [fst] in Hflag.
  destruct (isAnomaly det && _) eqn:Hnew.
  - apply andb_prop in Hnew. destruct Hnew as [Ha _]. rewrite Ha in Hflag.
    assert (Hne : alerts det <> [])
      by (intros E; rewrite E in Hflag; discriminate).
    assert (Hcount :
              (criticalCount (count_new pid (severity det) (count_processed (st_results st)))
               + warningCount (count_new pid (severity det) (count_processed (st_results st)))
               <= S (newAnomaliesDetected (st_results st)))%nat).
    { unfold count_new, count_processed. cbn [criticalCount warningCount].
      destruct (String.eqb (severity det) "critical");
        destruct (String.eqb (severity det) "warning"); lia. }
    destruct (updateDatabase o) eqn:Hupd.
    + destruct (persist e (processed (st_results st))) eqn:Hper.
      * cbn. repeat (split; [first [assumption | lia] |]).
        eexists (na ++ [_])%list, (nl ++ _)%list.
        rewrite HA, HL, <- !app_assoc.
        split; [reflexivity |]. split; [reflexivity |].
        split; [apply Forall_app_2; [exact Hgood |];
                constructor; [| constructor]; repeat split; assumption |].
        split; [apply Forall_app_2; [exact Hlog | apply logged_documents] |].
        split; [rewrite length_app; simpl; lia |].
        split; [discriminate |].
        intros Hs _. destruct (Hall Hs eq_refl) as [E1 E2].
        rewrite !length_app, total_alerts_app, !length_map, E1, E2. simpl. lia.
      * cbn. repeat (split; [first [assumption | lia] |]).
        exists na, nl.
        split; [assumption |]. split; [assumption |]. split; [assumption |].
        split; [assumption |].
        split; [lia |]. split; [discriminate |].
        intros Hs. rewrite Hs in Hper. discriminate.
      * cbn. repeat (split; [first [assumption | lia] |]).
        eexists (na ++ [_])%list, nl.
        rewrite HA, <- !app_assoc.
        split; [reflexivity |]. split; [exact HL |].
        split; [apply Forall_app_2; [exact Hgood |];
                constructor; [| constructor]; repeat split; assumption |].
        split; [assumption |].
        split; [rewrite length_app; simpl; lia |].
        split; [discriminate |].
        intros Hs. rewrite Hs in Hper. discriminate.
    + cbn. repeat (split; [first [assumption | lia] |]).
      exists na, nl.
      split; [assumption |]. split; [assumption |]. split; [assumption |].
      split; [assumption |].
      split; [lia |]. split; [intros _; now apply Hdry | discriminate].
  - cbn. repeat (split; [first [assumption | lia] |]).
    exists na, nl.
    split; [assumption |]. split; [assumption |]. split; [assumption |].
    split; [assumption |].
    split; [lia |]. split; [exact Hdry | exact Hall].
Qed.

Lemma replay_accounts_final e o det db :
  replay_accounts e o db (replayed e o det db).
Proof.
  apply replayed_invariant.
  - apply replay_accounts_core.
  - intros pid p st r _ _. apply replay_accounts_step.
  - unfold replay_accounts. cbn. repeat split; try lia.
    exists [], []. rewrite !app_nil_r. repeat split; auto.
Qed.

Lemma records_in_insert_by le g gs :
  records_in (insert_by le g gs) = (S (length g.2.2) + records_in gs)%nat.
Proof.
  induction gs as [| x gs IH]; simpl; [reflexivity |].
  destruct (le g x); simpl; [reflexivity |]. rewrite IH. lia.
Qed.

Lemma records_in_sort_by le gs : records_in (sort_by le gs) = records_in gs.
Proof.
  induction gs as [| g gs IH]; simpl; [reflexivity |].
  now rewrite records_in_insert_by, IH.
Qed.

Lemma records_in_app gs gs' :
  records_in (gs ++ gs') = (records_in gs + records_in gs')%nat.
Proof. induction gs as [| g gs IH]; simpl; [reflexivity |]. rewrite IH. lia. Qed.

Lemma records_in_partition f gs :
  (records_in (List.filter f gs) + records_in (List.filter (fun g => negb (f g)) gs))%nat
  = records_in gs.
Proof.
  induction gs as [| g gs IH]; simpl; [reflexivity |].
  destruct (f g); simpl; lia.
Qed.

Lemma records_in_Object_entries gs : records_in (Object_entries gs) = records_in gs.
Proof.
  unfold Object_entries.
  rewrite records_in_app, records_in_sort_by. apply records_in_partition.
Qed.

Lemma records_in_group_push r gs : records_in (group_push r gs) = S (records_in gs).
Proof.
  induction gs as [| [k [r0 rs]] gs IH]; simpl; [reflexivity |].
  destruct (String.eqb k (rec_patientId r)); simpl.
  - rewrite length_app. simpl. lia.
  - rewrite IH. lia.
Qed.

Lemma records_in_recordsByPatient l : records_in (recordsByPatient l) = length l.
Proof.
  unfold recordsByPatient.
  assert (H : forall gs, records_in (fold_left (fun g r => group_push r g) l gs)
                         = (records_in gs + length l)%nat).
  { induction l as [| r l IH]; intros gs; simpl; [lia |].
    rewrite IH, records_in_group_push. lia. }
  rewrite H. reflexivity.
Qed.

Lemma processed_records e o pid p l st :
  processed (st_results (fold_left (processRecord e o pid p) l st))
  = (processed (st_results st) + length l)%nat.
Proof.
  revert st. induction l as [| r l IH]; intros st; simpl; [lia |].
  rewrite IH. destruct (processRecord_shape e o pid p st r) as (_ & -> & _). lia.
Qed.

Lemma processed_patient e o pm st g :
  processed (st_results (processPatient e o pm st g))
  = (processed (st_results st)
     + match pm !! g.1 with Some _ => S (length g.2.2) | None => 0 end)%nat.
Proof.
  destruct g as [pid [r0 rs]]. unfold processPatient. cbn [fst snd].
  destruct (pm !! pid) as [p |].
  - unfold with_detector. cbn [st_results].
    rewrite processed_records. cbn [st_results processed set_summary length]. lia.
  - unfold push_error. cbn [st_results processed]. lia.
Qed.

Lemma processed_groups e o pm gs st :
  (processed (st_results st)
   <= processed (st_results (fold_left (processPatient e o pm) gs st))
   <= processed (st_results st) + records_in gs)%nat.
Proof.
  revert st. induction gs as [| g gs IH]; intros st; simpl; [lia |].
  specialize (IH (processPatient e o pm st g)).
  rewrite processed_patient in IH. destruct (pm !! g.1); lia.
Qed.

Lemma processed_bound e o det db :
  (processed (st_results (replayed e o det db)) <= length (findRecords o db))%nat.
Proof.
  unfold replayed.
  match goal with
  | |- (processed (st_results (fold_left (processPatient e o ?pm) ?gs ?st)) <= _)%nat =>
      pose proof (processed_groups e o pm gs st) as H
  end.
  rewrite records_in_Object_entries, records_in_recordsByPatient in H. cbn in H. lia.
Qed.

(** Whatever a run returns is accounted for. *)
Lemma run_accounts e o det db r det' db' :
  detectRetrospectiveAnomalies e o det db = Returned r det' db' ->
  exists st, r = st_results st /\ db' = st_db st /\ replay_accounts e o db st
             /\ (processed r <= length (findRecords o db))%nat.
Proof.
  rewrite run_cases. destruct (negb (HealthRecord det)); [discriminate |].
  destruct (length _ =? 0)%nat.
  - intros [= <- <- <-].
    exists {| st_results := results0; st_detector := det; st_db := db;
              existingAnomalySet := existingKeys o db |}.
    split; [reflexivity |]. split; [reflexivity |].
    split; [| cbn; lia].
    unfold replay_accounts. cbn. repeat split; try lia.
    exists [], []. rewrite !app_nil_r. repeat split; auto.
  - intros [= <- <- <-]. exists (replayed e o det db).
    split; [reflexivity |]. split; [reflexivity |].
    split; [apply replay_accounts_final | apply processed_bound].
Qed.

(** X12.  A retrospective run never changes the patients or the stored readings
    and never alters or removes an anomaly or an alert log: it only appends.
    Each anomaly it appends is unacknowledged and carries at least one
    alert; the retrospective flag, the detection date and the score, which
    the run passes under [metadata], are not stored, the schema having no
    such path, so the [anomalyScore] of the document is unset.  Each alert
    log it appends holds the patient, the message and the time, and no
    alert type, severity or action. *)
Theorem retrospective_only_appends (e : env) (o : options) (det : detector)
    (db : Db.t) (r : results) (det' : detector) (db' : Db.t)
    (Hrun : detectRetrospectiveAnomalies e o det db = Returned r det' db') :
  Db.Patient db' = Db.Patient db
  /\ Db.HealthRecord db' = Db.HealthRecord db
  /\ exists na nl,
       Db.Anomaly db' = (Db.Anomaly db ++ na)%list
       /\ Db.AlertLog db' = (Db.AlertLog db ++ nl)%list
       /\ Forall (fun a => acknowledged a = false /\ an_alerts a <> []
                           /\ an_anomalyScore a = None) na
       /\ Forall (fun l => al_alertType l = None /\ al_severity l = None
                           /\ al_actionTaken l = None) nl
       /\ (length na <= newAnomaliesDetected r)%nat.
Proof.
  destruct (run_accounts _ _ _ _ _ _ _ Hrun) as (st & -> & -> & Hacc & _).
  destruct Hacc as (HP & HH & _ & _ & na & nl & HA & HL & Hgood & Hlog & Hlen & _).
  split; [exact HP |]. split; [exact HH |]. exists na, nl.
  split; [exact HA |]. split; [exact HL |].
  split; [exact Hgood |]. split; [exact Hlog | exact Hlen].
Qed.

(** X13.  The counters of a run: the critical and warning counts together never
    exceed the number of new anomalies (a new anomaly of severity normal is
    in neither), which never exceeds the number of processed records, which
    never exceeds the number of stored readings the query selects. *)
Theorem retrospective_counters (e : env) (o : options) (det : detector)
    (db : Db.t) (r : results) (det' : detector) (db' : Db.t)
    (Hrun : detectRetrospectiveAnomalies e o det db = Returned r det' db') :
  (criticalCount r + warningCount r <= newAnomaliesDetected r)%nat
  /\ (newAnomaliesDetected r <= processed r)%nat
  /\ (processed r <= length (List.filter (record_matches o) (Db.HealthRecord db)))%nat.
Proof.
  destruct (run_accounts _ _ _ _ _ _ _ Hrun) as (st & -> & -> & Hacc & Hproc).
  destruct Hacc as (_ & _ & Hcw & Hnp & _).
  unfold findRecords in Hproc. rewrite length_sort_by in Hproc. auto.
Qed.

(** X14.  When every write succeeds and [updateDatabase] is set, a run stores
    exactly one anomaly per new anomaly it reports and one alert log per
    alert of those anomalies. *)
Theorem writes_match_count (e : env) (o : options) (det : detector)
    (db : Db.t) (r : results) (det' : detector) (db' : Db.t)
    (Hsaved : forall n, persist e n = Saved)
    (Hupd : updateDatabase o = true)
    (Hrun : detectRetrospectiveAnomalies e o det db = Returned r det' db') :
  length (Db.Anomaly db') = (length (Db.Anomaly db) + newAnomaliesDetected r)%nat
  /\ length (Db.AlertLog db')
     = (length (Db.AlertLog db)
        + total_alerts (skipn (length (Db.Anomaly db)) (Db.Anomaly db')))%nat
  /\ (length (Db.AlertLog db) + newAnomaliesDetected r <= length (Db.AlertLog db'))%nat.
Proof.
  destruct (run_accounts _ _ _ _ _ _ _ Hrun) as (st & -> & -> & Hacc & _).
  destruct Hacc as (_ & _ & _ & _ & na & nl & HA & HL & Hgood & _ & _ & _ & Hall).
  destruct (Hall Hsaved Hupd) as [E1 E2].
  rewrite HA, HL, !length_app, skipn_app, skipn_all, Nat.sub_diag, E1, E2. simpl.
  split; [reflexivity |]. split; [reflexivity |].
  rewrite <- E1. clear -Hgood.
  induction Hgood as [| a l Ha _ IH]; simpl; [lia |].
  destruct Ha as (_ & Hne & _). destruct (an_alerts a); [congruence |]. simpl. lia.
Qed.

(** X15.  A dry run ([updateDatabase = false]) leaves every collection exactly as
    it was, whatever it detects. *)
Theorem dry_run_writes_nothing (e : env) (o : options) (det : detector)
    (db : Db.t) (r : results) (det' : detector) (db' : Db.t)
    (Hdry : updateDatabase o = false)
    (Hrun : detectRetrospectiveAnomalies e o det db = Returned r det' db') :
  db' = db.
Proof.
  destruct (run_accounts _ _ _ _ _ _ _ Hrun) as (st & -> & -> & Hacc & _).
  destruct Hacc as (HP & HH & _ & _ & na & nl & HA & HL & _ & _ & _ & Hnone & _).
  destruct (Hnone Hdry) as [-> ->]. rewrite app_nil_r in HA, HL.
  destruct (st_db st), db. simpl in *. congruence.
Qed.

Lemma retrospective_only_appends_witness :
  let det := setHealthRecordModel constructor in
  let db := Sample.db_of [Sample.stored 72 0.3 0; Sample.stored 35 0.3 300000] in
  exists r det' db',
    detectRetrospectiveAnomalies (Sample.at_hour 12) Sample.all_records det db
    = Returned r det' db'
    /\ Db.HealthRecord db' = Db.HealthRecord db
    /\ exists na,
         Db.Anomaly db' = (Db.Anomaly db ++ na)%list
         /\ Forall (fun a => acknowledged a = false /\ an_alerts a <> []
                             /\ an_anomalyScore a = None) na.
Proof.
  intros det db.
  assert (E : exists r det' db',
             detectRetrospectiveAnomalies (Sample.at_hour 12) Sample.all_records det db
             = Returned r det' db').
  { vm_compute. do 3 eexists. reflexivity. }
  destruct E as (r & det' & db' & E).
  destruct (retrospective_only_appends _ _ _ _ _ _ _ E)
    as (_ & HH & na & nl & HA & _ & Hgood & _).
  exists r, det', db'. split; [exact E |]. split; [exact HH |]. exists na. auto.
Defined.

Lemma retrospective_counters_witness :
  let det := setHealthRecordModel constructor in
  let db := Sample.db_of
              (map (fun t => Sample.stored 72 0.7 (Z.of_nat t * 300000)) (seq 0 8)) in
  exists r det' db',
    detectRetrospectiveAnomalies (Sample.at_hour 23) Sample.all_records det db
    = Returned r det' db'
    /\ (criticalCount r + warningCount r <= newAnomaliesDetected r)%nat
    /\ (newAnomaliesDetected r <= processed r)%nat
    /\ criticalCount r = 0%nat /\ warningCount r = 0%nat
    /\ newAnomaliesDetected r = 1%nat.
Proof.
  intros det db.
  assert (E : exists r det' db',
             detectRetrospectiveAnomalies (Sample.at_hour 23) Sample.all_records det db
             = Returned r det' db'
             /\ criticalCount r = 0%nat /\ warningCount r = 0%nat
             /\ newAnomaliesDetected r = 1%nat).
  { vm_compute. do 3 eexists. repeat split. }
  destruct E as (r & det' & db' & E & Hc & Hw & Hn).
  destruct (retrospective_counters _ _ _ _ _ _ _ E) as (H1 & H2 & _).
  exists r, det', db'. auto 10.
Defined.

Lemma writes_match_count_witness :
  let det := setHealthRecordModel constructor in
  let db := Sample.db_of [Sample.stored 72 0.3 0; Sample.stored 35 0.3 300000] in
  exists r det' db',
    detectRetrospectiveAnomalies (Sample.at_hour 12) Sample.all_records det db
    = Returned r det' db'
    /\ length (Db.Anomaly db') = (length (Db.Anomaly db) + newAnomaliesDetected r)%nat.
Proof.
  intros det db.
  assert (E : exists r det' db',
             detectRetrospectiveAnomalies (Sample.at_hour 12) Sample.all_records det db
             = Returned r det' db').
  { vm_compute. do 3 eexists. reflexivity. }
  destruct E as (r & det' & db' & E).
  destruct (writes_match_count (Sample.at_hour 12) Sample.all_records det db r det' db'
              (fun _ => eq_refl) eq_refl E) as (H & _).
  exists r, det', db'. auto.
Defined.

Lemma dry_run_writes_nothing_witness :
  let det := setHealthRecordModel constructor in
  let db := Sample.db_of [Sample.stored 72 0.3 0; Sample.stored 35 0.3 300000] in
  let o := set_updateDatabase false Sample.all_records in
  exists r det',
    detectRetrospectiveAnomalies (Sample.at_hour 12) o det db = Returned r det' db
    /\ newAnomaliesDetected r = 1%nat.
Proof.
  intros det db o.
  assert (E : exists r det' db',
             detectRetrospectiveAnomalies (Sample.at_hour 12) o det db
             = Returned r det' db' /\ newAnomaliesDetected r = 1%nat).
  { vm_compute. do 3 eexists. split; reflexivity. }
  destruct E as (r & det' & db' & E & Hn).
  pose proof (dry_run_writes_nothing (Sample.at_hour 12) o det db r det' db' eq_refl E) as Hdb.
  exists r, det'. rewrite <- Hdb at 2. auto.
Defined.

(** ** The detector after a retrospective run *)

Lemma same_state_refl pid d : same_state pid d d.
Proof. split; reflexivity. Qed.

Lemma same_state_trans pid d1 d2 d3 :
  same_state pid d1 d2 -> same_state pid d2 d3 -> same_state pid d1 d3.
Proof. intros [H1 H2] [H3 H4]. split; congruence. Qed.

Lemma addToWindow_other d pid pid' v :
  pid <> pid' -> same_state pid' (addToWindow d pid v) d.
Proof.
  intros Hne. split; [now apply window_addToWindow_ne | reflexivity].
Qed.

Lemma resetPatient_other d pid pid' :
  pid <> pid' -> same_state pid' (resetPatient d pid) d.
Proof.
  intros Hne. unfold same_state, window_of, history_of, resetPatient. simpl.
  now rewrite !lookup_delete_ne by exact Hne.
Qed.

Lemma processRecord_other e o pid p st r pid' :
  pid <> pid' ->
  same_state pid' (st_detector (processRecord e o pid p st r)) (st_detector st).
Proof.
  intros Hne. destruct (processRecord_shape e o pid p st r) as (-> & _).
  destruct (state_after_detect_ne (getHours e (processed (st_results st)))
              (st_detector st) pid pid' (vitals_of r) p Hne) as [H1 H2].
  split; assumption.
Qed.

Lemma records_other e o pid p l st pid' :
  pid <> pid' ->
  same_state pid' (st_detector (fold_left (processRecord e o pid p) l st)) (st_detector st).
Proof.
  intros Hne. revert st. induction l as [| r l IH]; intros st; simpl.
  - apply same_state_refl.
  - eapply same_state_trans; [apply IH | now apply processRecord_other].
Qed.

Lemma context_other pid pid' (l : list healthRecord) d :
  pid <> pid' ->
  same_state pid' (fold_left (fun d r => addToWindow d pid (vitals_of r)) l d) d.
Proof.
  intros Hne. revert d. induction l as [| r l IH]; intros d; simpl.
  - apply same_state_refl.
  - eapply same_state_trans; [apply IH | now apply addToWindow_other].
Qed.

Lemma processPatient_state e o pm st g pid' :
  let st' := processPatient e o pm st g in
  (g.1 <> pid' -> same_state pid' (st_detector st') (st_detector st))
  /\ (pm !! g.1 = None -> st_detector st' = st_detector st)
  /\ (g.1 = pid' -> is_Some (pm !! pid') -> no_state pid' (st_detector st')).
Proof.
  destruct g as [pid [r0 rs]]. cbn [fst]. unfold processPatient.
  destruct (pm !! pid) as [p |] eqn:Hp.
  - unfold with_detector. cbn [st_detector].
    split; [| split; [discriminate |]].
    + intros Hne.
      eapply same_state_trans; [now apply resetPatient_other |].
      change (fold_left (processRecord e o pid p) rs (processRecord e o pid p ?a r0))
        with (fold_left (processRecord e o pid p) (r0 :: rs) a).
      eapply same_state_trans; [now apply records_other |]. cbn [st_detector].
      eapply same_state_trans; [now apply context_other |].
      now apply resetPatient_other.
    + intros <- _. split; [apply window_resetPatient | apply history_resetPatient].
  - cbn [st_detector]. split; [intros _; apply same_state_refl |].
    split; [reflexivity |]. intros <- [x Hx]. congruence.
Qed.

Lemma groups_state e o pm pid' gs :
  forall st,
    let st' := fold_left (processPatient e o pm) gs st in
    ((forall g, In g gs -> g.1 <> pid') ->
     same_state pid' (st_detector st') (st_detector st))
    /\ (pm !! pid' = None -> same_state pid' (st_detector st') (st_detector st))
    /\ ((exists g, In g gs /\ g.1 = pid') -> is_Some (pm !! pid') ->
        no_state pid' (st_detector st')).
Proof.
  induction gs as [| g gs IH]; intros st; simpl.
  - split; [intros _; apply same_state_refl |].
    split; [intros _; apply same_state_refl |]. intros (g & [] & _).
  - destruct (IH (processPatient e o pm st g)) as (IH1 & IH2 & IH3).
    destruct (processPatient_state e o pm st g pid') as (P1 & P2 & P3).
    split; [| split].
    + intros Hall. eapply same_state_trans; [apply IH1 | apply P1]; auto.
    + intros Hnone. eapply same_state_trans; [now apply IH2 |].
      destruct (String.eqb_spec g.1 pid') as [E | Hne]; [| now apply P1].
      rewrite P2 by (rewrite E; exact Hnone). apply same_state_refl.
    + intros (g' & Hin & Hk) Hsome.
      destruct (existsb (fun x => String.eqb x.1 pid') gs) eqn:Ex.
      * apply existsb_exists in Ex. destruct Ex as (x & Hx & Hxk).
        apply String.eqb_eq in Hxk. apply IH3; eauto.
      * assert (Hnone : forall x, In x gs -> x.1 <> pid').
        { intros x Hx Hxk.
          assert (existsb (fun x => String.eqb x.1 pid') gs = true).
          { apply existsb_exists. exists x. split; [exact Hx |]. now apply String.eqb_eq. }
          congruence. }
        destruct Hin as [-> | Hin]; [| now elim (Hnone g' Hin)].
        destruct (IH1 Hnone) as [Hw Hh]. destruct (P3 Hk Hsome) as [Hw' Hh'].
        split; congruence.
Qed.

Lemma patientMap_found (l : list patient) p :
  In p l ->
  forall m, is_Some (fold_left (fun (m : gmap string patient) p => <[patientId p := p]> m) l m !! patientId p).
Proof.
  assert (Hkeep : forall (l : list patient) (m : gmap string patient) k,
             is_Some (m !! k) ->
             is_Some (fold_left (fun (m : gmap string patient) p => <[patientId p := p]> m) l m !! k)).
  { clear. induction l as [| q l IH]; intros m k Hk; simpl; [exact Hk |].
    apply IH. destruct (decide (patientId q = k)) as [<- | Hne].
    - rewrite lookup_insert_eq. eauto.
    - now rewrite lookup_insert_ne. }
  induction l as [| q l IH]; intros [] m; simpl.
  - subst q. apply Hkeep. rewrite lookup_insert_eq. eauto.
  - now apply IH.
Qed.

Lemma patientMap_missing (l : list patient) k :
  (forall p, In p l -> patientId p <> k) ->
  forall m : gmap string patient,
    m !! k = None -> fold_left (fun (m : gmap string patient) p => <[patientId p := p]> m) l m !! k = None.
Proof.
  induction l as [| q l IH]; intros Hl m Hm; simpl; [exact Hm |].
  apply IH; [intros p Hp; apply Hl; now right |].
  rewrite lookup_insert_ne; [exact Hm | apply Hl; now left].
Qed.

Lemma group_push_key r gs :
  (exists g, In g (group_push r gs) /\ g.1 = rec_patientId r)
  /\ (forall g, In g gs -> exists g', In g' (group_push r gs) /\ g'.1 = g.1).
Proof.
  induction gs as [| [k [r0 rs]] gs [IH1 IH2]]; simpl.
  - split; [eexists; split; [left; reflexivity | reflexivity] | intros g []].
  - destruct (String.eqb_spec k (rec_patientId r)) as [E | Hne].
    + split; [eexists; split; [left; reflexivity | exact E] |].
      intros g [<- | Hg].
      * eexists. split; [left; reflexivity | reflexivity].
      * exists g. split; [now right | reflexivity].
    + split.
      * destruct IH1 as (g & Hg & Hk). exists g. split; [now right | exact Hk].
      * intros g [<- | Hg]; [eexists; split; [left; reflexivity | reflexivity] |].
        destruct (IH2 g Hg) as (g' & Hg' & Hk'). exists g'. split; [now right | exact Hk'].
Qed.

Lemma recordsByPatient_key l r :
  In r l -> exists g, In g (recordsByPatient l) /\ g.1 = rec_patientId r.
Proof.
  unfold recordsByPatient.
  assert (Hkeep : forall (l : list healthRecord) gs k,
             (exists g, In g gs /\ g.1 = k) ->
             exists g, In g (fold_left (fun g r => group_push r g) l gs) /\ g.1 = k).
  { clear. induction l as [| q l IH]; intros gs k Hk; simpl; [exact Hk |].
    apply IH. destruct Hk as (g & Hg & Hk).
    destruct (proj2 (group_push_key q gs) g Hg) as (g' & Hg' & Hk'). exists g'.
    split; [exact Hg' | congruence]. }
  generalize (@nil (string * (healthRecord * list healthRecord))).
  induction l as [| q l IH]; intros gs []; simpl.
  - subst q. apply Hkeep. apply (proj1 (group_push_key r gs)).
  - now apply IH.
Qed.

Lemma group_push_members r gs g x :
  In g (group_push r gs) -> In x (g.2.1 :: g.2.2) ->
  (x = r /\ g.1 = rec_patientId r)
  \/ exists g0, In g0 gs /\ g0.1 = g.1 /\ In x (g0.2.1 :: g0.2.2).
Proof.
  induction gs as [| [k [r0 rs]] gs IH]; simpl.
  - intros [<- | []] [<- | []]. now left.
  - destruct (String.eqb_spec k (rec_patientId r)) as [E | Hne].
    + intros [<- | Hg] Hx.
      * simpl in Hx. rewrite in_app_iff in Hx. simpl in Hx.
        destruct Hx as [Hx | [Hx | [Hx | []]]].
        -- right. exists (k, (r0, rs)). simpl. auto.
        -- right. exists (k, (r0, rs)). simpl. auto.
        -- left. auto.
      * right. exists g. auto.
    + intros [<- | Hg] Hx.
      * right. exists (k, (r0, rs)). auto.
      * destruct (IH Hg Hx) as [H | (g0 & Hg0 & Hk & Hx0)]; [now left |].
        right. exists g0. auto.
Qed.

Lemma recordsByPatient_members l g x :
  In g (recordsByPatient l) -> In x (g.2.1 :: g.2.2) ->
  In x l /\ rec_patientId x = g.1.
Proof.
  unfold recordsByPatient.
  assert (H : forall (l : list healthRecord) gs,
             (forall g x, In g gs -> In x (g.2.1 :: g.2.2) -> rec_patientId x = g.1) ->
             forall g x, In g (fold_left (fun g r => group_push r g) l gs) ->
                         In x (g.2.1 :: g.2.2) ->
                         (In x l \/ exists g0, In g0 gs /\ In x (g0.2.1 :: g0.2.2))
                         /\ rec_patientId x = g.1).
  { clear. induction l as [| q l IH]; intros gs Hgs g x Hg Hx; simpl in *.
    - split; [right; eauto | eauto].
    - destruct (IH (group_push q gs)) with (g := g) (x := x) as [Hin Hk]; auto.
      + intros g1 x1 Hg1 Hx1.
        destruct (group_push_members q gs g1 x1 Hg1 Hx1) as [[-> Hk] | (g0 & Hg0 & Hk & Hx0)];
          [congruence |]. rewrite <- Hk. eauto.
      + split; [| exact Hk]. destruct Hin as [Hin | (g0 & Hg0 & Hx0)]; [auto |].
        destruct (group_push_members q gs g0 x Hg0 Hx0) as [[-> _] | (g1 & Hg1 & _ & Hx1)];
          [auto | right; eauto]. }
  intros Hg Hx. destruct (H l [] (fun g x Hf => match Hf with end) g x Hg Hx) as [Hin Hk].
  split; [| exact Hk]. destruct Hin as [Hin | (g0 & [] & _)]. exact Hin.
Qed.

Lemma In_Object_entries {A} (g : string * A) l : In g l -> In g (Object_entries l).
Proof.
  intros Hg. unfold Object_entries. rewrite in_app_iff, In_sort_by, !filter_In.
  destruct (bool_decide (is_Some (array_index g.1))); simpl; tauto.
Qed.

(** X16.  A retrospective run clears the detector's window and history of every
    patient it replays (a patient it looks up successfully and for whom the
    query selects a stored reading), whatever the detector held for that
    patient before the run and whatever the replay put there; the window and
    history of a patient with no selected reading, or whom the run does not
    look up, are those from before the run. *)
Theorem retrospective_resets_state (e : env) (o : options) (det : detector)
    (db : Db.t) (r : results) (det' : detector) (db' : Db.t) (pid : string)
    (Hrun : detectRetrospectiveAnomalies e o det db = Returned r det' db') :
  (has_selected_record o db pid -> has_selected_patient o db pid -> no_state pid det')
  /\ (~ has_selected_record o db pid -> same_state pid det' det)
  /\ (~ has_selected_patient o db pid -> same_state pid det' det).
Proof.
  rewrite run_cases in Hrun. destruct (negb (HealthRecord det)); [discriminate |].
  destruct (length _ =? 0)%nat eqn:Hlen.
  - injection Hrun as <- <- <-.
    split; [| split; intros _; apply same_state_refl].
    intros _ (p & Hp & Hm & _). apply Nat.eqb_eq in Hlen.
    assert (Hin : In p (List.filter (patient_matches o) (Db.Patient db)))
      by (apply filter_In; auto).
    destruct (List.filter (patient_matches o) (Db.Patient db)); [destruct Hin | discriminate].
  - injection Hrun as <- <- <-. unfold replayed.
    match goal with
    | |- context [fold_left (processPatient e o ?pm) ?gs ?st] =>
        destruct (groups_state e o pm pid gs st) as (G1 & G2 & G3)
    end.
    cbn [st_detector] in G1, G2, G3.
    split; [| split].
    + intros (x & Hx & Hm & Hk) (p & Hp & Hpm & Hpk). apply G3.
      * assert (Hin : In x (findRecords o db)).
        { unfold findRecords. apply In_sort_by, filter_In. auto. }
        destruct (recordsByPatient_key _ _ Hin) as (g & Hg & Hgk).
        exists g. split; [now apply In_Object_entries | congruence].
      * rewrite <- Hpk. apply patientMap_found. apply filter_In. auto.
    + intros Hno. apply G1. intros g Hg Hk. apply Hno.
      apply Object_entries_In in Hg.
      destruct (recordsByPatient_members _ g g.2.1 Hg (or_introl eq_refl)) as [Hin Hpid].
      unfold findRecords in Hin. apply In_sort_by, filter_In in Hin.
      exists g.2.1. intuition congruence.
    + intros Hno. apply G2. apply patientMap_missing; [| apply lookup_empty].
      intros p Hp Hk. apply filter_In in Hp. apply Hno. exists p. tauto.
Qed.

Lemma retrospective_resets_state_witness :
  let v := Sample.normalVitals in
  let det := addToWindow (addToWindow (setHealthRecordModel constructor) "P001" v) "P002" v in
  let db := Sample.db_of [Sample.stored 72 0.3 0; Sample.stored 35 0.3 300000] in
  exists r det' db',
    detectRetrospectiveAnomalies (Sample.at_hour 12) Sample.all_records det db
    = Returned r det' db'
    /\ window_of det "P001" = [v]
    /\ no_state "P001" det'
    /\ window_of det' "P002" = [v].
Proof.
  intros v det db.
  assert (E : exists r det' db',
             detectRetrospectiveAnomalies (Sample.at_hour 12) Sample.all_records det db
             = Returned r det' db').
  { vm_compute. do 3 eexists. reflexivity. }
  destruct E as (r & det' & db' & Hrun). exists r, det', db'.
  destruct (retrospective_resets_state _ _ _ _ _ _ _ "P001" Hrun) as (H1 & _ & _).
  destruct (retrospective_resets_state _ _ _ _ _ _ _ "P002" Hrun) as (_ & H2 & _).
  split; [exact Hrun |]. split; [reflexivity |]. split.
  - apply H1.
    + exists (Sample.stored 72 0.3 0). split; [now left |]. split; reflexivity.
    + exists Sample.P001. split; [now left |]. split; reflexivity.
  - destruct H2 as [Hw _]; [| rewrite Hw; reflexivity].
    intros (x & Hx & _ & Hk). destruct Hx as [<- | [<- | []]]; discriminate Hk.
Defined.

(** ** A run that does not save, against the run that saves *)

Lemma processRecord_dry_ahead e o pid p sd sr r :
  dry_ahead sd sr ->
  dry_ahead (processRecord e (set_updateDatabase false o) pid p sd r)
            (processRecord e (set_updateDatabase true o) pid p sr r).
Proof.
  intros (Hd & Hp & Hh & Hs & Hn). unfold processRecord.
  cbn [updateDatabase set_updateDatabase]. rewrite Hd, Hp.
  destruct (detectAnomalies _ _ _ _ _) as [det d'].
  destruct (isAnomaly det); cbn [andb].
  - destruct (bool_decide (anomalyKey pid (recordedAt r) ∈ existingAnomalySet sr)) eqn:Er;
      destruct (bool_decide (anomalyKey pid (recordedAt r) ∈ existingAnomalySet sd)) eqn:Ed;
      cbn [negb].
    + unfold dry_ahead. cbn. auto.
    + unfold dry_ahead. cbn. repeat split; auto.
    + apply bool_decide_eq_true_1 in Ed. apply bool_decide_eq_false_1 in Er.
      elim Er. eapply elem_of_weaken; eassumption.
    + destruct (persist e (processed (st_results sr))); unfold dry_ahead; cbn;
        repeat split; auto; try lia.
      etrans; [exact Hs | apply union_subseteq_r].
  - unfold dry_ahead. cbn. auto.
Qed.

Lemma records_dry_ahead e o pid p l :
  forall sd sr,
    dry_ahead sd sr ->
    dry_ahead (fold_left (processRecord e (set_updateDatabase false o) pid p) l sd)
              (fold_left (processRecord e (set_updateDatabase true o) pid p) l sr).
Proof.
  induction l as [| r l IH]; intros sd sr H; simpl; [exact H |].
  apply IH. now apply processRecord_dry_ahead.
Qed.

Lemma contextRecords_readings d d' pid t :
  Db.HealthRecord d = Db.HealthRecord d' -> contextRecords d pid t = contextRecords d' pid t.
Proof. intros H. unfold contextRecords. now rewrite H. Qed.

Lemma processPatient_dry_ahead e o pm sd sr g :
  dry_ahead sd sr ->
  dry_ahead (processPatient e (set_updateDatabase false o) pm sd g)
            (processPatient e (set_updateDatabase true o) pm sr g).
Proof.
  intros H. destruct g as [pid [r0 l]]. unfold processPatient.
  destruct (pm !! pid) as [p |].
  - match goal with
    | |- dry_ahead (with_detector _ ?fd) (with_detector _ ?fr) =>
        assert (Hf : dry_ahead fd fr)
    end.
    { apply records_dry_ahead. destruct H as (Hd & Hp & Hh & Hs & Hn).
      unfold dry_ahead. cbn [st_detector st_results st_db existingAnomalySet].
      rewrite Hd, (contextRecords_readings _ _ pid (recordedAt r0) Hh).
      cbn. auto. }
    destruct Hf as (Hd & Hp & Hh & Hs & Hn). unfold dry_ahead, with_detector.
    cbn [st_detector st_results st_db existingAnomalySet]. rewrite Hd. auto.
  - destruct H as (Hd & Hp & Hh & Hs & Hn). unfold dry_ahead. cbn. auto.
Qed.

Lemma groups_dry_ahead e o pm gs :
  forall sd sr,
    dry_ahead sd sr ->
    dry_ahead (fold_left (processPatient e (set_updateDatabase false o) pm) gs sd)
              (fold_left (processPatient e (set_updateDatabase true o) pm) gs sr).
Proof.
  induction gs as [| g gs IH]; intros sd sr H; simpl; [exact H |].
  apply IH. now apply processPatient_dry_ahead.
Qed.

(** X17.  The count a run reports without saving is an upper bound of what the
    saving run on the same detector, collections and clock reports: both
    process the same number of records and leave the same detector, and the
    saving run counts no more new anomalies.  (The saving run remembers the
    key of each anomaly it stores, so a second anomalous reading of the same
    patient in the same minute is counted by the run that does not save
    only.) *)
Theorem dry_run_counts_no_fewer (e : env) (o : options) (det : detector) (db : Db.t)
    (rd rs : results) (detd dets : detector) (dbd dbs : Db.t)
    (Hdry : detectRetrospectiveAnomalies e (set_updateDatabase false o) det db
            = Returned rd detd dbd)
    (Hsave : detectRetrospectiveAnomalies e (set_updateDatabase true o) det db
             = Returned rs dets dbs) :
  processed rd = processed rs
  /\ (newAnomaliesDetected rs <= newAnomaliesDetected rd)%nat
  /\ detd = dets.
Proof.
  rewrite run_cases in Hdry, Hsave.
  destruct (negb (HealthRecord det)); [discriminate |].
  change (patient_matches (set_updateDatabase false o)) with (patient_matches o) in Hdry.
  change (patient_matches (set_updateDatabase true o)) with (patient_matches o) in Hsave.
  destruct (length _ =? 0)%nat.
  - injection Hdry as <- <- <-. injection Hsave as <- <- <-. auto.
  - injection Hdry as <- <- <-. injection Hsave as <- <- <-.
    assert (H : dry_ahead (replayed e (set_updateDatabase false o) det db)
                          (replayed e (set_updateDatabase true o) det db)).
    { unfold replayed. apply groups_dry_ahead. unfold dry_ahead. cbn. auto. }
    destruct H as (Hd & Hp & _ & _ & Hn). auto.
Qed.

Lemma dry_run_counts_no_fewer_witness :
  let det := setHealthRecordModel constructor in
  let db := Sample.db_of [Sample.stored 35 0.3 0; Sample.stored 35 0.3 30000] in
  exists rd detd dbd rs dets dbs,
    detectRetrospectiveAnomalies (Sample.at_hour 12)
      (set_updateDatabase false Sample.all_records) det db = Returned rd detd dbd
    /\ detectRetrospectiveAnomalies (Sample.at_hour 12)
         (set_updateDatabase true Sample.all_records) det db = Returned rs dets dbs
    /\ newAnomaliesDetected rd = 2%nat
    /\ newAnomaliesDetected rs = 1%nat
    /\ (newAnomaliesDetected rs <= newAnomaliesDetected rd)%nat.
Proof.
  intros det db.
  assert (Ed : exists rd detd dbd,
             detectRetrospectiveAnomalies (Sample.at_hour 12)
               (set_updateDatabase false Sample.all_records) det db = Returned rd detd dbd
             /\ newAnomaliesDetected rd = 2%nat).
  { vm_compute. do 3 eexists. split; reflexivity. }
  assert (Es : exists rs dets dbs,
             detectRetrospectiveAnomalies (Sample.at_hour 12)
               (set_updateDatabase true Sample.all_records) det db = Returned rs dets dbs
             /\ newAnomaliesDetected rs = 1%nat).
  { vm_compute. do 3 eexists. split; reflexivity. }
  destruct Ed as (rd & detd & dbd & Hdry & Hnd).
  destruct Es as (rs & dets & dbs & Hsave & Hns).
  exists rd, detd, dbd, rs, dets, dbs.
  split; [exact Hdry |]. split; [exact Hsave |]. split; [exact Hnd |].
  split; [exact Hns |].
  exact (proj1 (proj2 (dry_run_counts_no_fewer _ _ _ _ _ _ _ _ _ _ Hdry Hsave))).
Defined.

(** ** The generator's readings, seen by the detector *)

Lemma clamp_range (lo hi x : Q) :
  lo <= hi -> lo <= Math_max lo (Math_min hi x) /\ Math_max lo (Math_min hi x) <= hi.
Proof.
  intros Hlh. unfold Math_max, Math_min.
  destruct (JS.ltb x hi) eqn:E1.
  - apply ltb_lt in E1. destruct (JS.ltb lo x) eqn:E2.
    + apply ltb_lt in E2. split; Lqa.lra.
    + apply ltb_ge in E2. split; Lqa.lra.
  - apply ltb_ge in E1. destruct (JS.ltb lo hi) eqn:E2.
    + split; Lqa.lra.
    + split; Lqa.lra.
Qed.

Lemma clamp_below (lo hi x c : Q) :
  lo <= c -> x <= c -> Math_max lo (Math_min hi x) <= c.
Proof.
  intros Hl Hx. unfold Math_max, Math_min.
  destruct (JS.ltb x hi) eqn:E1.
  - destruct (JS.ltb lo x); assumption.
  - apply ltb_ge in E1. destruct (JS.ltb lo hi); [Lqa.lra | assumption].
Qed.

Lemma calculateFallRisk_calm (m hr b : Q) :
  0 <= m -> Qabs (hr - b) <= 500 -> calculateFallRisk m hr b <= 80.
Proof.
  intros Hm Hhr. unfold calculateFallRisk.
  pose proof (Qabs_nonneg (hr - b)) as Hn.
  assert (E : Qabs (hr - b) / 10 == Qabs (hr - b) * (1 # 10)) by reflexivity.
  revert E Hn Hhr. generalize (Qabs (hr - b) / 10). generalize (Qabs (hr - b)).
  intros a q E Hn Hhr.
  apply clamp_below; Lqa.lra.
Qed.

(** X18.  The fall-risk score of the generator lies in [0, 100]; the generated
    motion level lies in [0, 1].  For a generated reading whose heart rate
    is within 500 bpm of the patient's baseline, the detector raises its
    fall alert exactly when the generator's own fall detection fired: the
    score is 95 then, and at most 80 otherwise, which is not above the
    detector's bound. *)
Theorem generated_fall_alert (isFalling : bool) (last drawn hr baselineHr : Q)
    (h : Z) (d : detector) (pid : string) (v : vitals) (p : patient)
    (Hhr : Qabs (hr - baselineHr) <= 500)
    (Hv : fallRiskScore v
          = generated_fallRiskScore isFalling (generated_motionLevel last drawn)
                                    hr baselineHr) :
  0 <= generated_motionLevel last drawn /\ generated_motionLevel last drawn <= 1
  /\ 0 <= fallRiskScore v /\ fallRiskScore v <= 100
  /\ count_category "fall_detected" (alerts (detect h d pid v p))
     = (if isFalling then 1 else 0)%nat.
Proof.
  destruct (clamp_range 0 1 (last * 0.7 + drawn * 0.3)) as [Hm0 Hm1]; [Lqa.lra |].
  fold (generated_motionLevel last drawn) in Hm0, Hm1.
  split; [exact Hm0 |]. split; [exact Hm1 |].
  unfold count_category. rewrite fall_detected_only_from_fall.
  unfold fallAlerts. rewrite Hv. unfold generated_fallRiskScore.
  destruct isFalling.
  - split; [Lqa.lra |]. split; [Lqa.lra |]. reflexivity.
  - destruct (clamp_range 0 100
                ((0 + (1 - generated_motionLevel last drawn) * 30)
                 + Qabs (hr - baselineHr) / 10)) as [H0 H100]; [Lqa.lra |].
    fold (calculateFallRisk (generated_motionLevel last drawn) hr baselineHr) in H0, H100.
    split; [exact H0 |]. split; [exact H100 |].
    pose proof (calculateFallRisk_calm _ _ _ Hm0 Hhr) as Hc.
    apply gtb_le in Hc. rewrite Hc. reflexivity.
Qed.

Lemma generated_fall_alert_witness :
  let v := Sample.reading 72 36.8 0.3
             (generated_fallRiskScore false (generated_motionLevel 0.2 0.5) 72 72) 0 in
  count_category "fall_detected" (alerts (detect 12 constructor "P001" v Sample.P001))
  = 0%nat.
Proof.
  intros v.
  refine (proj2 (proj2 (proj2 (proj2
            (generated_fall_alert false 0.2 0.5 72 72 12 constructor "P001" v Sample.P001
               _ eq_refl))))).
  vm_compute. discriminate.
Defined.

(** ** Integers written into strings and read back *)

Ltac eval_digit :=
  match goal with
  | |- context [JS.digit_val 10 ?c] =>
      let v := eval vm_compute in (JS.digit_val 10 c) in
      change (JS.digit_val 10 c) with v
  end.

Lemma digits_of_uint_acc (u : Decimal.uint) :
  forall acc : positive,
    JS.digits 10 (Some (Z.pos acc)) (NilEmpty.string_of_uint u)
    = Some (Z.pos (Pos.of_uint_acc u acc)).
Proof.
  induction u; intros acc; cbn [NilEmpty.string_of_uint Pos.of_uint_acc JS.digits];
    [reflexivity | ..];
    eval_digit; cbv iota; rewrite <- IHu; do 2 f_equal; lia.
Qed.

Lemma digits_of_uint_zero (u : Decimal.uint) :
  JS.digits 10 (Some 0%Z) (NilEmpty.string_of_uint u) = Some (Z.of_N (Pos.of_uint u)).
Proof.
  induction u; cbn [NilEmpty.string_of_uint Pos.of_uint JS.digits];
    [reflexivity | ..]; eval_digit; cbv iota;
    [exact IHu | ..]; apply digits_of_uint_acc.
Qed.

Lemma digits_of_uint (u : Decimal.uint) :
  u <> Decimal.Nil ->
  JS.digits 10 None (NilEmpty.string_of_uint u) = Some (Z.of_N (Pos.of_uint u)).
Proof.
  destruct u; intros Hu; [now elim Hu | ..];
    cbn [NilEmpty.string_of_uint Pos.of_uint JS.digits]; eval_digit; cbv iota;
    [apply digits_of_uint_zero | ..]; apply digits_of_uint_acc.
Qed.

Lemma to_uint_nonempty (p : positive) : Pos.to_uint p <> Decimal.Nil.
Proof.
  intros E. pose proof (DecimalPos.Unsigned.of_to p) as H. rewrite E in H. discriminate.
Qed.

(** A string of decimal digits is read as a decimal number, with or
    without a sign before it. *)
Lemma parseInt_of_uint (u : Decimal.uint) :
  u <> Decimal.Nil ->
  JS.parseInt (NilEmpty.string_of_uint u) = Some (Z.of_N (Pos.of_uint u))
  /\ JS.parseInt (String "-" (NilEmpty.string_of_uint u))
     = Some (- Z.of_N (Pos.of_uint u))%Z.
Proof.
  intros Hu. pose proof (digits_of_uint u Hu) as H.
  assert (P1 : JS.parseInt (NilEmpty.string_of_uint u)
               = option_map (Z.mul 1) (JS.digits 10 None (NilEmpty.string_of_uint u))).
  { destruct u as [| u | u | u | u | u | u | u | u | u | u]; try reflexivity.
    destruct u; reflexivity. }
  assert (P2 : JS.parseInt (String "-" (NilEmpty.string_of_uint u))
               = option_map (Z.mul (-1))
                            (JS.digits 10 None (NilEmpty.string_of_uint u))).
  { destruct u as [| u | u | u | u | u | u | u | u | u | u]; try reflexivity.
    destruct u; reflexivity. }
  rewrite P1, P2, H. cbn [option_map]. split; f_equal; lia.
Qed.

Lemma parseInt_string_of_Z (z : Z) : JS.parseInt (JS.string_of_Z z) = Some z.
Proof.
  unfold JS.string_of_Z. destruct z as [| p | p]; [reflexivity | |];
    cbn [Z.to_int NilZero.string_of_int];
    pose proof (to_uint_nonempty p) as Hp;
    destruct (parseInt_of_uint _ Hp) as [H1 H2];
    rewrite DecimalPos.Unsigned.of_to in H1, H2;
    (replace (NilZero.string_of_uint (Pos.to_uint p))
       with (NilEmpty.string_of_uint (Pos.to_uint p))
      by (destruct (Pos.to_uint p); [now elim Hp | reflexivity ..])); assumption.
Qed.


Lemma append_cons (c : ascii) (a b : string) : String c a ++ b = String c (a ++ b).
Proof. reflexivity. Qed.

Lemma append_nil_start (b : string) : "" ++ b = b.
Proof. reflexivity. Qed.

Lemma append_nil_end (s : string) : s ++ "" = s.
Proof.
  induction s as [| c s IH]; [reflexivity |]. now rewrite append_cons, IH.
Qed.

Lemma append_char_assoc (a : string) (c : ascii) (b : string) :
  (a ++ String c "") ++ b = a ++ String c b.
Proof.
  induction a as [| x a IH]; [reflexivity |]. now rewrite !append_cons, IH.
Qed.


(** Splitting at ["/"] stops at the first ["/"] after a run of digits. *)
Lemma split_uint (u : Decimal.uint) :
  forall cur rest,
    JS.split_aux "/" cur (NilEmpty.string_of_uint u ++ String "/" rest)
    = (cur ++ NilEmpty.string_of_uint u) :: JS.split_aux "/" "" rest.
Proof.
  induction u; intros cur rest; cbn [NilEmpty.string_of_uint];
    rewrite ?append_cons, ?append_nil_start; cbn [JS.split_aux];
    [change (Ascii.eqb "/" "/") with true; cbv iota; now rewrite append_nil_end | ..];
    match goal with
    | |- context [Ascii.eqb ?c "/"] => change (Ascii.eqb c "/") with false
    end;
    cbv iota; rewrite IHu, append_char_assoc; reflexivity.
Qed.

Lemma split_uint_end (u : Decimal.uint) :
  forall cur,
    JS.split_aux "/" cur (NilEmpty.string_of_uint u) = [cur ++ NilEmpty.string_of_uint u].
Proof.
  induction u; intros cur; cbn [NilEmpty.string_of_uint JS.split_aux];
    [now rewrite append_nil_end | ..];
    match goal with
    | |- context [Ascii.eqb ?c "/"] => change (Ascii.eqb c "/") with false
    end;
    cbv iota; rewrite IHu, append_char_assoc; reflexivity.
Qed.

Lemma string_of_Z_cases (z : Z) :
  exists u, u <> Decimal.Nil
            /\ (JS.string_of_Z z = NilEmpty.string_of_uint u
                \/ JS.string_of_Z z = String "-" (NilEmpty.string_of_uint u)).
Proof.
  unfold JS.string_of_Z. destruct z as [| p | p].
  - exists (Decimal.D0 Decimal.Nil). split; [discriminate | now left].
  - exists (Pos.to_uint p). pose proof (to_uint_nonempty p) as Hp.
    split; [exact Hp | left]. cbn [Z.to_int NilZero.string_of_int].
    destruct (Pos.to_uint p); [now elim Hp | reflexivity ..].
  - exists (Pos.to_uint p). pose proof (to_uint_nonempty p) as Hp.
    split; [exact Hp | right]. cbn [Z.to_int NilZero.string_of_int].
    destruct (Pos.to_uint p); [now elim Hp | reflexivity ..].
Qed.

Lemma split_string_of_Z (z : Z) (rest : string) :
  JS.split "/" (JS.string_of_Z z ++ String "/" rest)
  = JS.string_of_Z z :: JS.split "/" rest.
Proof.
  destruct (string_of_Z_cases z) as (u & _ & [-> | ->]); unfold JS.split.
  - now rewrite split_uint.
  - rewrite append_cons. cbn [JS.split_aux].
    change (Ascii.eqb "-" "/") with false. cbv iota.
    now rewrite split_uint.
Qed.

Lemma split_string_of_Z_end (z : Z) : JS.split "/" (JS.string_of_Z z) = [JS.string_of_Z z].
Proof.
  destruct (string_of_Z_cases z) as (u & _ & [-> | ->]); unfold JS.split.
  - now rewrite split_uint_end.
  - cbn [JS.split_aux]. change (Ascii.eqb "-" "/") with false. cbv iota.
    now rewrite split_uint_end.
Qed.

(** X19.  The blood pressure the generator writes is read back by the detector:
    [`${systolic}/${diastolic}`] splits at the ["/"] into the two numbers
    and [parseInt] returns them, so the systolic value the threshold check
    compares is the generated one, and the hypertensive-crisis alert is
    raised on a generated reading exactly when the generated systolic value
    is above [bpCritical[0]]. *)
Theorem generated_pressure_read_back (systolic diastolic : Z) (h : Z) (d : detector)
    (pid : string) (v : vitals) (p : patient)
    (Hv : bloodPressure v = generated_bloodPressure systolic diastolic) :
  map JS.parseInt (JS.split "/" (bloodPressure v)) = [Some systolic; Some diastolic]
  /\ systolic_of (bloodPressure v) = Some systolic
  /\ (raised "hypertensive_crisis" (alerts (detect h d pid v p)) <->
      exists hi, bpCritical (alertThresholds p) !! 0%nat = Some hi
                 /\ hi < inject_Z systolic).
Proof.
  assert (Hsplit : map JS.parseInt (JS.split "/" (bloodPressure v))
                   = [Some systolic; Some diastolic]).
  { rewrite Hv. unfold generated_bloodPressure.
    change ("/" ++ JS.string_of_Z diastolic) with (String "/" (JS.string_of_Z diastolic)).
    rewrite split_string_of_Z, split_string_of_Z_end. cbn [map].
    now rewrite !parseInt_string_of_Z. }
  assert (Hsys : systolic_of (bloodPressure v) = Some systolic)
    by (unfold systolic_of; now rewrite Hsplit).
  split; [exact Hsplit |]. split; [exact Hsys |].
  unfold raised. rewrite threshold_category_detect by (simpl; auto 10).
  destruct (pressure_filters v p) as (ah & al & -> & _).
  rewrite Hsys. cbn [option_map]. unfold JS.gtb_opt. split.
  - intros H.
    destruct (JS.ltb_opt (bpCritical (alertThresholds p) !! 0%nat)
                         (Some (inject_Z systolic))) eqn:E; [| now elim H].
    apply ltb_opt_true in E.
    destruct E as (a & b & Ha & Hb & Hlt). injection Hb as <-. eauto.
  - intros (hi & Hhi & Hlt).
    assert (E : JS.ltb_opt (bpCritical (alertThresholds p) !! 0%nat)
                           (Some (inject_Z systolic)) = true)
      by (apply ltb_opt_true; eauto).
    rewrite E. discriminate.
Qed.

Lemma generated_pressure_read_back_witness :
  let v := Example.pressure (generated_bloodPressure 185 95) in
  systolic_of (bloodPressure v) = Some 185%Z
  /\ raised "hypertensive_crisis" (alerts (detect 12 constructor "P001" v Sample.P001)).
Proof.
  intros v.
  destruct (generated_pressure_read_back 185 95 12 constructor "P001" v Sample.P001 eq_refl)
    as (_ & Hs & Hr).
  split; [exact Hs |]. apply Hr. exists 180. split; [reflexivity |]. reflexivity.
Defined.

(** ** The deduplication key *)


(** ** Requests the route accepts *)

Lemma parseOptionalDate_cases (Date_parse : string -> option Z) (field : string)
    (s : option string) :
  (exists txt, s = Some txt /\ txt <> "" /\ Date_parse txt = None
               /\ exists err, parseOptionalDate Date_parse field s = inl err)
  \/ parseOptionalDate Date_parse field s
     = inr (match truthy s with Some txt => Date_parse txt | None => None end).
Proof.
  unfold parseOptionalDate. destruct s as [txt |]; [| now right].
  destruct (String.eqb_spec txt "") as [-> | Hne]; [now right |].
  rewrite (truthy_given _ Hne).
  destruct (Date_parse txt) eqn:E; [now right |].
  left. exists txt. eauto.
Qed.

Lemma given_date (Date_parse : string -> option Z) (s : option string) (t : Z) :
  match truthy s with Some txt => Date_parse txt | None => None end = Some t ->
  exists txt, s = Some txt /\ txt <> "" /\ Date_parse txt = Some t.
Proof.
  destruct s as [txt |]; [| discriminate].
  destruct (String.eqb_spec txt "") as [-> | Hne]; [discriminate |].
  rewrite (truthy_given _ Hne). eauto.
Qed.

(** X21.  Every request with no invalid given date is run: when the detector has its
    model (the route injects it when the module loads) and no given date is
    unparseable or out of order, the route answers 200 with the results of
    the retrospective run on the options it builds (the patient id as
    given, each date parsed when it is a non-empty string and absent
    otherwise, [updateDatabase] true unless given), and passes on the
    detector and the collections the run left. *)
Theorem valid_request_is_run (Date_parse : string -> option Z) (e : env)
    (req : request) (det : detector) (db : Db.t)
    (Hmodel : HealthRecord det = true)
    (Hok : ~ invalid_given_dates Date_parse req) :
  let given s := match truthy s with Some txt => Date_parse txt | None => None end in
  let o := {| o_patientId := body_patientId req;
              startDate := given (body_startDate req);
              endDate := given (body_endDate req);
              updateDatabase := default true (body_updateDatabase req) |} in
  exists r det' db',
    detectRetrospectiveAnomalies e o det db = Returned r det' db'
    /\ post_retrospective Date_parse e req det db = (Status200 r, det', db').
Proof.
  intros given o. subst o.
  unfold post_retrospective.
  destruct (parseOptionalDate_cases Date_parse "startDate" (body_startDate req))
    as [(s & Hs & Hne & Hp & _) | ->].
  { elim Hok. left. eauto. }
  destruct (parseOptionalDate_cases Date_parse "endDate" (body_endDate req))
    as [(s & Hs & Hne & Hp & _) | ->].
  { elim Hok. right. left. eauto. }
  fold (given (body_startDate req)). fold (given (body_endDate req)).
  destruct (match given (body_startDate req), given (body_endDate req) with
            | Some s, Some f => (f <? s)%Z | _, _ => false end) eqn:Hrange.
  { elim Hok. right. right. subst given. cbv beta in Hrange.
    destruct (match truthy (body_startDate req) with
              | Some txt => Date_parse txt | None => None end) as [ts |] eqn:Es;
      [| discriminate].
    destruct (match truthy (body_endDate req) with
              | Some txt => Date_parse txt | None => None end) as [tf |] eqn:Ef;
      [| discriminate].
    apply given_date in Es, Ef.
    destruct Es as (s & Hs & Hns & Hps). destruct Ef as (f & Hf & Hnf & Hpf).
    apply Z.ltb_lt in Hrange. exists s, f, ts, tf. auto 10. }
  rewrite run_cases, Hmodel. cbn [negb].
  destruct (length _ =? 0)%nat; do 3 eexists; split; reflexivity.
Qed.

Lemma valid_request_is_run_witness :
  let req := {| body_patientId := None; body_startDate := Some "";
                body_endDate := Some "2025"; body_updateDatabase := None |} in
  let det := setHealthRecordModel constructor in
  let db := Sample.db_of [Sample.stored 35 0.3 0] in
  exists r det' db',
    post_retrospective Sample.Date_parse (Sample.at_hour 12) req det db
    = (Status200 r, det', db').
Proof.
  intros req det db.
  destruct (valid_request_is_run Sample.Date_parse (Sample.at_hour 12) req det db)
    as (r & det' & db' & _ & H).
  - reflexivity.
  - intros [(s & Hs & Hne & _) | [(s & Hs & _ & Hp) | (s & f & ts & tf & Hs & _ & Hne & _)]].
    + injection Hs as <-. now elim Hne.
    + injection Hs as <-. vm_compute in Hp. discriminate.
    + injection Hs as <-. now elim Hne.
  - exists r, det', db'. exact H.
Defined.
